(** * Semantic Kernel / MCP chat application: tool routing and session lifecycle

    A shallow embedding of [main.py]: the session-keyed tool store, the
    tool-name router ([find_mcp_for_tool], [call_tool]), the connection
    handlers ([on_mcp_connect], [_integrate_mcp_with_kernel],
    [on_mcp_disconnect]), the message handler ([on_message]) and the log
    capturing handler ([CapturingHandler]).

    Python dictionaries keep insertion order; where the order is observable
    ([mcp_tools], scanned by the router) they are association lists with the
    dictionary operations written out, elsewhere they are [gmap]s.  Handlers
    run in a state-and-exception monad over the [World]; everything the
    environment decides (what a server answers, what the model replies, what
    a plugin does on disconnect) is an argument of the handler.  The world
    is the process as one chat session sees it; what the other chat sessions
    do to the kernel and to the log handler, which all sessions share, are
    events of their own. *)

From stdpp Require Import gmap strings list fin_maps.

(** ** Values *)

(** JSON-like Python values: what a tool schema, a tool argument or a
    dictionary entry can hold. [JNull] is Python's [None]. *)
#[local] Unset Elimination Schemes.
Inductive json : Type :=
  | JNull
  | JBool (b : bool)
  | JNum (z : Z)
  | JStr (s : string)
  | JArr (items : list json)
  | JObj (members : list (string * json)).
#[local] Set Elimination Schemes.

(** ** Insertion-ordered dictionaries with string keys *)

Module Dict.

Definition t (V : Type) : Type := list (string * V).

Definition empty {V} : t V := [].

Definition keys {V} (d : t V) : list string := map fst d.

(** [d.get(k)] *)
Fixpoint get {V} (k : string) (d : t V) : option V :=
  match d with
  | [] => None
  | (k', v) :: rest => if String.eqb k' k then Some v else get k rest
  end.

(** [k in d] *)
Definition mem {V} (k : string) (d : t V) : bool :=
  match get k d with Some _ => true | None => false end.

(** [d[k] = v]: an existing key keeps its position, a new key goes last. *)
Fixpoint set {V} (k : string) (v : V) (d : t V) : t V :=
  match d with
  | [] => [(k, v)]
  | (k', v') :: rest =>
      if String.eqb k' k then (k', v) :: rest else (k', v') :: set k v rest
  end.

(** [del d[k]] (the callers check [k in d] first). *)
Fixpoint del {V} (k : string) (d : t V) : t V :=
  match d with
  | [] => []
  | (k', v') :: rest =>
      if String.eqb k' k then del k rest else (k', v') :: del k rest
  end.

End Dict.

(** ** MCP tools *)

(** A tool as advertised by an MCP server ([mcp.types.Tool]). *)
Record Tool : Type := {
  tool_name : string;
  tool_description : option string;
  tool_inputSchema : json;
}.

Definition json_of_optstr (o : option string) : json :=
  match o with Some s => JStr s | None => JNull end.

(** The dictionary built for one tool by the comprehension of
    [extract_mcp_tools]. *)
Definition tool_entry (tool : Tool) : Dict.t json :=
  [ ("name", JStr (tool_name tool));
    ("description", json_of_optstr (tool_description tool));
    ("input_schema", tool_inputSchema tool) ].

(** [extract_mcp_tools(tools_list)]: the list comprehension, one dictionary
    per tool, in iteration order. *)
Fixpoint extract_mcp_tools (tools_list : list Tool) : list (Dict.t json) :=
  match tools_list with
  | [] => []
  | tool :: rest => tool_entry tool :: extract_mcp_tools rest
  end.

(** [tool.get("name") == tool_name] *)
Definition name_matches (tool_name : string) (tool : Dict.t json) : bool :=
  match Dict.get "name" tool with
  | Some (JStr s) => String.eqb s tool_name
  | _ => false
  end.

(** [any(tool.get("name") == tool_name for tool in tools)] *)
Definition any_name_matches (tool_name : string) (tools : list (Dict.t json)) : bool :=
  existsb (name_matches tool_name) tools.

(** The loop of [find_mcp_for_tool] over [mcp_tools.items()]. *)
Fixpoint find_in_items (tool_name : string)
    (items : Dict.t (list (Dict.t json))) : option string :=
  match items with
  | [] => None
  | (connection_name, tools) :: rest =>
      if any_name_matches tool_name tools then Some connection_name
      else find_in_items tool_name rest
  end.

(** ** Exceptions and outcomes *)

(** The exception classes that occur.  [CancelledError] and
    [KeyboardInterrupt] derive from [BaseException] only, so a handler
    written [except Exception] lets them through. *)
Inductive exn_class : Type :=
  | ConnectionError
  | TimeoutError
  | McpError
  | ValueError
  | RuntimeError
  | CancelledError
  | KeyboardInterrupt.

(** [isinstance(e, Exception)] *)
Definition isinstance_Exception (c : exn_class) : bool :=
  match c with
  | CancelledError | KeyboardInterrupt => false
  | _ => true
  end.

(** A raised exception: its class and [str(e)]. *)
Record exn : Type := {
  exn_cls : exn_class;
  exn_str : string;
}.

(** What a call does: return a value or raise. *)
Inductive outcome (A : Type) : Type :=
  | Ret (a : A)
  | Raise (e : exn).
Arguments Ret {A} a.
Arguments Raise {A} e.

(** ** Objects held by the application *)

Inductive AuthorRole : Type := system | user | assistant | tool.

Record FunctionCallContent : Type := {
  fc_name : string;
  fc_arguments : json;
}.

(** A chat message; [function_calls] are the tool-call requests among its
    items, [msg_content] is what [str(message)] gives. *)
Record ChatMessageContent : Type := {
  role : AuthorRole;
  msg_content : string;
  function_calls : list FunctionCallContent;
}.

(** [ChatHistory]: the ordered messages. *)
Definition ChatHistory : Type := list ChatMessageContent.

(** [history.add_user_message(content)] *)
Definition add_user_message (content : string) (history : ChatHistory) : ChatHistory :=
  history ++ [ {| role := user; msg_content := content; function_calls := [] |} ].

(** [history.add_message(message)] *)
Definition add_message (message : ChatMessageContent) (history : ChatHistory) : ChatHistory :=
  history ++ [message].

Record MCPSsePlugin : Type := {
  plugin_name : string;
  plugin_description : string;
  plugin_url : string;
}.

Record CallToolResult : Type := {
  result_content : list string;
  result_isError : bool;
}.

(** A live MCP client session: what [list_tools()] and
    [call_tool(name, arguments)] do on it. *)
Record ClientSession : Type := {
  list_tools : outcome (list Tool);
  session_call_tool : string -> json -> outcome CallToolResult;
}.

(** The [connection] object handed to [on_mcp_connect]; [conn_url] is
    [getattr(connection, 'url', None)]. *)
Record McpConnection : Type := {
  conn_name : string;
  conn_url : option string;
}.

Record ToolUse : Type := {
  tu_name : string;
  tu_input : json;
}.

(** The value of [current_step.output], which is a string: that of a step
    nothing was stored in, the string produced by [json.dumps] on a
    dictionary, the string Chainlit's output setter makes of a session
    result object, which is not a string (it is made from [str(result)]), or
    a given text. *)
Inductive output : Type :=
  | NoOutput
  | json_dumps (obj : json)
  | str_of_result (result : CallToolResult)
  | OutputText (text : string).

Record Step : Type := {
  step_name : string;
  step_output : output;
}.

Record Text : Type := {
  text_name : string;
  text_content : string;
}.

(** Truth value of an [Optional[str]]: [None] and the empty string are false. *)
Definition truthy (o : option string) : bool :=
  match o with
  | Some s => negb (String.eqb s "")
  | None => false
  end.

Definition newline : string := String (Ascii.ascii_of_nat 10) EmptyString.

(** ** The log capturing handler *)

(** A log record as the formatter reads it: [message] is
    [record.getMessage()]; [exc_text] is the traceback text of a record
    logged with exception information, [stack_info] the stack text of a
    record logged with stack information; both are [None] on a plain
    record. *)
Record LogRecord : Type := {
  levelname : string;
  logger_name : string;
  message : string;
  exc_text : option string;
  stack_info : option string;
}.

(** [s[-1:] == "\n"] *)
Fixpoint ends_with_newline (s : string) : bool :=
  match s with
  | EmptyString => false
  | String c rest =>
      match rest with
      | EmptyString => Ascii.eqb c (Ascii.ascii_of_nat 10)
      | String _ _ => ends_with_newline rest
      end
  end.

(** What [logging.Formatter.format] does with the exception text and with
    the stack text of a record: a text that is there goes after the line, on
    a line of its own. *)
Definition append_block (s : string) (block : option string) : string :=
  if truthy block then
    (if ends_with_newline s then s else s +:+ newline) +:+ default "" block
  else s.

Module CapturingHandler.

Record t : Type := { logs : list string }.

(** [__init__] *)
Definition init : t := {| logs := [] |}.

(** The formatter installed by [setup_logging], a [logging.Formatter] on
    ["[%(levelname)s] %(name)s: %(message)s"]. *)
Definition format (record : LogRecord) : string :=
  let s :=
    "[" +:+ levelname record +:+ "] " +:+ logger_name record +:+ ": " +:+ message record in
  let s := append_block s (exc_text record) in
  let s := append_block s (stack_info record) in
  s.

Definition emit (record : LogRecord) (self : t) : t :=
  let log_entry := format record in
  {| logs := logs self ++ [log_entry] |}.

Definition get_logs (self : t) : list string := logs self.

Definition clear (self : t) : t := {| logs := [] |}.

End CapturingHandler.

(** ** The world *)

(** The per-session store [cl.user_session]; a key that was never set is
    [None]. *)
Record UserSession : Type := {
  mcp_tools : option (Dict.t (list (Dict.t json)));
  mcp_plugins : option (gmap string MCPSsePlugin);
  history : option ChatHistory;
}.

(** What the handlers do to the outside, in order. *)
Inductive effect : Type :=
  | Print (line : string)
  | PrintTools (tools : list Tool)
  | Send (content : string)
  | EnterStep (type : string) (name : string)
  | StepUpdate (elements : list Text)
  | ModelCall (chat_history : ChatHistory)
  | SessionCallTool (mcp_name : string) (tool_name : string) (tool_input : json)
  | PluginConnect (name : string)
  | PluginDisconnect (name : string).

(** The process as one chat session sees it.  [kernel] and
    [capturing_handler] are the module globals, which every chat session of
    the process shares; [user_session], [mcp_sessions] and [current_step]
    are the session's own.  [add_plugin_error] is the text of the error with
    which the kernel refuses a plugin name. *)
Record World : Type := {
  kernel : gmap string MCPSsePlugin;        (* the plugins of the global [kernel] *)
  capturing_handler : CapturingHandler.t;   (* the global handler *)
  user_session : UserSession;               (* [cl.user_session] *)
  mcp_sessions : gmap string ClientSession; (* [cl.context.session.mcp_sessions] *)
  current_step : Step;                      (* [cl.context.current_step] *)
  effects : list effect;
  add_plugin_error : string -> string;      (* [str(e)] when [kernel.add_plugin] raises *)
}.

Definition with_kernel (k : gmap string MCPSsePlugin) (w : World) : World :=
  {| kernel := k; capturing_handler := capturing_handler w;
     user_session := user_session w; mcp_sessions := mcp_sessions w;
     current_step := current_step w; effects := effects w;
     add_plugin_error := add_plugin_error w |}.

Definition with_handler (h : CapturingHandler.t) (w : World) : World :=
  {| kernel := kernel w; capturing_handler := h;
     user_session := user_session w; mcp_sessions := mcp_sessions w;
     current_step := current_step w; effects := effects w;
     add_plugin_error := add_plugin_error w |}.

Definition with_user_session (s : UserSession) (w : World) : World :=
  {| kernel := kernel w; capturing_handler := capturing_handler w;
     user_session := s; mcp_sessions := mcp_sessions w;
     current_step := current_step w; effects := effects w;
     add_plugin_error := add_plugin_error w |}.

Definition with_mcp_sessions (m : gmap string ClientSession) (w : World) : World :=
  {| kernel := kernel w; capturing_handler := capturing_handler w;
     user_session := user_session w; mcp_sessions := m;
     current_step := current_step w; effects := effects w;
     add_plugin_error := add_plugin_error w |}.

Definition with_current_step (s : Step) (w : World) : World :=
  {| kernel := kernel w; capturing_handler := capturing_handler w;
     user_session := user_session w; mcp_sessions := mcp_sessions w;
     current_step := s; effects := effects w;
     add_plugin_error := add_plugin_error w |}.

Definition with_effects (l : list effect) (w : World) : World :=
  {| kernel := kernel w; capturing_handler := capturing_handler w;
     user_session := user_session w; mcp_sessions := mcp_sessions w;
     current_step := current_step w; effects := l;
     add_plugin_error := add_plugin_error w |}.

Definition set_mcp_tools (d : Dict.t (list (Dict.t json))) (s : UserSession) : UserSession :=
  {| mcp_tools := Some d; mcp_plugins := mcp_plugins s; history := history s |}.

Definition set_mcp_plugins (m : gmap string MCPSsePlugin) (s : UserSession) : UserSession :=
  {| mcp_tools := mcp_tools s; mcp_plugins := Some m; history := history s |}.

Definition set_history (h : ChatHistory) (s : UserSession) : UserSession :=
  {| mcp_tools := mcp_tools s; mcp_plugins := mcp_plugins s; history := Some h |}.

(** The state of a freshly started process: nothing registered, nothing
    logged, no session key set.  The text of the kernel's refusal is the
    library's; the sample runs take this one. *)
Definition initial_world : World :=
  {| kernel := ∅;
     capturing_handler := CapturingHandler.init;
     user_session := {| mcp_tools := None; mcp_plugins := None; history := None |};
     mcp_sessions := ∅;
     current_step := {| step_name := ""; step_output := NoOutput |};
     effects := [];
     add_plugin_error := λ name, "String should match pattern '^[0-9A-Za-z_]+$'" |}.

(** ** The handler monad: state over the [World], with exceptions *)

Definition M (A : Type) : Type := World -> World * outcome A.

#[global] Instance M_ret : MRet M := λ A a w, (w, Ret a).

#[global] Instance M_bind : MBind M := λ A B f m w,
  match m w with
  | (w', Ret a) => f a w'
  | (w', Raise e) => (w', Raise e)
  end.

Definition raise {A} (e : exn) : M A := λ w, (w, Raise e).

(** The result of a call into the environment. *)
Definition lift {A} (o : outcome A) : M A := λ w, (w, o).

Definition gets {A} (f : World -> A) : M A := λ w, (w, Ret (f w)).

Definition modify (f : World -> World) : M unit := λ w, (f w, Ret tt).

Definition do_effect (e : effect) : M unit :=
  modify (λ w, with_effects (effects w ++ [e]) w).

(** [try: body / except Exception as e: handler]; what the body did to the
    world before raising stays done, and an exception that is not an
    [Exception] passes through. *)
Definition try_except_Exception {A} (body : M A) (handler : exn -> M A) : M A := λ w,
  match body w with
  | (w', Raise e) =>
      if isinstance_Exception (exn_cls e) then handler e w' else (w', Raise e)
  | r => r
  end.

Definition print (line : string) : M unit := do_effect (Print line).

(** [await cl.Message(content=...).send()] *)
Definition send (content : string) : M unit := do_effect (Send content).

Definition modify_user_session (f : UserSession -> UserSession) : M unit :=
  modify (λ w, with_user_session (f (user_session w)) w).

(** ** The router *)

(** [find_mcp_for_tool(tool_name)] *)
Definition find_mcp_for_tool (tool_name : string) : M (option string) :=
  mcp_tools ← gets (λ w, default Dict.empty (mcp_tools (user_session w)));
  mret (find_in_items tool_name mcp_tools).

Definition set_step_output (o : output) : M unit :=
  modify (λ w, with_current_step
                 {| step_name := step_name (current_step w); step_output := o |} w).

Definition error_payload (error_msg : string) : output :=
  json_dumps (JObj [("error", JStr error_msg)]).

(** The [try] block of [call_tool]: [Some out] when it returns [out] from
    inside the block, [None] when it runs to its end. *)
Definition call_tool_body (tool_name : string) (tool_input : json) : M (option output) :=
  mcp_name ← find_mcp_for_tool tool_name;
  if negb (truthy mcp_name) then
    let error_msg := "Tool " +:+ tool_name +:+ " not found in any MCP connection" in
    set_step_output (error_payload error_msg);;
    out ← gets (λ w, step_output (current_step w));
    mret (Some out)
  else
    let mcp_name := default "" mcp_name in
    mcp_session_data ← gets (λ w, mcp_sessions w !! mcp_name);
    match mcp_session_data with
    | None =>
        let error_msg := "MCP session " +:+ mcp_name +:+ " not found" in
        set_step_output (error_payload error_msg);;
        out ← gets (λ w, step_output (current_step w));
        mret (Some out)
    | Some mcp_session =>
        do_effect (SessionCallTool mcp_name tool_name tool_input);;
        result ← lift (session_call_tool mcp_session tool_name tool_input);
        set_step_output (str_of_result result);;
        mret None
    end.

(** Leaving a step ([Step.__aexit__]): when an exception passes through,
    its text becomes the output of the step. *)
Definition step_exit {A} (body : M A) : M A := λ w,
  match body w with
  | (w', Raise e) =>
      (with_current_step
         {| step_name := step_name (current_step w'); step_output := OutputText (exn_str e) |} w',
       Raise e)
  | r => r
  end.

(** [call_tool(tool_use)], entered through its [@cl.step(type="tool")]
    decorator, which runs the function in a step named after the function;
    the string the function returns is the one the step holds. *)
Definition call_tool (tool_use : ToolUse) : M output :=
  let tool_name := tu_name tool_use in
  let tool_input := tu_input tool_use in
  do_effect (EnterStep "tool" "call_tool");;
  modify (with_current_step {| step_name := "call_tool"; step_output := NoOutput |});;
  step_exit
    ( modify (λ w, with_current_step
                     {| step_name := tool_name; step_output := step_output (current_step w) |} w);;
      returned ← try_except_Exception
        (call_tool_body tool_name tool_input)
        (λ e,
          let error_msg := "Error executing tool " +:+ tool_name +:+ ": " +:+ exn_str e in
          set_step_output (error_payload error_msg);;
          print error_msg;;
          mret None);
      match returned with
      | Some out => mret out
      | None => gets (λ w, step_output (current_step w))
      end ).

(** ** Connection lifecycle *)

(** The characters of a plugin name: digits, letters and the underscore. *)
Definition plugin_name_char (c : Ascii.ascii) : bool :=
  let n := Ascii.nat_of_ascii c in
  ((48 <=? n)%nat && (n <=? 57)%nat) || ((65 <=? n)%nat && (n <=? 90)%nat) ||
  ((97 <=? n)%nat && (n <=? 122)%nat) || (n =? 95)%nat.

Fixpoint all_chars (f : Ascii.ascii -> bool) (s : string) : bool :=
  match s with
  | EmptyString => true
  | String c rest => f c && all_chars f rest
  end.

(** The names the kernel takes a plugin under: those matching
    [^[0-9A-Za-z_]+$]. *)
Definition valid_plugin_name (name : string) : bool :=
  negb (String.eqb name "") && all_chars plugin_name_char name.

(** [kernel.add_plugin(plugin)] for a plugin object: the kernel registers it
    under the object's name, in the place of what it held under that name,
    and raises for a name it does not take. *)
Definition add_plugin (plugin : MCPSsePlugin) : M unit := λ w,
  if valid_plugin_name (plugin_name plugin)
  then (with_kernel (<[plugin_name plugin := plugin]> (kernel w)) w, Ret tt)
  else (w, Raise {| exn_cls := ValueError;
                    exn_str := add_plugin_error w (plugin_name plugin) |}).

(** [_integrate_mcp_with_kernel(connection)]; [plugin_connect] is what
    [mcp_plugin.connect()] does. *)
Definition _integrate_mcp_with_kernel (connection : McpConnection)
    (plugin_connect : outcome unit) : M unit :=
  let name := conn_name connection in
  try_except_Exception
    ( let mcp_url := conn_url connection in
      (if negb (truthy mcp_url)
       then raise {| exn_cls := ValueError;
                     exn_str := "No URL found for MCP connection " +:+ name |}
       else mret tt);;
      let mcp_url := default "" mcp_url in
      print ("Using MCP URL: " +:+ mcp_url);;
      let mcp_plugin := {| plugin_name := name;
                           plugin_description := "MCP Plugin for " +:+ name;
                           plugin_url := mcp_url |} in
      do_effect (PluginConnect name);;
      lift plugin_connect;;
      add_plugin mcp_plugin;;
      mcp_plugins ← gets (λ w, default ∅ (mcp_plugins (user_session w)));
      modify_user_session (set_mcp_plugins (<[name := mcp_plugin]> mcp_plugins));;
      send ("Successfully connected " +:+ name +:+ " to Semantic Kernel");;
      print ("Added MCP plugin " +:+ name +:+ " to Semantic Kernel") )
    (λ e,
      let error_msg := "Failed to integrate " +:+ name +:+ " with Semantic Kernel: " +:+ exn_str e in
      send error_msg;;
      print error_msg).

(** [on_mcp_connect(connection, session)] *)
Definition on_mcp_connect (connection : McpConnection) (session : ClientSession)
    (plugin_connect : outcome unit) : M unit :=
  let name := conn_name connection in
  try_except_Exception
    ( result ← lift (list_tools session);
      print ("Connected to MCP: " +:+ name);;
      do_effect (PrintTools result);;
      let tools := extract_mcp_tools result in
      mcp_tools ← gets (λ w, default Dict.empty (mcp_tools (user_session w)));
      let mcp_tools := Dict.set name tools mcp_tools in
      modify_user_session (set_mcp_tools mcp_tools);;
      _integrate_mcp_with_kernel connection plugin_connect )
    (λ e,
      let error_msg := "Failed to handle MCP connection for " +:+ name +:+ ": " +:+ exn_str e in
      send error_msg;;
      print error_msg).

(** [on_mcp_disconnect(connection_name)]; [plugin_disconnect] is [None] when
    the plugin object has no [disconnect] attribute, otherwise what
    [plugin.disconnect()] does. *)
Definition on_mcp_disconnect (connection_name : string)
    (plugin_disconnect : option (outcome unit)) : M unit :=
  try_except_Exception
    ( mcp_tools ← gets (λ w, default Dict.empty (mcp_tools (user_session w)));
      (if Dict.mem connection_name mcp_tools
       then modify_user_session (set_mcp_tools (Dict.del connection_name mcp_tools))
       else mret tt);;
      mcp_plugins ← gets (λ w, default ∅ (mcp_plugins (user_session w)));
      match mcp_plugins !! connection_name with
      | Some plugin =>
          match plugin_disconnect with
          | Some disconnect =>
              do_effect (PluginDisconnect connection_name);; lift disconnect
          | None => mret tt
          end;;
          modify_user_session (set_mcp_plugins (delete connection_name mcp_plugins));;
          send ("Successfully disconnected " +:+ connection_name +:+ " from Semantic Kernel");;
          print ("Removed MCP plugin " +:+ connection_name +:+ " from Semantic Kernel")
      | None =>
          send ("MCP connection " +:+ connection_name +:+ " was not found in active plugins")
      end )
    (λ e,
      let error_msg := "Error during MCP disconnection for " +:+ connection_name +:+ ": " +:+ exn_str e in
      send error_msg;;
      print error_msg).

(** [start_chat()] *)
Definition start_chat : M unit :=
  modify_user_session (set_mcp_plugins ∅);;
  modify_user_session (set_mcp_tools Dict.empty);;
  modify_user_session (set_history []).

(** ** The message handler *)

Definition ascii_lower (c : Ascii.ascii) : Ascii.ascii :=
  let n := Ascii.nat_of_ascii c in
  if (65 <=? n)%nat && (n <=? 90)%nat then Ascii.ascii_of_nat (n + 32) else c.

(** [s.lower()] *)
Fixpoint lower (s : string) : string :=
  match s with
  | EmptyString => EmptyString
  | String c rest => String (ascii_lower c) (lower rest)
  end.

(** [sub in s] *)
Fixpoint contains (sub s : string) : bool :=
  String.prefix sub s ||
  match s with
  | EmptyString => false
  | String _ rest => contains sub rest
  end.

(** [cl.Text(name=name, content=content)]: an element is given a URL, a
    path or a content that is not empty, and here only a content. *)
Definition cl_Text (name content : string) : outcome Text :=
  if String.eqb content "" then
    Raise {| exn_cls := ValueError;
             exn_str := "Must provide url, path or content to instantiate element" |}
  else Ret {| text_name := name; text_content := content |}.

(** [thought_elements.append(cl.Text(name=name, content=content))] *)
Definition append_Text (thought_elements : list Text) (name content : string)
    : outcome (list Text) :=
  match cl_Text name content with
  | Ret element => Ret (thought_elements ++ [element])
  | Raise e => Raise e
  end.

(** [create_thought_elements(thought_process)] *)
Definition create_thought_elements (thought_process : list string) : outcome (list Text) :=
  let thought_elements := [] in
  let plugin_logs :=
    List.filter (λ log, contains "plugin" (lower log) || contains "function" (lower log))
                thought_process in
  match
    match plugin_logs with
    | [] => Ret thought_elements
    | _ => append_Text thought_elements "Plugin Activity" (String.concat newline plugin_logs)
    end
  with
  | Raise e => Raise e
  | Ret thought_elements =>
      match thought_process with
      | [] => Ret thought_elements
      | _ => append_Text thought_elements "Semantic Kernel Logs"
               (String.concat newline thought_process)
      end
  end.

(** What one call of [chat_completion_service.get_chat_message_content]
    does, with automatic function calling switched on: the records it logs
    under the [semantic_kernel] loggers, the messages it adds itself to the
    chat history it was handed (the assistant's tool-call requests and the
    tool results of the rounds it runs), and its result. *)
Record ServiceReply : Type := {
  reply_logs : list LogRecord;
  reply_appended : list ChatMessageContent;
  reply_result : outcome ChatMessageContent;
}.

(** The completion service sees the chat history and the kernel's plugins. *)
Definition Service : Type := ChatHistory -> gmap string MCPSsePlugin -> ServiceReply.

Definition modify_history (f : ChatHistory -> ChatHistory) : M unit :=
  modify_user_session (λ s, set_history (f (default [] (history s))) s).

Definition emit_all (records : list LogRecord) (h : CapturingHandler.t) : CapturingHandler.t :=
  fold_left (λ h r, CapturingHandler.emit r h) records h.

(** The call of the service from [on_message]: the history object of the
    session is passed by reference, the handler captures what is logged. *)
Definition get_chat_message_content (service : Service) : M ChatMessageContent :=
  chat_history ← gets (λ w, default [] (history (user_session w)));
  plugins ← gets kernel;
  do_effect (ModelCall chat_history);;
  let reply := service chat_history plugins in
  modify (λ w, with_handler (emit_all (reply_logs reply) (capturing_handler w)) w);;
  modify_history (λ h, h ++ reply_appended reply);;
  lift (reply_result reply).

(** Truth value of the stored history: unset and empty are false. *)
Definition truthy_history (h : option ChatHistory) : bool :=
  match h with
  | Some (_ :: _) => true
  | _ => false
  end.

(** [on_message(msg)]; [content] is [msg.content]. *)
Definition on_message (content : string) (service : Service) : M unit :=
  try_except_Exception
    ( history ← gets (λ w, history (user_session w));
      (if negb (truthy_history history)
       then modify_user_session (set_history [])
       else mret tt);;
      modify_history (add_user_message content);;
      modify (λ w, with_handler (CapturingHandler.clear (capturing_handler w)) w);;
      do_effect (EnterStep "undefined" "Thinking...");;
      try_except_Exception
        ( response ← get_chat_message_content service;
          modify_history (add_message response);;
          thought_process ← gets (λ w, CapturingHandler.get_logs (capturing_handler w));
          thought_elements ← lift (create_thought_elements thought_process);
          match thought_elements with
          | [] => mret tt
          | _ => do_effect (StepUpdate thought_elements)
          end;;
          send (msg_content response) )
        (λ e,
          let error_msg := "Error processing message: " +:+ exn_str e in
          send error_msg;;
          print error_msg) )
    (λ e,
      let error_msg := "Unexpected error in message handler: " +:+ exn_str e in
      send error_msg;;
      print error_msg).

(** ** Events over the lifetime of the process *)

(** Everything that can happen to the world: the Chainlit callbacks of the
    session with what the environment answers in them, a tool call through
    the router, a record logged under [semantic_kernel] outside a turn, the
    transport changing its table of live sessions, and what the handlers of
    another chat session do to the globals: its connection handler handing a
    plugin to the kernel, its message handler clearing the log handler and
    having the records of its turn captured. *)
Inductive event : Type :=
  | ChatStart
  | McpConnect (connection : McpConnection) (session : ClientSession)
               (plugin_connect : outcome unit)
  | McpDisconnect (connection_name : string) (plugin_disconnect : option (outcome unit))
  | Message (content : string) (service : Service)
  | ToolCall (tool_use : ToolUse)
  | Logged (record : LogRecord)
  | Transport (sessions : gmap string ClientSession)
  | OtherSessionConnect (plugin : MCPSsePlugin)
  | OtherSessionTurn (records : list LogRecord).

Definition handle (ev : event) : M unit :=
  match ev with
  | ChatStart => start_chat
  | McpConnect connection session plugin_connect =>
      on_mcp_connect connection session plugin_connect
  | McpDisconnect connection_name plugin_disconnect =>
      on_mcp_disconnect connection_name plugin_disconnect
  | Message content service => on_message content service
  | ToolCall tool_use => call_tool tool_use;; mret tt
  | Logged record =>
      modify (λ w, with_handler (CapturingHandler.emit record (capturing_handler w)) w)
  | Transport sessions => modify (with_mcp_sessions sessions)
  | OtherSessionConnect plugin =>
      try_except_Exception (add_plugin plugin) (λ _, mret tt)
  | OtherSessionTurn records =>
      modify (λ w, with_handler
                     (emit_all records (CapturingHandler.clear (capturing_handler w))) w)
  end.

Definition step (w : World) (ev : event) : World := fst (handle ev w).

Definition run (w : World) (evs : list event) : World := fold_left step evs w.

(** Reading the router in a world. *)
Definition resolve (w : World) (tool_name : string) : option string :=
  match snd (find_mcp_for_tool tool_name w) with
  | Ret r => r
  | Raise _ => None
  end.

(** The stored tool table, as [cl.user_session.get("mcp_tools", {})] reads it. *)
Definition tools_table (w : World) : Dict.t (list (Dict.t json)) :=
  default Dict.empty (mcp_tools (user_session w)).

(** [s] is the first connection, in the order of the table, whose stored
    tools contain the name. *)
Definition first_advertiser (items : Dict.t (list (Dict.t json)))
    (tool_name : string) (s : string) : Prop :=
  ∃ pre tools post,
    items = pre ++ (s, tools) :: post ∧
    any_name_matches tool_name tools = true ∧
    Forall (λ kv, any_name_matches tool_name kv.2 = false) pre.

(** [s] has an entry in the table and its stored tools contain the name. *)
Definition advertises (items : Dict.t (list (Dict.t json)))
    (s : string) (tool_name : string) : Prop :=
  ∃ tools, (s, tools) ∈ items ∧ any_name_matches tool_name tools = true.

(** Both [a] and [b] have an entry containing the name, [a]'s before [b]'s. *)
Definition collide_in_order (items : Dict.t (list (Dict.t json)))
    (tool_name : string) (a b : string) : Prop :=
  ∃ pre tools_a mid tools_b post,
    items = pre ++ (a, tools_a) :: mid ++ (b, tools_b) :: post ∧
    any_name_matches tool_name tools_a = true ∧
    any_name_matches tool_name tools_b = true.

(** The tool-call steps entered so far: one per invocation of [call_tool]. *)
Definition router_invocations (l : list effect) : nat :=
  length (List.filter (λ e, match e with EnterStep "tool" _ => true | _ => false end) l).

(** The calls made on live sessions so far. *)
Definition session_calls (l : list effect) : list effect :=
  List.filter (λ e, match e with SessionCallTool _ _ _ => true | _ => false end) l.

(** The model calls made so far. *)
Definition model_calls (l : list effect) : nat :=
  length (List.filter (λ e, match e with ModelCall _ => true | _ => false end) l).

(** The error lines printed so far: every [except] branch of the handlers
    prints its [error_msg]. *)
Definition printed (l : list effect) : list string :=
  omap (λ e, match e with Print line => Some line | _ => None end) l.

(** The router's guarantee read per descriptor: the name resolves to [s]
    exactly when [s] is connected and its stored tools contain the name. *)
Definition resolves_iff_owner_active (w : World) (s tool_name : string) : Prop :=
  resolve w tool_name = Some s ↔ advertises (tools_table w) s tool_name.

(** ** Sample servers and conversations *)

Definition tool_X : Tool :=
  {| tool_name := "X"; tool_description := Some "sample tool"; tool_inputSchema := JObj [] |}.

Definition tool_Y : Tool :=
  {| tool_name := "Y"; tool_description := None; tool_inputSchema := JObj [] |}.

Definition ok_result : CallToolResult :=
  {| result_content := ["done"]; result_isError := false |}.

(** A session advertising [tools] whose calls all succeed. *)
Definition session_of (tools : list Tool) : ClientSession :=
  {| list_tools := Ret tools; session_call_tool := λ _ _, Ret ok_result |}.

(** A session whose calls time out. *)
Definition session_timing_out (tools : list Tool) : ClientSession :=
  {| list_tools := Ret tools;
     session_call_tool := λ _ _, Raise {| exn_cls := TimeoutError; exn_str := "timed out" |} |}.

Definition connection_of (name : string) : McpConnection :=
  {| conn_name := name; conn_url := Some ("http://" +:+ name +:+ "/sse") |}.

Definition connect (name : string) (tools : list Tool) : event :=
  McpConnect (connection_of name) (session_of tools) (Ret tt).

(** [A] is connected with a live session whose calls succeed. *)
Definition world_A_live : World :=
  run initial_world
    [ChatStart; connect "A" [tool_X; tool_Y]; Transport {["A" := session_of [tool_X; tool_Y]]}].

(** Two servers advertising the same tool name. *)
Definition world_AB : World :=
  run initial_world [ChatStart; connect "A" [tool_X]; connect "B" [tool_X]].

(** Three servers advertising the same tool name. *)
Definition world_CAB : World :=
  run initial_world
    [ChatStart; connect "C" [tool_X]; connect "A" [tool_X]; connect "B" [tool_X]].

(** One server advertising [X]. *)
Definition world_A : World :=
  run initial_world [ChatStart; connect "A" [tool_X]].

(** A server registered under the empty name, with no live session. *)
Definition world_unnamed : World :=
  run initial_world [ChatStart; connect "" [tool_X]].

(** [A] is connected, advertises [X], and its session times out. *)
Definition world_A_timing_out : World :=
  run initial_world
    [ChatStart;
     McpConnect (connection_of "A") (session_timing_out [tool_X]) (Ret tt);
     Transport {["A" := session_timing_out [tool_X]]}].

Definition use_X : ToolUse := {| tu_name := "X"; tu_input := JObj [("query", JStr "policy")] |}.

(** [call_tool] written as the case analysis it performs: on the resolved
    name, on the session table, and on what the session call does. *)
Definition call_tool_cases (tool_use : ToolUse) (w : World) : World * outcome output :=
  let tool_name := tu_name tool_use in
  let entered :=
    with_current_step {| step_name := tool_name; step_output := NoOutput |}
      (with_effects (effects w ++ [EnterStep "tool" "call_tool"]) w) in
  let report (w1 : World) (error_msg : string) : World :=
    with_current_step {| step_name := tool_name; step_output := error_payload error_msg |} w1 in
  let not_found := "Tool " +:+ tool_name +:+ " not found in any MCP connection" in
  match resolve w tool_name with
  | None => (report entered not_found, Ret (error_payload not_found))
  | Some mcp_name =>
      if String.eqb mcp_name "" then (report entered not_found, Ret (error_payload not_found))
      else
        match mcp_sessions w !! mcp_name with
        | None =>
            let error_msg := "MCP session " +:+ mcp_name +:+ " not found" in
            (report entered error_msg, Ret (error_payload error_msg))
        | Some mcp_session =>
            let called :=
              with_effects
                (effects entered ++ [SessionCallTool mcp_name tool_name (tu_input tool_use)])
                entered in
            match session_call_tool mcp_session tool_name (tu_input tool_use) with
            | Ret result =>
                (with_current_step
                   {| step_name := tool_name; step_output := str_of_result result |} called,
                 Ret (str_of_result result))
            | Raise e =>
                if isinstance_Exception (exn_cls e) then
                  let error_msg :=
                    "Error executing tool " +:+ tool_name +:+ ": " +:+ exn_str e in
                  (with_effects (effects called ++ [Print error_msg]) (report called error_msg),
                   Ret (error_payload error_msg))
                else
                  (with_current_step
                     {| step_name := tool_name; step_output := OutputText (exn_str e) |} called,
                   Raise e)
            end
        end
  end.

(** [on_message] written as the case analysis it performs on the result of
    the one service call it makes. *)
Definition on_message_cases (content : string) (service : Service) (w : World)
    : World * outcome unit :=
  let before := default [] (history (user_session w)) in
  let asked := add_user_message content before in
  let reply := service asked (kernel w) in
  let captured := map CapturingHandler.format (reply_logs reply) in
  let seen := asked ++ reply_appended reply in
  let after (h : ChatHistory) (done : list effect) : World :=
    with_effects (effects w ++ [EnterStep "undefined" "Thinking..."; ModelCall asked] ++ done)
      (with_handler {| CapturingHandler.logs := captured |}
         (with_user_session (set_history h (user_session w)) w)) in
  let failed (h : ChatHistory) (e : exn) : World * outcome unit :=
    if isinstance_Exception (exn_cls e) then
      let error_msg := "Error processing message: " +:+ exn_str e in
      (after h [Send error_msg; Print error_msg], Ret tt)
    else (after h [], Raise e) in
  match reply_result reply with
  | Ret response =>
      match create_thought_elements captured with
      | Ret thought_elements =>
          (after (add_message response seen)
             (match thought_elements with
              | [] => []
              | _ => [StepUpdate thought_elements]
              end ++ [Send (msg_content response)]),
           Ret tt)
      | Raise e => failed (add_message response seen) e
      end
  | Raise e => failed seen e
  end.

(** The stored plugin table, as [cl.user_session.get("mcp_plugins", {})]
    reads it. *)
Definition plugins_table (w : World) : gmap string MCPSsePlugin :=
  default ∅ (mcp_plugins (user_session w)).

(** What the chat history of the session holds. *)
Definition chat_history_of (w : World) : ChatHistory :=
  default [] (history (user_session w)).

(** A completion service whose every reply asks for a tool call. *)
Definition service_always_calling : Service := λ _ _,
  {| reply_logs := [];
     reply_appended := [];
     reply_result :=
       Ret {| role := assistant; msg_content := "";
              function_calls := [ {| fc_name := "X"; fc_arguments := JObj [] |} ] |} |}.

(** A completion service that answers in text, logging one record. *)
Definition service_answering (answer : string) : Service := λ _ _,
  {| reply_logs :=
       [ {| levelname := "INFO"; logger_name := "semantic_kernel.kernel";
            message := "answered " +:+ answer;
            exc_text := None; stack_info := None |} ];
     reply_appended := [];
     reply_result := Ret {| role := assistant; msg_content := answer; function_calls := [] |} |}.

(** Every reply of the service asks for at least one tool call. *)
Definition always_requests_tools (service : Service) : Prop :=
  ∀ chat_history plugins,
    ∃ response, reply_result (service chat_history plugins) = Ret response ∧
                function_calls response ≠ [].

(** The turn ends in an error: an exception leaves [on_message], or one of
    its [except] branches reported (sent and printed) an error message. *)
Definition turn_aborts (content : string) (service : Service) (w : World) : Prop :=
  (∃ e, snd (on_message content service w) = Raise e) ∨
  printed (effects (fst (on_message content service w))) ≠ printed (effects w).

Arguments create_thought_elements : simpl never.
Arguments CapturingHandler.format : simpl never.

(** ** Service configuration *)

(** The arguments [create_azure_chat_service] hands to the
    [AzureChatCompletion] constructor. *)
Record AzureChatCompletionArgs : Type := {
  deployment_name : option string;
  api_key : option string;
  base_url : option string;
  api_version : option string;
  service_id : string;
}.

Definition required_env_vars : list string :=
  [ "AZURE_OPENAI_CHAT_DEPLOYMENT_NAME";
    "AZURE_OPENAI_API_KEY";
    "AZURE_OPENAI_BASE_URL";
    "AZURE_OPENAI_API_VERSION" ].

(** [os.getenv(var)] in the process environment [environ]. *)
Definition getenv (environ : gmap string string) (var : string) : option string :=
  environ !! var.

(** [repr] of a string without quote, backslash or unprintable character,
    as the names of the environment variables are. *)
Definition repr_str (s : string) : string := "'" +:+ s +:+ "'".

(** [str] of a list of such strings, as an f-string renders it. *)
Definition repr_list (l : list string) : string :=
  "[" +:+ String.concat ", " (map repr_str l) +:+ "]".

(** [create_azure_chat_service()] in the process environment [environ];
    [AzureChatCompletion] is the constructor of the service, which returns
    the service object or raises, as it does for a base URL it cannot use. *)
Definition create_azure_chat_service {Svc : Type} (environ : gmap string string)
    (AzureChatCompletion : AzureChatCompletionArgs -> outcome Svc) : outcome Svc :=
  let missing_vars :=
    List.filter (λ var, negb (truthy (getenv environ var))) required_env_vars in
  match missing_vars with
  | _ :: _ =>
      Raise {| exn_cls := ValueError;
               exn_str := "Missing required environment variables: "
                          +:+ repr_list missing_vars |}
  | [] =>
      AzureChatCompletion
        {| deployment_name := getenv environ "AZURE_OPENAI_CHAT_DEPLOYMENT_NAME";
           api_key := getenv environ "AZURE_OPENAI_API_KEY";
           base_url := getenv environ "AZURE_OPENAI_BASE_URL";
           api_version := getenv environ "AZURE_OPENAI_API_VERSION";
           service_id := "azure-openai-svc" |}
  end.

(** A complete environment, and one where the key is empty and the version
    is not set. *)
Definition environ_complete : gmap string string :=
  <["AZURE_OPENAI_CHAT_DEPLOYMENT_NAME" := "gpt-4.1"]>
    (<["AZURE_OPENAI_API_KEY" := "secret"]>
       (<["AZURE_OPENAI_BASE_URL" := "https://example.openai.azure.com"]>
          (<["AZURE_OPENAI_API_VERSION" := "2024-06-01"]> ∅))).

Definition environ_incomplete : gmap string string :=
  <["AZURE_OPENAI_CHAT_DEPLOYMENT_NAME" := "gpt-4.1"]>
    (<["AZURE_OPENAI_API_KEY" := ""]>
       (<["AZURE_OPENAI_BASE_URL" := "https://example.openai.azure.com"]> ∅)).

(** A log line mentions plugins or functions, in any letter case. *)
Definition mentions_plugin_activity (log : string) : Prop :=
  ∃ before after,
    lower log = before +:+ "plugin" +:+ after ∨
    lower log = before +:+ "function" +:+ after.

(** ** The connection handlers as case analyses *)

(** What an [except] branch of a connection handler does: send the message,
    then print it. *)
Definition report_error (error_msg : string) (w : World) : World :=
  with_effects (effects w ++ [Send error_msg; Print error_msg]) w.

(** The plugin object [_integrate_mcp_with_kernel] builds for a connection. *)
Definition plugin_of (connection : McpConnection) : MCPSsePlugin :=
  {| plugin_name := conn_name connection;
     plugin_description := "MCP Plugin for " +:+ conn_name connection;
     plugin_url := default "" (conn_url connection) |}.

(** [on_mcp_connect] written as the case analysis it performs: on what
    [list_tools()] does, on the connection's URL, on what
    [mcp_plugin.connect()] does, and on whether the kernel takes the name. *)
Definition on_mcp_connect_cases (connection : McpConnection) (session : ClientSession)
    (plugin_connect : outcome unit) (w : World) : World * outcome unit :=
  let name := conn_name connection in
  match list_tools session with
  | Raise e =>
      if isinstance_Exception (exn_cls e) then
        (report_error
           ("Failed to handle MCP connection for " +:+ name +:+ ": " +:+ exn_str e) w,
         Ret tt)
      else (w, Raise e)
  | Ret tools =>
      let listed :=
        with_user_session
          (set_mcp_tools (Dict.set name (extract_mcp_tools tools) (tools_table w))
             (user_session w))
          (with_effects
             (effects w ++ [Print ("Connected to MCP: " +:+ name); PrintTools tools]) w) in
      let failed (w1 : World) (e : exn) : World * outcome unit :=
        if isinstance_Exception (exn_cls e) then
          (report_error
             ("Failed to integrate " +:+ name +:+ " with Semantic Kernel: " +:+ exn_str e) w1,
           Ret tt)
        else (w1, Raise e) in
      if negb (truthy (conn_url connection)) then
        failed listed
          {| exn_cls := ValueError;
             exn_str := "No URL found for MCP connection " +:+ name |}
      else
        let connecting :=
          with_effects
            (effects listed ++
             [Print ("Using MCP URL: " +:+ default "" (conn_url connection));
              PluginConnect name])
            listed in
        match plugin_connect with
        | Raise e => failed connecting e
        | Ret _ =>
            if negb (valid_plugin_name name) then
              failed connecting
                {| exn_cls := ValueError; exn_str := add_plugin_error w name |}
            else
              (with_effects
                 (effects connecting ++
                  [Send ("Successfully connected " +:+ name +:+ " to Semantic Kernel");
                   Print ("Added MCP plugin " +:+ name +:+ " to Semantic Kernel")])
                 (with_user_session
                    (set_mcp_plugins (<[name := plugin_of connection]> (plugins_table w))
                       (user_session listed))
                    (with_kernel (<[name := plugin_of connection]> (kernel w)) connecting)),
               Ret tt)
        end
  end.

(** [on_mcp_disconnect] written as the case analysis it performs: on the
    two session tables and on what [plugin.disconnect()] does. *)
Definition on_mcp_disconnect_cases (connection_name : string)
    (plugin_disconnect : option (outcome unit)) (w : World) : World * outcome unit :=
  let removed :=
    if Dict.mem connection_name (tools_table w)
    then with_user_session
           (set_mcp_tools (Dict.del connection_name (tools_table w)) (user_session w)) w
    else w in
  let finish (w1 : World) : World * outcome unit :=
    (with_effects
       (effects w1 ++
        [Send ("Successfully disconnected " +:+ connection_name +:+ " from Semantic Kernel");
         Print ("Removed MCP plugin " +:+ connection_name +:+ " from Semantic Kernel")])
       (with_user_session
          (set_mcp_plugins (delete connection_name (plugins_table w)) (user_session w1)) w1),
     Ret tt) in
  match plugins_table w !! connection_name with
  | None =>
      (with_effects
         (effects w ++
          [Send ("MCP connection " +:+ connection_name +:+ " was not found in active plugins")])
         removed,
       Ret tt)
  | Some plugin =>
      match plugin_disconnect with
      | None => finish removed
      | Some disconnect =>
          let asked :=
            with_effects (effects removed ++ [PluginDisconnect connection_name]) removed in
          match disconnect with
          | Ret _ => finish asked
          | Raise e =>
              if isinstance_Exception (exn_cls e) then
                (report_error
                   ("Error during MCP disconnection for " +:+ connection_name +:+ ": "
                    +:+ exn_str e) asked,
                 Ret tt)
              else (asked, Raise e)
          end
      end
  end.

(** Every name under which the session tracks a plugin is a name registered
    in the kernel. *)
Definition tracked_plugins_registered (w : World) : Prop :=
  dom (plugins_table w) ⊆ dom (kernel w).

(** A session whose call is interrupted from the keyboard while in flight. *)
Definition session_interrupted (tools : list Tool) : ClientSession :=
  {| list_tools := Ret tools;
     session_call_tool :=
       λ _ _, Raise {| exn_cls := KeyboardInterrupt; exn_str := "interrupted" |} |}.

Definition world_A_interrupted : World :=
  run initial_world
    [ChatStart; connect "A" [tool_X]; Transport {["A" := session_interrupted [tool_X]]}].

(** A completion service that fails: the quota is exhausted. *)
Definition service_failing : Service := λ _ _,
  {| reply_logs := [];
     reply_appended := [];
     reply_result := Raise {| exn_cls := RuntimeError; exn_str := "quota exceeded" |} |}.

(** * The knowledge-base tool server ([rag-mcp/main.py])

    The two tools of the server, as functions of what the HTTP service
    answers.  Each returns the JSON text of a value; the model returns that
    value, to which [json.dumps] is applied.  JSON numbers are integers
    here; in every operation below a float behaves as an integer that is
    zero or not zero as the float is.  The calls of the logger are left
    out: they do not change what is returned. *)

Module Rag.

(** The exception classes that occur: those of [requests], those Python
    raises when a value has not the expected shape, and one that is not an
    [Exception]. *)
Inductive error_class : Type :=
  | ReadTimeout
  | ConnectTimeout
  | ConnectionError
  | HTTPError
  | ChunkedEncodingError
  | JSONDecodeError
  | UnicodeDecodeError
  | AttributeError
  | TypeError
  | KeyError
  | KeyboardInterrupt.

(** [isinstance(e, requests.exceptions.Timeout)] *)
Definition is_Timeout (c : error_class) : bool :=
  match c with ReadTimeout | ConnectTimeout => true | _ => false end.

(** [isinstance(e, requests.exceptions.ConnectionError)]; a connect timeout
    is both a timeout and a connection error. *)
Definition is_ConnectionError (c : error_class) : bool :=
  match c with ConnectionError | ConnectTimeout => true | _ => false end.

(** [isinstance(e, requests.exceptions.RequestException)] *)
Definition is_RequestException (c : error_class) : bool :=
  match c with
  | ReadTimeout | ConnectTimeout | ConnectionError | HTTPError | ChunkedEncodingError => true
  | _ => false
  end.

(** [isinstance(e, json.JSONDecodeError)] *)
Definition is_JSONDecodeError (c : error_class) : bool :=
  match c with JSONDecodeError => true | _ => false end.

(** [isinstance(e, Exception)] *)
Definition is_Exception (c : error_class) : bool :=
  match c with KeyboardInterrupt => false | _ => true end.

(** A raised exception: its class and [str(e)]. *)
Record raised : Type := { cls : error_class; text : string }.

Inductive res (A : Type) : Type :=
  | Ok (a : A)
  | Err (e : raised).
Arguments Ok {A} a.
Arguments Err {A} e.

#[global] Instance res_ret : MRet res := λ A a, Ok a.

#[global] Instance res_bind : MBind res := λ A B f m,
  match m with
  | Ok a => f a
  | Err e => Err e
  end.

(** Where a value of the wrong shape makes Python raise. *)
Inductive misuse : Type :=
  | NoAttribute (v : json) (attribute : string)
  | NotAString (v : json)
  | NotSubscriptable (v : json)
  | NotAContainer (v : json).

(** The body posted to the chat endpoint. *)
Record ChatBody : Type := {
  history_user : string;
  approach : Z;
  semantic_ranker : bool;
  semantic_captions : bool;
  top : Z;
  suggest_followup_questions : bool;
  user_persona : string;
  system_persona : string;
  ai_persona : string;
  response_length : Z;
  response_temp_tenths : Z;
  selected_folders : string;
  selected_tags : string;
  selected_model : string;
}.

(** What comes back from [requests.post]: what [raise_for_status()] does,
    the lines [iter_lines()] yields, the exception that ends the iteration
    if there is one, and what [response.json()] gives. *)
Record Response : Type := {
  raise_for_status : res unit;
  iter_lines : list string;
  iter_lines_end : option raised;
  response_json : res json;
}.

(** Truth value of a JSON value in Python. *)
Definition json_truthy (v : json) : bool :=
  match v with
  | JNull => false
  | JBool b => b
  | JNum z => negb (z =? 0)%Z
  | JStr s => negb (String.eqb s "")
  | JArr items => match items with [] => false | _ => true end
  | JObj members => match members with [] => false | _ => true end
  end.

(** The rest of [s] after the prefix [p], when [s] starts with [p]. *)
Fixpoint strip_prefix (p s : string) : option string :=
  match p, s with
  | EmptyString, _ => Some s
  | String a p', String b s' => if Ascii.eqb a b then strip_prefix p' s' else None
  | String _ _, EmptyString => None
  end.

(** [s.split(sep, 1)[1]] for a string that contains [sep]: what follows the
    first occurrence. *)
Fixpoint after_first (sep s : string) : option string :=
  match strip_prefix sep s with
  | Some rest => Some rest
  | None =>
      match s with
      | EmptyString => None
      | String _ rest => after_first sep rest
      end
  end.

Definition error_payload (error_msg : string) : json := JObj [("error", JStr error_msg)].

Section Tools.

(** [json.loads] on a line of the response, and [str(e)] of the exceptions
    Python raises on a misused value, are taken as given. *)
Variable json_loads : string -> res json.
Variable describe : misuse -> string.

(** The endpoint read from the environment when the module is loaded. *)
Variable IA_ENDPOINT : string.

(** [d.get(key, default)] *)
Definition get (d : json) (key : string) (dflt : json) : res json :=
  match d with
  | JObj members => Ok (default dflt (Dict.get key members))
  | _ => Err {| cls := AttributeError; text := describe (NoAttribute d "get") |}
  end.

(** [value[key]] for a string key *)
Definition subscript (value : json) (key : string) : res json :=
  match value with
  | JObj members =>
      match Dict.get key members with
      | Some v => Ok v
      | None => Err {| cls := KeyError; text := repr_str key |}
      end
  | _ => Err {| cls := TypeError; text := describe (NotSubscriptable value) |}
  end.

(** ['/content/' in c] *)
Definition content_in (c : json) : res bool :=
  match c with
  | JStr s => Ok (contains "/content/" s)
  | JArr items =>
      Ok (existsb (λ x, match x with JStr s => String.eqb s "/content/" | _ => false end) items)
  | JObj members => Ok (Dict.mem "/content/" members)
  | _ => Err {| cls := TypeError; text := describe (NotAContainer c) |}
  end.

(** [c.split('/content/', 1)[1]], reached only when ['/content/' in c]. *)
Definition split_content (c : json) : res json :=
  match c with
  | JStr s => Ok (JStr (default "" (after_first "/content/" s)))
  | _ => Err {| cls := AttributeError; text := describe (NoAttribute c "split") |}
  end.

(** One element of the comprehension that builds [reference]. *)
Definition citation_entry (key : string) (value : json) : res json :=
  c ← subscript value "citation";
  found ← content_in c;
  citation ← (if found : bool then
                c' ← subscript value "citation"; split_content c'
              else subscript value "citation");
  page_number ← subscript value "page_number";
  mret (JObj [ ("citation_key", JStr key);
               ("citation", citation);
               ("page_number", page_number) ]).

(** The comprehension over [citation.items()]. *)
Fixpoint build_reference (items : list (string * json)) : res (list json) :=
  match items with
  | [] => Ok []
  | (key, value) :: rest =>
      match citation_entry key value with
      | Err e => Err e
      | Ok entry =>
          match build_reference rest with
          | Err e => Err e
          | Ok entries => Ok (entry :: entries)
          end
      end
  end.

(** [citation.items()] *)
Definition items (citation : json) : res (list (string * json)) :=
  match citation with
  | JObj members => Ok members
  | _ => Err {| cls := AttributeError; text := describe (NoAttribute citation "items") |}
  end.

(** [full_sentence += content] *)
Definition append_content (full_sentence : string) (content : json) : res string :=
  match content with
  | JStr s => Ok (full_sentence +:+ s)
  | _ => Err {| cls := TypeError; text := describe (NotAString content) |}
  end.

(** The statements of the loop body that follow [json.loads]. *)
Definition take_line (json_line : json) (full_sentence : string) (reference : list json)
    : res (string * list json) :=
  content ← get json_line "content" (JStr "");
  citation ← get json_line "work_citation_lookup" (JObj []);
  full_sentence ← (if json_truthy content then append_content full_sentence content
                   else mret full_sentence);
  reference ← (if json_truthy citation then
                 members ← items citation; build_reference members
               else mret reference);
  mret (full_sentence, reference).

(** The loop over [response.iter_lines()]: empty lines are passed over, a
    line [json.loads] rejects with a [JSONDecodeError] is passed over, any
    other exception ends the loop. *)
Fixpoint read_lines (lines : list string) (full_sentence : string) (reference : list json)
    : res (string * list json) :=
  match lines with
  | [] => Ok (full_sentence, reference)
  | line :: rest =>
      if String.eqb line "" then read_lines rest full_sentence reference
      else
        match json_loads line with
        | Err e =>
            if is_JSONDecodeError (cls e) then read_lines rest full_sentence reference
            else Err e
        | Ok json_line =>
            match take_line json_line full_sentence reference with
            | Err e => Err e
            | Ok (full_sentence', reference') => read_lines rest full_sentence' reference'
            end
        end
  end.

(** The chain of [except] clauses both tools end with, for the service
    called [service]. *)
Definition except_chain (service : string) (body : res json) : res json :=
  match body with
  | Ok v => Ok v
  | Err e =>
      if is_Timeout (cls e) then
        Ok (error_payload ("Request to " +:+ service +:+ " timed out"))
      else if is_ConnectionError (cls e) then
        Ok (error_payload ("Could not connect to " +:+ service))
      else if is_RequestException (cls e) then
        Ok (error_payload ("Error communicating with " +:+ service +:+ ": " +:+ text e))
      else if is_Exception (cls e) then
        Ok (error_payload ("Unexpected error: " +:+ text e))
      else Err e
  end.

(** [post_question_to_ia(query, folder, model_name, top_k)]; [post] is
    [requests.post] on the chat endpoint, given the URL, the body and the
    timeout. *)
Definition post_question_to_ia (query folder model_name : string) (top_k : Z)
    (post : string -> ChatBody -> Z -> res Response) : res json :=
  if String.eqb query "" then Ok (error_payload "Query parameter is required")
  else
    let url := IA_ENDPOINT +:+ "/chat" in
    let data :=
      {| history_user := query; approach := 1;
         semantic_ranker := true; semantic_captions := false; top := top_k;
         suggest_followup_questions := false;
         user_persona := "Analyst"; system_persona := "AI Assistant"; ai_persona := "";
         response_length := 2048; response_temp_tenths := 6;
         selected_folders := folder; selected_tags := ""; selected_model := model_name |} in
    except_chain "IA service"
      ( response ← post url data 60%Z;
        raise_for_status response;;
        read ← read_lines (iter_lines response) "" [];
        match iter_lines_end response with
        | Some e => Err e
        | None =>
            mret (JObj [ ("response", JStr read.1); ("reference", JArr read.2) ])
        end ).

(** [get_reference(source)]; [post] is [requests.post] on the citation
    endpoint, given the URL, the source and the timeout. *)
Definition get_reference (source : string)
    (post : string -> string -> Z -> res Response) : res json :=
  if String.eqb source "" then Ok (error_payload "Source parameter is required")
  else
    let url := IA_ENDPOINT +:+ "/getcitation" in
    except_chain "citation service"
      ( response ← post url source 30%Z;
        raise_for_status response;;
        match response_json response with
        | Err e =>
            if is_JSONDecodeError (cls e)
            then mret (error_payload "Could not parse response from citation service")
            else Err e
        | Ok result =>
            file_uri ← get result "file_uri" (JStr "");
            pages ← get result "pages" (JStr "");
            content ← get result "content" (JStr "");
            mret (JObj [ ("file_uri", file_uri);
                         ("page_number", pages);
                         ("content", content) ])
        end ).

End Tools.

(** ** Sample lines and responses *)

(** A stand-in for [json.loads] that knows five lines. *)
Definition sample_loads (line : string) : res json :=
  if String.eqb line "line-hello" then Ok (JObj [("content", JStr "Hello ")])
  else if String.eqb line "line-world" then Ok (JObj [("content", JStr "world")])
  else if String.eqb line "line-cited" then
    Ok (JObj [("work_citation_lookup",
               JObj [("File0",
                      JObj [("citation", JStr "https://host/content/docs/a.pdf");
                            ("page_number", JNum 3)])])])
  else if String.eqb line "line-broken-citation" then
    Ok (JObj [("work_citation_lookup", JObj [("File0", JObj [("page_number", JNum 3)])])])
  else if String.eqb line "line-missing-page" then
    Ok (JObj [("work_citation_lookup",
               JObj [("File0",
                      JObj [("citation", JStr "https://host/content/docs/a.pdf");
                            ("page_number", JNum 3)]);
                     ("File1", JObj [("citation", JStr "https://host/docs/b.pdf")])])])
  else Err {| cls := JSONDecodeError; text := "Expecting value" |}.

Definition sample_describe (m : misuse) : string := "wrong type".

Definition response_of (lines : list string) : Response :=
  {| raise_for_status := Ok tt;
     iter_lines := lines;
     iter_lines_end := None;
     response_json := Err {| cls := JSONDecodeError; text := "Expecting value" |} |}.

Definition post_answering (lines : list string) : string -> ChatBody -> Z -> res Response :=
  λ _ _ _, Ok (response_of lines).

Definition post_connect_timeout : string -> ChatBody -> Z -> res Response :=
  λ _ _ _, Err {| cls := ConnectTimeout; text := "connect timed out" |}.

End Rag.

(** ** Proof automation for the handlers *)

Ltac unfold_M :=
  unfold print, send, do_effect, modify_history, modify_user_session,
    set_step_output, step_exit, add_plugin, modify, gets, lift, raise,
    try_except_Exception, mbind, M_bind, mret, M_ret in *.

(** Normalises nested world updates, innermost first. *)
Ltac reduce_world :=
  cbv beta iota delta
    [with_effects with_handler with_user_session with_kernel with_mcp_sessions
     with_current_step set_history set_mcp_tools set_mcp_plugins
     kernel capturing_handler user_session mcp_sessions current_step effects
     add_plugin_error mcp_tools mcp_plugins history].

Ltac run_handler :=
  unfold_M; simpl; repeat (case_match; simpl in *; simplify_eq; try done).

(** * Properties *)

(** ** Strings *)

Lemma string_app_cons (c : Ascii.ascii) (s t : string) :
  String c s +:+ t = String c (s +:+ t).
Proof. reflexivity. Qed.

Lemma string_app_nil_r (s : string) : s +:+ "" = s.
Proof. induction s as [|c s IH]; [done|]. by rewrite string_app_cons, IH. Qed.

Lemma string_app_assoc (a b c : string) : a +:+ (b +:+ c) = (a +:+ b) +:+ c.
Proof. induction a as [|x a IH]; [done|]. by rewrite !string_app_cons, IH. Qed.

Lemma string_length_app (a b : string) :
  String.length (a +:+ b) = String.length a + String.length b.
Proof. induction a as [|x a IH]; [done|]. rewrite string_app_cons. simpl. by rewrite IH. Qed.

Lemma filter_nil_forall {A} (f : A → bool) (l : list A) :
  List.filter f l = [] ↔ Forall (λ x, f x = false) l.
Proof.
  induction l as [|x l IH]; simpl.
  - split; [by constructor|done].
  - destruct (f x) eqn:Hx.
    + split; [done|]. intros Hall. inversion Hall; congruence.
    + rewrite IH. split; [by constructor|]. by inversion 1.
Qed.

Lemma elem_of_list_filter_bool {A} (f : A → bool) (l : list A) (x : A) :
  x ∈ List.filter f l ↔ x ∈ l ∧ f x = true.
Proof. rewrite !list_elem_of_In. apply List.filter_In. Qed.

(** ** Dictionaries *)

Section DictFacts.
Context {V : Type}.
Implicit Types (d : Dict.t V) (k : string) (v : V).

Lemma dict_keys_del k d : k ∉ Dict.keys (Dict.del k d).
Proof.
  induction d as [|[k' v'] d IH]; simpl; [apply not_elem_of_nil|].
  destruct (String.eqb_spec k' k) as [->|Hne]; [done|].
  simpl. rewrite elem_of_cons. intros [->|Hin]; [done|]. by apply IH.
Qed.

Lemma dict_del_subseteq k d : Dict.del k d ⊆ d.
Proof.
  induction d as [|[k' v'] d IH]; simpl; [done|].
  destruct (String.eqb k' k).
  - intros x Hx. apply elem_of_cons. right. by apply IH.
  - intros x. rewrite !elem_of_cons. intros [->|Hin]; [by left|right; by apply IH].
Qed.

Lemma dict_del_elem k k' v d : k' ≠ k → (k', v) ∈ d → (k', v) ∈ Dict.del k d.
Proof.
  intros Hne. induction d as [|[k0 v0] d IH]; simpl; [done|].
  rewrite elem_of_cons. intros [Heq|Hin].
  - inversion Heq; subst. destruct (String.eqb_spec k0 k); [done|]. by left.
  - destruct (String.eqb k0 k); [by apply IH|]. right. by apply IH.
Qed.

Lemma dict_keys_set_new k v d : k ∉ Dict.keys d → Dict.set k v d = d ++ [(k, v)].
Proof.
  induction d as [|[k' v'] d IH]; simpl; [done|].
  rewrite not_elem_of_cons. intros [Hne Hnin].
  destruct (String.eqb_spec k' k) as [->|_]; [done|]. by rewrite IH.
Qed.

Lemma dict_keys_set k v d :
  Dict.keys (Dict.set k v d) = if Dict.mem k d then Dict.keys d else Dict.keys d ++ [k].
Proof.
  unfold Dict.mem. induction d as [|[k' v'] d IH]; simpl; [done|].
  destruct (String.eqb_spec k' k) as [->|_]; simpl; [done|].
  rewrite IH. by destruct (Dict.get k d).
Qed.

Lemma dict_mem_keys k d : Dict.mem k d = true ↔ k ∈ Dict.keys d.
Proof.
  unfold Dict.mem. induction d as [|[k' v'] d IH]; simpl.
  - split; [done|]. by intros ?%not_elem_of_nil.
  - destruct (String.eqb_spec k' k) as [->|Hne].
    + split; [intros _; by left|done].
    + rewrite elem_of_cons, IH. split; [by right|]. by intros [?|?].
Qed.

Lemma dict_get_set_eq k v d : Dict.get k (Dict.set k v d) = Some v.
Proof.
  induction d as [|[k' v'] d IH]; simpl.
  - by rewrite String.eqb_refl.
  - destruct (String.eqb_spec k' k) as [->|Hne]; simpl.
    + by rewrite String.eqb_refl.
    + destruct (String.eqb_spec k' k); [done|]. apply IH.
Qed.

Lemma dict_nodup_set k v d : NoDup (Dict.keys d) → NoDup (Dict.keys (Dict.set k v d)).
Proof.
  intros Hnd. rewrite dict_keys_set.
  destruct (Dict.mem k d) eqn:Hmem; [done|].
  apply NoDup_app. split_and!; [done| |apply NoDup_singleton].
  intros x Hx ->%list_elem_of_singleton.
  apply dict_mem_keys in Hx. congruence.
Qed.

Lemma dict_keys_del_sublist k d : sublist (Dict.keys (Dict.del k d)) (Dict.keys d).
Proof.
  induction d as [|[k' v'] d IH]; simpl; [done|].
  destruct (String.eqb k' k); simpl.
  - by apply sublist_cons.
  - by apply sublist_skip.
Qed.

Lemma dict_del_filter k d :
  Dict.del k d = List.filter (λ kv, negb (String.eqb kv.1 k)) d.
Proof.
  induction d as [|[k' v'] d IH]; simpl; [done|].
  destruct (String.eqb k' k); simpl; by rewrite IH.
Qed.

Lemma dict_nodup_del k d : NoDup (Dict.keys d) → NoDup (Dict.keys (Dict.del k d)).
Proof. intros Hnd. exact (sublist_NoDup _ _ Hnd (dict_keys_del_sublist k d)). Qed.

End DictFacts.

(** ** The scan of the router *)

Lemma find_in_items_app tool_name pre post :
  Forall (λ kv, any_name_matches tool_name kv.2 = false) pre →
  find_in_items tool_name (pre ++ post) = find_in_items tool_name post.
Proof.
  induction 1 as [|[k tools] pre Hk _ IH]; simpl in *; [done|].
  by rewrite Hk.
Qed.

Lemma find_in_items_first tool_name items s :
  find_in_items tool_name items = Some s ↔ first_advertiser items tool_name s.
Proof.
  split.
  - induction items as [|[k tools] items IH]; simpl; [done|].
    destruct (any_name_matches tool_name tools) eqn:Hk.
    + intros [= <-]. by exists [], tools, items.
    + intros (pre & tools' & post & -> & Hs & Hpre)%IH.
      exists ((k, tools) :: pre), tools', post. split_and!; [done..|].
      by constructor.
  - intros (pre & tools & post & -> & Hs & Hpre).
    rewrite find_in_items_app by done. simpl. by rewrite Hs.
Qed.

Lemma find_in_items_None tool_name items :
  find_in_items tool_name items = None ↔
  Forall (λ kv, any_name_matches tool_name kv.2 = false) items.
Proof.
  induction items as [|[k tools] items IH]; simpl.
  - split; [by constructor|done].
  - destruct (any_name_matches tool_name tools) eqn:Hk.
    + split; [done|]. intros Hall. inversion Hall; simpl in *; congruence.
    + rewrite IH. split; [by constructor|]. by inversion 1.
Qed.

Lemma find_in_items_elem tool_name items s :
  find_in_items tool_name items = Some s → advertises items s tool_name.
Proof.
  intros (pre & tools & post & -> & Hs & _)%find_in_items_first.
  exists tools. split; [|done].
  apply elem_of_app. right. by left.
Qed.

Lemma find_in_items_del_ne tool_name k items :
  find_in_items tool_name (Dict.del k items) ≠ Some k.
Proof.
  intros (tools & Hin & _)%find_in_items_elem.
  apply (dict_keys_del k items).
  unfold Dict.keys. apply list_elem_of_fmap. by exists (k, tools).
Qed.

Lemma find_in_items_del_other tool_name k items s :
  s ≠ k →
  find_in_items tool_name items = Some s →
  find_in_items tool_name (Dict.del k items) = Some s.
Proof.
  intros Hne. induction items as [|[k' tools] items IH]; simpl; [done|].
  destruct (any_name_matches tool_name tools) eqn:Hk.
  - intros [= ->]. destruct (String.eqb_spec s k); [done|]. simpl. by rewrite Hk.
  - intros Hfind. destruct (String.eqb k' k); [by apply IH|].
    simpl. rewrite Hk. by apply IH.
Qed.

Lemma find_in_items_del_None tool_name k items :
  (∀ s tools, (s, tools) ∈ items → s ≠ k → any_name_matches tool_name tools = false) →
  find_in_items tool_name (Dict.del k items) = None.
Proof.
  intros Hothers. apply find_in_items_None, Forall_forall.
  intros [s tools] Hin. simpl.
  apply (Hothers s tools); [by apply (dict_del_subseteq k items)|].
  intros ->. apply (dict_keys_del k items).
  unfold Dict.keys. apply list_elem_of_fmap. by exists (k, tools).
Qed.

Lemma resolve_table w tool_name :
  resolve w tool_name = find_in_items tool_name (tools_table w).
Proof. reflexivity. Qed.

(** ** [extract_mcp_tools] *)

(** C10: [extract_mcp_tools] returns a list of the length of its input whose
    i-th element is the dictionary built from the i-th tool, and that
    dictionary has exactly the keys [name], [description] and
    [input_schema], holding the tool's name, description and input schema. *)
Theorem extract_mcp_tools_pointwise (tools_list : list Tool) :
  length (extract_mcp_tools tools_list) = length tools_list ∧
  (∀ i : nat, extract_mcp_tools tools_list !! i = tool_entry <$> tools_list !! i) ∧
  (∀ tool : Tool,
     Dict.keys (tool_entry tool) = ["name"; "description"; "input_schema"] ∧
     Dict.get "name" (tool_entry tool) = Some (JStr (tool_name tool)) ∧
     Dict.get "description" (tool_entry tool)
       = Some (match tool_description tool with Some s => JStr s | None => JNull end) ∧
     Dict.get "input_schema" (tool_entry tool) = Some (tool_inputSchema tool)).
Proof.
  split_and!.
  - induction tools_list as [|tool rest IH]; simpl; [done|]. by rewrite IH.
  - induction tools_list as [|tool rest IH]; intros [|i]; simpl; auto.
  - intros tool. by split_and!.
Qed.

(** ** What the handlers touch *)

Lemma dict_del_not_mem {V} k (d : Dict.t V) : Dict.mem k d = false → Dict.del k d = d.
Proof.
  unfold Dict.mem. induction d as [|[k' v'] d IH]; simpl; [done|].
  destruct (String.eqb k' k); [done|]. intros Hm. by rewrite IH.
Qed.

Lemma call_tool_frame tool_use w :
  let w' := fst (call_tool tool_use w) in
  user_session w' = user_session w ∧ kernel w' = kernel w ∧
  capturing_handler w' = capturing_handler w ∧ mcp_sessions w' = mcp_sessions w.
Proof.
  unfold call_tool, call_tool_body, find_mcp_for_tool. run_handler.
Qed.

Lemma on_mcp_disconnect_tools_table connection_name plugin_disconnect w :
  tools_table (fst (on_mcp_disconnect connection_name plugin_disconnect w))
  = Dict.del connection_name (tools_table w).
Proof.
  unfold on_mcp_disconnect, tools_table.
  destruct (Dict.mem connection_name (default Dict.empty (mcp_tools (user_session w)))) eqn:Hmem.
  - run_handler.
  - rewrite (dict_del_not_mem _ _ Hmem). run_handler.
Qed.

Lemma on_mcp_disconnect_kernel connection_name plugin_disconnect w :
  kernel (fst (on_mcp_disconnect connection_name plugin_disconnect w)) = kernel w.
Proof. unfold on_mcp_disconnect. run_handler. Qed.

Lemma on_mcp_connect_tools_table connection session plugin_connect w :
  tools_table (fst (on_mcp_connect connection session plugin_connect w))
  = match list_tools session with
    | Ret tools => Dict.set (conn_name connection) (extract_mcp_tools tools) (tools_table w)
    | Raise _ => tools_table w
    end.
Proof.
  unfold on_mcp_connect, _integrate_mcp_with_kernel, tools_table. run_handler.
Qed.

Lemma on_mcp_connect_kernel connection session plugin_connect w :
  dom (kernel w) ⊆ dom (kernel (fst (on_mcp_connect connection session plugin_connect w))).
Proof.
  unfold on_mcp_connect, _integrate_mcp_with_kernel.
  run_handler; rewrite ?dom_insert_L; set_solver.
Qed.

Lemma on_message_frame content service w :
  let w' := fst (on_message content service w) in
  kernel w' = kernel w ∧ tools_table w' = tools_table w ∧
  mcp_plugins (user_session w') = mcp_plugins (user_session w) ∧
  mcp_sessions w' = mcp_sessions w.
Proof.
  unfold on_message, get_chat_message_content, tools_table. run_handler.
Qed.

Lemma start_chat_kernel w : kernel (fst (start_chat w)) = kernel w.
Proof. reflexivity. Qed.

Lemma step_tool_call w tool_use : step w (ToolCall tool_use) = fst (call_tool tool_use w).
Proof.
  unfold step, handle. unfold_M. by destruct (call_tool tool_use w) as [w' [a|e]].
Qed.

Lemma run_tool_calls_tools_table tool_uses w :
  tools_table (run w (map ToolCall tool_uses)) = tools_table w.
Proof.
  revert w. induction tool_uses as [|tu rest IH]; intros w; simpl; [done|].
  rewrite IH, step_tool_call. unfold tools_table.
  by destruct (call_tool_frame tu w) as (-> & _).
Qed.

Lemma advertises_resolves items s tool_name :
  advertises items s tool_name → is_Some (find_in_items tool_name items).
Proof.
  intros (tools & Hin & Hs).
  destruct (find_in_items tool_name items) eqn:Hfind; [by eexists|].
  apply find_in_items_None in Hfind.
  rewrite Forall_forall in Hfind. specialize (Hfind _ Hin). simpl in *. congruence.
Qed.

Lemma first_advertiser_snoc items tool_name s k tools :
  first_advertiser items tool_name s → first_advertiser (items ++ [(k, tools)]) tool_name s.
Proof.
  intros (pre & tools' & post & -> & Hs & Hpre).
  exists pre, tools', (post ++ [(k, tools)]). split_and!; [|done..].
  by rewrite <- app_assoc.
Qed.

(** ** The router and the connection lifecycle *)

(** C1 (as the code has it): a name resolves to [s] exactly when [s] is the
    first connection of the stored table whose tools contain the name, so a
    server that resolves is connected and owns the name, and a connected
    owner makes the name resolve (to itself unless an earlier connection
    also advertises it).  Right after [on_mcp_disconnect] for [s], no name
    resolves to [s] any more; the table is the one before without the entry
    of [s], the other entries in their order, so the name resolves to the
    first of the remaining connections that advertises it: a name resolved
    to another server keeps doing so, a name that another connected server
    advertises still resolves, and a name only [s] advertised no longer
    resolves. *)
Theorem resolve_iff_first_active (w : World) (tool_name s : string) :
  (resolve w tool_name = Some s ↔ first_advertiser (tools_table w) tool_name s) ∧
  (resolve w tool_name = Some s →
     s ∈ Dict.keys (tools_table w) ∧ advertises (tools_table w) s tool_name) ∧
  (advertises (tools_table w) s tool_name → is_Some (resolve w tool_name)) ∧
  (∀ plugin_disconnect,
     let w' := step w (McpDisconnect s plugin_disconnect) in
     (s ∉ Dict.keys (tools_table w')) ∧
     (resolve w' tool_name ≠ Some s) ∧
     (∀ s', s' ≠ s → resolve w tool_name = Some s' → resolve w' tool_name = Some s') ∧
     ((∀ s' tools, (s', tools) ∈ tools_table w → s' ≠ s →
          any_name_matches tool_name tools = false) →
      resolve w' tool_name = None) ∧
     tools_table w' = List.filter (λ kv, negb (String.eqb kv.1 s)) (tools_table w) ∧
     (∀ s', resolve w' tool_name = Some s' ↔
            first_advertiser
              (List.filter (λ kv, negb (String.eqb kv.1 s)) (tools_table w)) tool_name s') ∧
     (∀ s', s' ≠ s → advertises (tools_table w) s' tool_name →
            advertises (tools_table w') s' tool_name ∧ is_Some (resolve w' tool_name))).
Proof.
  rewrite !resolve_table. split_and!.
  - apply find_in_items_first.
  - intros Hfind. pose proof (find_in_items_elem _ _ _ Hfind) as Hadv.
    split; [|done]. destruct Hadv as (tools & Hin & _).
    unfold Dict.keys. apply list_elem_of_fmap. by exists (s, tools).
  - apply advertises_resolves.
  - intros plugin_disconnect w'. subst w'. unfold step, handle.
    rewrite !resolve_table, on_mcp_disconnect_tools_table. split_and!.
    + apply dict_keys_del.
    + apply find_in_items_del_ne.
    + intros s' Hne. by apply find_in_items_del_other.
    + apply find_in_items_del_None.
    + apply dict_del_filter.
    + intros s'. rewrite <- dict_del_filter. apply find_in_items_first.
    + intros s' Hne (tools & Hin & Hmatch).
      assert (advertises (Dict.del s (tools_table w)) s' tool_name) as Hadv.
      { exists tools. split; [by apply dict_del_elem|done]. }
      split; [done|]. by apply (advertises_resolves _ s').
Qed.

(** C1, instance: with [A] connected and advertising [X], the name [X]
    resolves to [A], which is a key of the stored table. *)
Lemma resolve_iff_first_active_witness :
  resolve world_A "X" = Some "A" ∧ "A" ∈ Dict.keys (tools_table world_A).
Proof.
  split; [reflexivity|].
  exact (proj1 (proj1 (proj2 (resolve_iff_first_active world_A "X" "A")) eq_refl)).
Defined.

(** C1 as stated fails: in [world_AB] server [B] is connected and its stored
    tools contain [X], yet [X] does not resolve to [B]; and once [A] has
    disconnected, [X], one of [A]'s tool names, still resolves. *)
Lemma resolve_shadowed_by_earlier_server :
  ¬ resolves_iff_owner_active world_AB "B" "X" ∧
  resolve (step world_AB (McpDisconnect "A" None)) "X" = Some "B".
Proof.
  split; [|reflexivity].
  intros [_ Hback].
  assert (advertises (tools_table world_AB) "B" "X") as Hadv.
  { exists (extract_mcp_tools [tool_X]). split; [|reflexivity].
    vm_compute. apply elem_of_cons. right. apply elem_of_cons. by left. }
  specialize (Hback Hadv). vm_compute in Hback. discriminate.
Qed.

(** C2: of two servers [a] and [b] that both advertise the name, [a]
    registered before [b] and first to advertise it (no connection
    registered before [a] does, as when [a] is the first registered of
    all), the name resolves to [a], whatever tools are invoked, however
    often and in whatever order: the router scans the table in the order of
    registration and the first match wins.  Such is the table after [a] and
    then [b] connected under new names, each listing a tool of the name,
    when the name did not resolve before. *)
Theorem first_registered_wins (w : World) (tool_name a b : string) :
  (∀ pre tools_a mid tools_b post,
     tools_table w = pre ++ (a, tools_a) :: mid ++ (b, tools_b) :: post →
     any_name_matches tool_name tools_a = true →
     any_name_matches tool_name tools_b = true →
     Forall (λ kv, any_name_matches tool_name kv.2 = false) pre →
     resolve w tool_name = Some a ∧
     ∀ tool_uses : list ToolUse,
       resolve (run w (map ToolCall tool_uses)) tool_name = Some a) ∧
  (∀ tools_a mid tools_b post,
     tools_table w = (a, tools_a) :: mid ++ (b, tools_b) :: post →
     any_name_matches tool_name tools_a = true →
     any_name_matches tool_name tools_b = true →
     resolve w tool_name = Some a ∧
     ∀ tool_uses : list ToolUse,
       resolve (run w (map ToolCall tool_uses)) tool_name = Some a) ∧
  (∀ connection_a session_a plugin_connect_a tools_a
     connection_b session_b plugin_connect_b tools_b,
     conn_name connection_a = a →
     conn_name connection_b = b →
     a ≠ b →
     a ∉ Dict.keys (tools_table w) →
     b ∉ Dict.keys (tools_table w) →
     resolve w tool_name = None →
     list_tools session_a = Ret tools_a →
     list_tools session_b = Ret tools_b →
     any_name_matches tool_name (extract_mcp_tools tools_a) = true →
     any_name_matches tool_name (extract_mcp_tools tools_b) = true →
     let w' := run w [McpConnect connection_a session_a plugin_connect_a;
                      McpConnect connection_b session_b plugin_connect_b] in
     tools_table w'
     = tools_table w ++ [(a, extract_mcp_tools tools_a); (b, extract_mcp_tools tools_b)] ∧
     collide_in_order (tools_table w') tool_name a b ∧
     resolve w' tool_name = Some a ∧
     ∀ tool_uses : list ToolUse,
       resolve (run w' (map ToolCall tool_uses)) tool_name = Some a).
Proof.
  assert (∀ w0 pre tools_a mid tools_b post,
            tools_table w0 = pre ++ (a, tools_a) :: mid ++ (b, tools_b) :: post →
            any_name_matches tool_name tools_a = true →
            Forall (λ kv, any_name_matches tool_name kv.2 = false) pre →
            resolve w0 tool_name = Some a ∧
            ∀ tool_uses : list ToolUse,
              resolve (run w0 (map ToolCall tool_uses)) tool_name = Some a) as Hfirst.
  { intros w0 pre tools_a mid tools_b post Htable Ha Hpre.
    assert (find_in_items tool_name (tools_table w0) = Some a) as Hfind.
    { rewrite Htable, find_in_items_app by done. simpl. by rewrite Ha. }
    split; [done|]. intros tool_uses.
    by rewrite resolve_table, run_tool_calls_tools_table. }
  split_and!.
  - intros pre tools_a mid tools_b post Htable Ha _ Hpre. by eapply Hfirst.
  - intros tools_a mid tools_b post Htable Ha _.
    by apply (Hfirst w [] tools_a mid tools_b post).
  - intros connection_a session_a plugin_connect_a tools_a
      connection_b session_b plugin_connect_b tools_b
      Hname_a Hname_b Hne Hnew_a Hnew_b Hnone Htools_a Htools_b Ha Hb w'.
    assert (tools_table w'
            = tools_table w ++ [(a, extract_mcp_tools tools_a); (b, extract_mcp_tools tools_b)])
      as Htable.
    { subst w'. simpl. unfold step, handle.
      rewrite !on_mcp_connect_tools_table, Htools_a, Htools_b, Hname_a, Hname_b.
      rewrite (dict_keys_set_new a) by done.
      rewrite dict_keys_set_new; [by rewrite <- app_assoc|].
      unfold Dict.keys. rewrite fmap_app. simpl.
      rewrite elem_of_app, list_elem_of_singleton. intros [?|?]; [by apply Hnew_b|done]. }
    destruct (Hfirst w' (tools_table w) (extract_mcp_tools tools_a) []
                (extract_mcp_tools tools_b) []) as [Hres Hcalls]; try done.
    { by apply find_in_items_None. }
    split_and!; try done.
    exists (tools_table w), (extract_mcp_tools tools_a), [], (extract_mcp_tools tools_b), [].
    by split_and!.
Qed.

(** C2, instance: in [world_AB], where [A] connected first and [B] second,
    both listing [X], the name resolves to [A], also after [X] and [Y] were
    invoked. *)
Lemma first_registered_wins_witness :
  resolve world_AB "X" = Some "A" ∧
  resolve (run world_AB (map ToolCall [use_X; {| tu_name := "Y"; tu_input := JNull |}; use_X])) "X"
  = Some "A".
Proof.
  destruct (proj1 (proj2 (first_registered_wins world_AB "X" "A" "B"))
              (extract_mcp_tools [tool_X]) [] (extract_mcp_tools [tool_X]) []
              eq_refl eq_refl eq_refl) as [Hres Hcalls].
  split; [exact Hres|apply Hcalls].
Defined.

(** With three servers advertising the name, the first registered of the
    three is the one returned. *)
Example first_of_three_wins :
  collide_in_order (tools_table world_CAB) "X" "A" "B" ∧
  resolve world_CAB "X" = Some "C".
Proof.
  split; [|reflexivity].
  exists [("C", extract_mcp_tools [tool_X])], (extract_mcp_tools [tool_X]), [],
         (extract_mcp_tools [tool_X]), [].
  by split_and!.
Qed.

(** ** [call_tool] *)

Lemma call_tool_unfold tool_use w : call_tool tool_use w = call_tool_cases tool_use w.
Proof.
  unfold call_tool_cases, resolve, call_tool, call_tool_body, find_mcp_for_tool.
  unfold_M. simpl.
  destruct (find_in_items (tu_name tool_use) (default Dict.empty (mcp_tools (user_session w))))
    as [mcp_name|]; simpl; [|done].
  destruct (String.eqb mcp_name ""); simpl; [done|].
  destruct (mcp_sessions w !! mcp_name) as [mcp_session|]; simpl; [|done].
  destruct (session_call_tool mcp_session (tu_name tool_use) (tu_input tool_use)) as [result|e];
    simpl; [done|].
  by destruct (isinstance_Exception (exn_cls e)).
Qed.

Lemma session_calls_app l1 l2 : session_calls (l1 ++ l2) = session_calls l1 ++ session_calls l2.
Proof. apply List.filter_app. Qed.

Lemma router_invocations_app l1 l2 :
  router_invocations (l1 ++ l2) = router_invocations l1 + router_invocations l2.
Proof. unfold router_invocations. by rewrite List.filter_app, length_app. Qed.

Lemma model_calls_app l1 l2 : model_calls (l1 ++ l2) = model_calls l1 + model_calls l2.
Proof. unfold model_calls. by rewrite List.filter_app, length_app. Qed.

Lemma printed_app l1 l2 : printed (l1 ++ l2) = printed l1 ++ printed l2.
Proof. apply omap_app. Qed.

(** C3: whatever the session call does among returning and raising an
    [Exception] (as a transport failure, a timeout and an MCP application
    error are), [call_tool] returns a value, the output it stored in the
    current step; when the session call raised, that value is the error
    payload carrying the exception's text. *)
Theorem call_tool_never_raises (w : World) (tool_use : ToolUse) :
  (∀ mcp_name mcp_session e,
     mcp_sessions w !! mcp_name = Some mcp_session →
     session_call_tool mcp_session (tu_name tool_use) (tu_input tool_use) = Raise e →
     isinstance_Exception (exn_cls e) = true) →
  (∃ out, snd (call_tool tool_use w) = Ret out ∧
          step_output (current_step (fst (call_tool tool_use w))) = out) ∧
  (∀ mcp_name mcp_session e,
     resolve w (tu_name tool_use) = Some mcp_name →
     mcp_name ≠ "" →
     mcp_sessions w !! mcp_name = Some mcp_session →
     session_call_tool mcp_session (tu_name tool_use) (tu_input tool_use) = Raise e →
     snd (call_tool tool_use w)
     = Ret (error_payload ("Error executing tool " +:+ tu_name tool_use +:+ ": " +:+ exn_str e))) ∧
  isinstance_Exception ConnectionError = true ∧
  isinstance_Exception TimeoutError = true ∧
  isinstance_Exception McpError = true.
Proof.
  intros Hexn. rewrite call_tool_unfold. unfold call_tool_cases.
  split_and!; [|intros mcp_name mcp_session e Hres Hne Hsess Hcall|done..].
  - destruct (resolve w (tu_name tool_use)) as [mcp_name|]; [|by eexists].
    destruct (String.eqb mcp_name ""); [by eexists|].
    destruct (mcp_sessions w !! mcp_name) as [mcp_session|] eqn:Hsess; [|by eexists].
    destruct (session_call_tool mcp_session _ _) as [result|e] eqn:Hcall; [by eexists|].
    rewrite (Hexn _ _ _ Hsess Hcall). by eexists.
  - rewrite Hres. destruct (String.eqb_spec mcp_name ""); [done|].
    rewrite Hsess, Hcall, (Hexn _ _ _ Hsess Hcall). done.
Qed.

(** C3, instance: the session of [A] times out on [X]; the call returns the
    error payload. *)
Lemma call_tool_never_raises_witness :
  snd (call_tool use_X world_A_timing_out)
  = Ret (error_payload "Error executing tool X: timed out").
Proof.
  assert (∀ mcp_name mcp_session e,
            mcp_sessions world_A_timing_out !! mcp_name = Some mcp_session →
            session_call_tool mcp_session (tu_name use_X) (tu_input use_X) = Raise e →
            isinstance_Exception (exn_cls e) = true) as Hexn.
  { intros mcp_name mcp_session e Hsess Hcall.
    change (mcp_sessions world_A_timing_out)
      with ({["A" := session_timing_out [tool_X]]} : gmap string ClientSession) in Hsess.
    apply lookup_singleton_Some in Hsess as [_ <-].
    simpl in Hcall. by inversion Hcall. }
  exact (proj1 (proj2 (call_tool_never_raises world_A_timing_out use_X Hexn))
           "A" (session_timing_out [tool_X]) _
           eq_refl ltac:(discriminate) eq_refl eq_refl).
Defined.

(** C5: when no stored tool list contains the name, [call_tool] returns the
    error payload saying the tool was not found in any MCP connection,
    stores it in the current step, and makes no session call. *)
Theorem call_tool_unknown_tool (w : World) (tool_use : ToolUse) :
  (∀ s tools, (s, tools) ∈ tools_table w →
              any_name_matches (tu_name tool_use) tools = false) →
  snd (call_tool tool_use w)
  = Ret (error_payload ("Tool " +:+ tu_name tool_use +:+ " not found in any MCP connection")) ∧
  step_output (current_step (fst (call_tool tool_use w)))
  = error_payload ("Tool " +:+ tu_name tool_use +:+ " not found in any MCP connection") ∧
  session_calls (effects (fst (call_tool tool_use w))) = session_calls (effects w).
Proof.
  intros Hnone.
  assert (resolve w (tu_name tool_use) = None) as Hres.
  { rewrite resolve_table. apply find_in_items_None, Forall_forall.
    intros [s tools] Hin. by apply (Hnone s tools). }
  rewrite call_tool_unfold. unfold call_tool_cases. rewrite Hres. simpl.
  split_and!; [done..|].
  rewrite session_calls_app. simpl. by rewrite app_nil_r.
Qed.

(** C5, instance: [Y] is not advertised in [world_AB]. *)
Lemma call_tool_unknown_tool_witness :
  snd (call_tool {| tu_name := "Y"; tu_input := JNull |} world_AB)
  = Ret (error_payload "Tool Y not found in any MCP connection").
Proof.
  refine (proj1 (call_tool_unknown_tool world_AB {| tu_name := "Y"; tu_input := JNull |} _)).
  intros s tools Hin. vm_compute in Hin.
  apply elem_of_cons in Hin as [[= _ ->]|Hin]; [reflexivity|].
  apply elem_of_cons in Hin as [[= _ ->]|Hin]; [reflexivity|].
  by apply not_elem_of_nil in Hin.
Defined.

(** The session-lookup branch of [call_tool], for a server whose name is not
    empty: the name resolves to [mcp_name], no live session is stored under
    it, and the call returns the session-not-found payload without calling
    any session, whichever other servers advertise the tool. *)
Lemma call_tool_session_missing (w : World) (tool_use : ToolUse) (mcp_name : string) :
  resolve w (tu_name tool_use) = Some mcp_name →
  mcp_name ≠ "" →
  mcp_sessions w !! mcp_name = None →
  snd (call_tool tool_use w)
  = Ret (error_payload ("MCP session " +:+ mcp_name +:+ " not found")) ∧
  session_calls (effects (fst (call_tool tool_use w))) = session_calls (effects w).
Proof.
  intros Hres Hne Hsess.
  rewrite call_tool_unfold. unfold call_tool_cases. rewrite Hres.
  destruct (String.eqb_spec mcp_name ""); [done|]. rewrite Hsess. simpl.
  split; [done|]. rewrite session_calls_app. simpl. by rewrite app_nil_r.
Qed.

(** C6 (failing input): a server connected under the empty name advertises
    [X] and has no live session.  The name resolves to that server, yet
    [call_tool] reports the tool as not found in any connection, not the
    missing session: the test [if not mcp_name] takes the empty name for
    [None]. *)
Theorem call_tool_unnamed_server_reports_not_found :
  resolve world_unnamed "X" = Some "" ∧
  mcp_sessions world_unnamed !! "" = None ∧
  snd (call_tool use_X world_unnamed)
  = Ret (error_payload "Tool X not found in any MCP connection") ∧
  snd (call_tool use_X world_unnamed)
  ≠ Ret (error_payload ("MCP session " +:+ "" +:+ " not found")).
Proof. by split_and!. Qed.

(** ** [on_message] and the captured logs *)

Lemma emit_all_logs records h :
  emit_all records h
  = {| CapturingHandler.logs :=
         CapturingHandler.logs h ++ map CapturingHandler.format records |}.
Proof.
  unfold emit_all. revert h.
  induction records as [|r records IH]; intros [l]; simpl.
  - by rewrite app_nil_r.
  - rewrite IH. simpl. by rewrite <- app_assoc.
Qed.

Lemma on_message_unfold content service w :
  on_message content service w = on_message_cases content service w.
Proof.
  destruct w as [plugins handler [tools_ plugins_ [[|m l]|]] sessions step_ effects_].
  all: unfold on_message_cases, on_message, get_chat_message_content, add_message.
  all: unfold_M; simpl; rewrite emit_all_logs; simpl.
  all: destruct (reply_result (service _ plugins)) as [response|e]; simpl.
  all: try (destruct (create_thought_elements _) as [[|element elements]|e]; simpl).
  all: try (destruct (isinstance_Exception (exn_cls e)) eqn:Hexn; simpl; rewrite ?Hexn).
  all: reduce_world; rewrite ?Hexn.
  all: by rewrite <- ?app_assoc.
Qed.

(** *** The thought elements of captured logs *)

Lemma append_block_cons (c : Ascii.ascii) (s : string) (block : option string) :
  ∃ rest, append_block (String c s) block = String c rest.
Proof.
  unfold append_block. destruct (truthy block); [|by eexists].
  destruct (ends_with_newline _); rewrite !string_app_cons; by eexists.
Qed.

(** A formatted record is never the empty string: it starts with the
    bracket of the level. *)
Lemma format_nonempty (record : LogRecord) : CapturingHandler.format record ≠ "".
Proof.
  unfold CapturingHandler.format. rewrite string_app_cons.
  match goal with
  | |- context [append_block (String ?c ?s) (exc_text record)] =>
      destruct (append_block_cons c s (exc_text record)) as [r1 ->];
      by destruct (append_block_cons c r1 (stack_info record)) as [r2 ->]
  end.
Qed.

(** ["\n".join(lines)] is empty only for no line and for one empty line. *)
Lemma concat_newline_empty (lines : list string) :
  String.concat newline lines = "" → lines = [] ∨ lines = [""].
Proof.
  destruct lines as [|x [|y lines]]; simpl; [by left|intros ->; by right|].
  destruct x as [|c x]; [|by rewrite string_app_cons].
  unfold newline. by rewrite string_app_cons.
Qed.

Lemma concat_newline_nonempty (lines : list string) :
  lines ≠ [] → Forall (λ line, line ≠ "") lines → String.concat newline lines ≠ "".
Proof.
  intros Hne Hall [->| ->]%concat_newline_empty; [done|].
  by inversion Hall.
Qed.

Lemma cl_Text_nonempty (name content : string) :
  content ≠ "" → cl_Text name content = Ret {| text_name := name; text_content := content |}.
Proof. intros Hne. unfold cl_Text. by destruct (String.eqb_spec content ""). Qed.

(** The elements [create_thought_elements] builds, for every list of lines
    but the single empty line. *)
Lemma create_thought_elements_eval (thought_process : list string) :
  thought_process ≠ [""] →
  create_thought_elements thought_process
  = Ret (match List.filter (λ log, contains "plugin" (lower log) || contains "function" (lower log))
                 thought_process with
         | [] => []
         | plugin_logs =>
             [ {| text_name := "Plugin Activity";
                  text_content := String.concat newline plugin_logs |} ]
         end ++
         match thought_process with
         | [] => []
         | _ => [ {| text_name := "Semantic Kernel Logs";
                     text_content := String.concat newline thought_process |} ]
         end).
Proof.
  intros Hne. unfold create_thought_elements, append_Text.
  set (test := λ log : string, contains "plugin" (lower log) || contains "function" (lower log)).
  assert (Forall (λ line, line ≠ "") (List.filter test thought_process)) as Hfiltered.
  { apply Forall_forall. intros line [_ Htest]%elem_of_list_filter_bool ->. done. }
  assert (thought_process ≠ [] → String.concat newline thought_process ≠ "") as Hjoined.
  { intros Hnil [?|?]%concat_newline_empty; done. }
  destruct (List.filter test thought_process) as [|p ps] eqn:Hf.
  - destruct thought_process as [|log logs]; [done|].
    rewrite cl_Text_nonempty; [done|]. by apply Hjoined.
  - rewrite cl_Text_nonempty by (by apply concat_newline_nonempty).
    destruct thought_process as [|log logs]; [done|].
    rewrite cl_Text_nonempty; [done|]. by apply Hjoined.
Qed.

Lemma create_thought_elements_formatted (records : list LogRecord) :
  ∃ elements,
    create_thought_elements (map CapturingHandler.format records) = Ret elements ∧
    (elements = [] ↔ records = []).
Proof.
  rewrite create_thought_elements_eval.
  - eexists. split; [done|]. destruct records as [|r records]; [done|]. simpl.
    split; [|done]. by intros [_ ?]%app_eq_nil.
  - destruct records as [|r [|r' records]]; try done.
    intros [= Hempty]. by apply format_nonempty in Hempty.
Qed.

(** The turn's thought elements exist: the captured lines are formatted
    records. *)
Tactic Notation "formatted_thought_elements" ident(els) ident(Hnil) :=
  match goal with
  | |- context [create_thought_elements (map CapturingHandler.format ?records)] =>
      destruct (create_thought_elements_formatted records) as (els & -> & Hnil)
  end.

(** C7: in a turn where the service made no tool-call round (it added
    nothing to the history itself) and its response, an assistant message,
    carries no tool-call request, the history grows by exactly the user
    message followed by that response, and no tool is invoked through the
    router. *)
Theorem turn_without_tool_calls (w : World) (content : string) (service : Service)
    (response : ChatMessageContent) :
  reply_result (service (add_user_message content (chat_history_of w)) (kernel w))
    = Ret response →
  reply_appended (service (add_user_message content (chat_history_of w)) (kernel w)) = [] →
  function_calls response = [] →
  role response = assistant →
  history (user_session (fst (on_message content service w)))
    = Some (chat_history_of w ++
            [ {| role := user; msg_content := content; function_calls := [] |}; response ]) ∧
  length (chat_history_of (fst (on_message content service w)))
    = length (chat_history_of w) + 2 ∧
  role <$> drop (length (chat_history_of w)) (chat_history_of (fst (on_message content service w)))
    = [user; assistant] ∧
  router_invocations (effects (fst (on_message content service w)))
    = router_invocations (effects w) ∧
  session_calls (effects (fst (on_message content service w))) = session_calls (effects w) ∧
  snd (on_message content service w) = Ret tt.
Proof.
  unfold chat_history_of. intros Hres Happ _ Hrole.
  rewrite on_message_unfold. unfold on_message_cases.
  rewrite Hres, Happ. formatted_thought_elements els Hnil. simpl.
  rewrite router_invocations_app, session_calls_app. unfold add_message, add_user_message.
  rewrite app_nil_r, <- app_assoc. simpl.
  split_and!; try done.
  - rewrite length_app. simpl. lia.
  - rewrite drop_app_length. simpl. by rewrite Hrole.
  - destruct els; unfold router_invocations; simpl; lia.
  - destruct els; unfold session_calls; simpl; by rewrite app_nil_r.
Qed.

(** C7, instance: a text answer in [world_A], whose history is empty. *)
Lemma turn_without_tool_calls_witness :
  history (user_session (fst (on_message "hello" (service_answering "hi") world_A)))
  = Some [ {| role := user; msg_content := "hello"; function_calls := [] |};
           {| role := assistant; msg_content := "hi"; function_calls := [] |} ].
Proof.
  exact (proj1 (turn_without_tool_calls world_A "hello" (service_answering "hi")
                  {| role := assistant; msg_content := "hi"; function_calls := [] |}
                  eq_refl eq_refl eq_refl eq_refl)).
Defined.

(** C8: after a turn the handler holds exactly the records logged during
    that turn's service call, formatted, whatever it held before the turn:
    the logs captured up to the end of the previous turn, or between the
    turns, are gone. *)
Theorem trace_holds_current_turn_only (w : World) (content : string) (service : Service) :
  CapturingHandler.get_logs (capturing_handler (fst (on_message content service w)))
  = map CapturingHandler.format
      (reply_logs (service (add_user_message content (chat_history_of w)) (kernel w))) ∧
  (∀ earlier : CapturingHandler.t,
     CapturingHandler.get_logs
       (capturing_handler (fst (on_message content service (with_handler earlier w))))
     = CapturingHandler.get_logs (capturing_handler (fst (on_message content service w)))) ∧
  (∀ (previous_content : string) (previous_service : Service) (between : list LogRecord),
     let turn_before := step w (Message previous_content previous_service) in
     let w_n := run turn_before (map Logged between) in
     CapturingHandler.get_logs (capturing_handler (step w_n (Message content service)))
     = map CapturingHandler.format
         (reply_logs (service (add_user_message content (chat_history_of w_n)) (kernel w_n)))).
Proof.
  assert (∀ w0, CapturingHandler.get_logs (capturing_handler (fst (on_message content service w0)))
                = map CapturingHandler.format
                    (reply_logs (service (add_user_message content (chat_history_of w0))
                                         (kernel w0)))) as Hturn.
  { intros w0. rewrite on_message_unfold. unfold on_message_cases, chat_history_of.
    destruct (reply_result _) as [response|e]; simpl;
      [formatted_thought_elements els Hnil; done|].
    by destruct (isinstance_Exception (exn_cls e)). }
  split_and!.
  - apply Hturn.
  - intros earlier. by rewrite !Hturn.
  - intros previous_content previous_service between turn_before w_n. apply Hturn.
Qed.

(** C4 (as the code has it): a turn makes exactly one call of the completion
    service and no tool invocation of its own, whatever the service replies;
    a response is entered in the history and sent, even when it carries
    tool-call requests, and nothing is reported as an error; the turn ends
    in an error only when the service call raises, reported as
    ["Error processing message: ..."]. *)
Theorem on_message_single_model_call (w : World) (content : string) (service : Service) :
  model_calls (effects (fst (on_message content service w))) = model_calls (effects w) + 1 ∧
  router_invocations (effects (fst (on_message content service w)))
    = router_invocations (effects w) ∧
  (∀ response,
     reply_result (service (add_user_message content (chat_history_of w)) (kernel w))
       = Ret response →
     snd (on_message content service w) = Ret tt ∧
     printed (effects (fst (on_message content service w))) = printed (effects w) ∧
     last (effects (fst (on_message content service w))) = Some (Send (msg_content response)) ∧
     last (chat_history_of (fst (on_message content service w))) = Some response) ∧
  (∀ e,
     reply_result (service (add_user_message content (chat_history_of w)) (kernel w))
       = Raise e →
     isinstance_Exception (exn_cls e) = true →
     snd (on_message content service w) = Ret tt ∧
     printed (effects (fst (on_message content service w)))
       = printed (effects w) ++ ["Error processing message: " +:+ exn_str e]).
Proof.
  rewrite on_message_unfold. unfold on_message_cases, chat_history_of.
  formatted_thought_elements els Hnil.
  split_and!.
  - destruct (reply_result _) as [response|e]; simpl;
      [|destruct (isinstance_Exception (exn_cls e)); simpl];
      rewrite !model_calls_app; unfold model_calls; simpl; try lia.
    destruct els; simpl; lia.
  - destruct (reply_result _) as [response|e]; simpl;
      [|destruct (isinstance_Exception (exn_cls e)); simpl];
      rewrite !router_invocations_app; unfold router_invocations; simpl; try lia.
    destruct els; simpl; lia.
  - intros response ->. simpl. split_and!; [done| | |].
    + rewrite printed_app. simpl.
      destruct els; simpl; by rewrite app_nil_r.
    + rewrite last_app. by destruct els.
    + unfold add_message. apply last_snoc.
  - intros e -> ->. simpl. split; [done|]. by rewrite printed_app.
Qed.

(** C4, instance: the service that always asks for a tool call, in
    [world_A]: the turn returns normally and its response is the last
    message of the history. *)
Lemma on_message_single_model_call_witness :
  snd (on_message "hello" service_always_calling world_A) = Ret tt ∧
  (function_calls <$> last (chat_history_of (fst (on_message "hello" service_always_calling world_A))))
  = Some [ {| fc_name := "X"; fc_arguments := JObj [] |} ].
Proof.
  pose proof (proj1 (proj2 (proj2
    (on_message_single_model_call world_A "hello" service_always_calling))) _ eq_refl)
    as (Hret & _ & _ & Hlast).
  split; [exact Hret|]. by rewrite Hlast.
Defined.

(** C4 as stated fails: with a service whose every reply asks for a tool
    call, the turn does not end in an error of any kind: no exception, no
    error report. *)
Lemma always_calling_model_turn_completes :
  always_requests_tools service_always_calling ∧
  ¬ turn_aborts "hello" service_always_calling world_A.
Proof.
  split.
  - intros chat_history plugins. eexists. split; [reflexivity|discriminate].
  - intros [[e He]|Hprinted].
    + vm_compute in He. discriminate.
    + apply Hprinted. reflexivity.
Qed.

(** ** The connection handlers as case analyses *)

Lemma on_mcp_connect_unfold connection session plugin_connect w :
  on_mcp_connect connection session plugin_connect w
  = on_mcp_connect_cases connection session plugin_connect w.
Proof.
  destruct w as [plugins handler [tools_ plugins_ history_] sessions step_ effects_ text_].
  unfold on_mcp_connect_cases, on_mcp_connect, _integrate_mcp_with_kernel,
    report_error, plugin_of, tools_table, plugins_table.
  unfold_M. simpl.
  destruct (list_tools session) as [tools|e]; simpl.
  - destruct (truthy (conn_url connection)); simpl.
    + destruct plugin_connect as [[]|e]; simpl.
      * destruct (valid_plugin_name (conn_name connection)); simpl;
          reduce_world; by rewrite <- ?app_assoc.
      * destruct (isinstance_Exception (exn_cls e)) eqn:Hexn; simpl; rewrite ?Hexn;
          reduce_world; rewrite ?Hexn; by rewrite <- ?app_assoc.
    + reduce_world. by rewrite <- ?app_assoc.
  - destruct (isinstance_Exception (exn_cls e)) eqn:Hexn; simpl; rewrite ?Hexn;
      reduce_world; rewrite ?Hexn; by rewrite <- ?app_assoc.
Qed.

Lemma on_mcp_disconnect_unfold connection_name plugin_disconnect w :
  on_mcp_disconnect connection_name plugin_disconnect w
  = on_mcp_disconnect_cases connection_name plugin_disconnect w.
Proof.
  destruct w as [plugins handler [tools_ plugins_ history_] sessions step_ effects_ text_].
  unfold on_mcp_disconnect_cases, on_mcp_disconnect, report_error, tools_table, plugins_table.
  unfold_M. simpl.
  destruct (Dict.mem connection_name (default Dict.empty tools_)); simpl.
  all: destruct (default ∅ plugins_ !! connection_name) as [plugin|]; simpl;
    [|by reduce_world].
  all: destruct plugin_disconnect as [[[]|e]|]; simpl.
  all: try (destruct (isinstance_Exception (exn_cls e)) eqn:Hexn; simpl; rewrite ?Hexn).
  all: reduce_world; rewrite ?Hexn; by rewrite <- ?app_assoc.
Qed.

(** ** The kernel's plugins over the lifetime of the process *)

Lemma on_mcp_disconnect_plugins connection_name plugin_disconnect w :
  (∀ e, plugin_disconnect ≠ Some (Raise e)) →
  plugins_table (fst (on_mcp_disconnect connection_name plugin_disconnect w)) !! connection_name
  = None.
Proof.
  intros Hok. unfold on_mcp_disconnect, plugins_table.
  destruct plugin_disconnect as [[[]|e]|]; [|by destruct (Hok e)|].
  all: run_handler; by rewrite ?lookup_delete_eq.
Qed.

Lemma on_mcp_connect_registers connection session plugin_connect tools w :
  valid_plugin_name (conn_name connection) = true →
  truthy (conn_url connection) = true →
  list_tools session = Ret tools →
  plugin_connect = Ret tt →
  kernel (fst (on_mcp_connect connection session plugin_connect w)) !! conn_name connection
  = Some (plugin_of connection).
Proof.
  intros Hvalid Hurl Htools ->. rewrite on_mcp_connect_unfold. unfold on_mcp_connect_cases.
  rewrite Htools, Hurl, Hvalid. simpl. apply lookup_insert_eq.
Qed.

Lemma other_session_connect_kernel plugin w :
  kernel (step w (OtherSessionConnect plugin)) = kernel w ∨
  kernel (step w (OtherSessionConnect plugin)) = <[plugin_name plugin := plugin]> (kernel w).
Proof.
  unfold step, handle. unfold_M.
  destruct (valid_plugin_name (plugin_name plugin)); [by right|by left].
Qed.

Lemma other_session_connect_frame plugin w :
  user_session (step w (OtherSessionConnect plugin)) = user_session w.
Proof.
  unfold step, handle. unfold_M.
  by destruct (valid_plugin_name (plugin_name plugin)).
Qed.

Lemma step_kernel_mono w ev : dom (kernel w) ⊆ dom (kernel (step w ev)).
Proof.
  destruct ev as [|connection session plugin_connect|connection_name plugin_disconnect
                  |content service|tool_use|record|sessions|plugin|records].
  - done.
  - apply on_mcp_connect_kernel.
  - unfold step, handle. by rewrite on_mcp_disconnect_kernel.
  - unfold step, handle. by destruct (on_message_frame content service w) as (-> & _).
  - rewrite step_tool_call. by destruct (call_tool_frame tool_use w) as (_ & -> & _).
  - done.
  - done.
  - destruct (other_session_connect_kernel plugin w) as [-> | ->]; [done|].
    rewrite dom_insert_L. set_solver.
  - done.
Qed.

Lemma run_kernel_mono evs w : dom (kernel w) ⊆ dom (kernel (run w evs)).
Proof.
  revert w. induction evs as [|ev evs IH]; intros w; simpl; [done|].
  etrans; [apply (step_kernel_mono w ev)|apply IH].
Qed.

(** The stored tool table stays a dictionary: its keys never repeat. *)
Lemma step_nodup_keys w ev :
  NoDup (Dict.keys (tools_table w)) → NoDup (Dict.keys (tools_table (step w ev))).
Proof.
  intros Hnd.
  destruct ev as [|connection session plugin_connect|connection_name plugin_disconnect
                  |content service|tool_use|record|sessions|plugin|records].
  - apply NoDup_nil_2.
  - unfold step, handle. rewrite on_mcp_connect_tools_table.
    destruct (list_tools session); [by apply dict_nodup_set|done].
  - unfold step, handle. rewrite on_mcp_disconnect_tools_table. by apply dict_nodup_del.
  - unfold step, handle. by destruct (on_message_frame content service w) as (_ & -> & _).
  - rewrite step_tool_call. unfold tools_table.
    by destruct (call_tool_frame tool_use w) as (-> & _).
  - done.
  - done.
  - unfold tools_table. by rewrite other_session_connect_frame.
  - done.
Qed.

Lemma run_nodup_keys evs : NoDup (Dict.keys (tools_table (run initial_world evs))).
Proof.
  assert (∀ w, NoDup (Dict.keys (tools_table w)) →
               NoDup (Dict.keys (tools_table (run w evs)))) as Hrun.
  { induction evs as [|ev evs IH]; intros w Hnd; simpl; [done|].
    by apply IH, step_nodup_keys. }
  apply Hrun, NoDup_nil_2.
Qed.

(** C9: [on_mcp_disconnect] leaves no entry for the connection in
    [mcp_tools], and none in [mcp_plugins]: the plugin objects kept there
    have no [disconnect] method, and the same holds of any plugin whose
    [disconnect()] returns.  It leaves the kernel's plugins exactly as they
    were.  No event, of this chat session or of another, ever removes a
    plugin name from the kernel, so a plugin registered for a server is
    still registered after the server disconnected, and after whatever
    happens next; such is the plugin of a server that connected under a
    name the kernel takes. *)
Theorem disconnect_keeps_kernel_plugins (w : World) (connection_name : string) :
  (∀ plugin_disconnect,
     connection_name
       ∉ Dict.keys (tools_table (step w (McpDisconnect connection_name plugin_disconnect)))) ∧
  plugins_table (step w (McpDisconnect connection_name None)) !! connection_name = None ∧
  (∀ plugin_disconnect,
     (∀ e, plugin_disconnect ≠ Some (Raise e)) →
     plugins_table (step w (McpDisconnect connection_name plugin_disconnect)) !! connection_name
     = None) ∧
  (∀ plugin_disconnect,
     kernel (step w (McpDisconnect connection_name plugin_disconnect)) = kernel w) ∧
  (∀ evs : list event, dom (kernel w) ⊆ dom (kernel (run w evs))) ∧
  (∀ plugin_disconnect (evs : list event),
     connection_name ∈ dom (kernel w) →
     connection_name
       ∈ dom (kernel (run w (McpDisconnect connection_name plugin_disconnect :: evs)))) ∧
  (∀ connection session tools plugin_disconnect (evs : list event),
     conn_name connection = connection_name →
     valid_plugin_name connection_name = true →
     truthy (conn_url connection) = true →
     list_tools session = Ret tools →
     kernel (run w [McpConnect connection session (Ret tt);
                    McpDisconnect connection_name plugin_disconnect]) !! connection_name
     = Some (plugin_of connection) ∧
     connection_name
       ∈ dom (kernel (run w (McpConnect connection session (Ret tt)
                              :: McpDisconnect connection_name plugin_disconnect :: evs)))).
Proof.
  split_and!.
  - intros plugin_disconnect. unfold step, handle.
    rewrite on_mcp_disconnect_tools_table. apply dict_keys_del.
  - apply on_mcp_disconnect_plugins. intros e. discriminate.
  - intros plugin_disconnect. apply on_mcp_disconnect_plugins.
  - intros plugin_disconnect. apply on_mcp_disconnect_kernel.
  - intros evs. apply run_kernel_mono.
  - intros plugin_disconnect evs Hin.
    by apply (run_kernel_mono (McpDisconnect connection_name plugin_disconnect :: evs)).
  - intros connection session tools plugin_disconnect evs Hname Hvalid Hurl Htools.
    assert (kernel (run w [McpConnect connection session (Ret tt);
                           McpDisconnect connection_name plugin_disconnect])
              !! connection_name = Some (plugin_of connection)) as Hkept.
    { simpl. unfold step at 1, handle. rewrite on_mcp_disconnect_kernel.
      unfold step, handle. rewrite <- Hname in *.
      by eapply on_mcp_connect_registers. }
    split; [done|].
    change (run w (McpConnect connection session (Ret tt)
                     :: McpDisconnect connection_name plugin_disconnect :: evs))
      with (run (run w [McpConnect connection session (Ret tt);
                        McpDisconnect connection_name plugin_disconnect]) evs).
    apply (run_kernel_mono evs). apply elem_of_dom. by eexists.
Qed.

(** C9, instance: [A] connects in a fresh chat and disconnects; its entry
    in [mcp_plugins] is gone and its plugin is still the kernel's. *)
Lemma disconnect_keeps_kernel_plugins_witness :
  plugins_table (step world_A (McpDisconnect "A" None)) !! "A" = None ∧
  kernel (run initial_world [connect "A" [tool_X]; McpDisconnect "A" None]) !! "A"
  = Some (plugin_of (connection_of "A")).
Proof.
  split.
  - exact (proj1 (proj2 (disconnect_keeps_kernel_plugins world_A "A"))).
  - exact (proj1 (proj2 (proj2 (proj2 (proj2 (proj2 (proj2
             (disconnect_keeps_kernel_plugins initial_world "A"))))))
             (connection_of "A") (session_of [tool_X]) [tool_X] None []
             eq_refl eq_refl eq_refl eq_refl)).
Defined.

(** A plugin with a [disconnect] method that raises would keep its entry in
    [mcp_plugins]: the handler reports the error before it reaches the
    [del]. *)
Example raising_disconnect_would_keep_the_entry :
  is_Some (plugins_table
             (step world_A
                (McpDisconnect "A"
                   (Some (Raise {| exn_cls := ConnectionError;
                                   exn_str := "connection closed" |})))) !! "A").
Proof. vm_compute. by eexists. Qed.

(** ** Worked scenarios *)

(** A call of a tool of a connected server with a live session goes to that
    session, once, and returns its result. *)
Example call_tool_routes_to_live_session :
  snd (call_tool use_X world_A_live) = Ret (str_of_result ok_result) ∧
  session_calls (effects (fst (call_tool use_X world_A_live)))
  = [SessionCallTool "A" "X" (tu_input use_X)].
Proof. by split. Qed.

(** A server that disconnects and connects again is entered last: the name
    then resolves to the server that stayed connected. *)
Example reconnect_moves_to_the_end :
  resolve (run world_AB [McpDisconnect "A" None; connect "A" [tool_X]]) "X" = Some "B".
Proof. reflexivity. Qed.

(** A server that connects again under its existing entry keeps its place
    and replaces its tools. *)
Example reconnect_in_place_keeps_position :
  Dict.keys (tools_table (run world_AB [connect "A" [tool_Y]])) = ["A"; "B"] ∧
  resolve (run world_AB [connect "A" [tool_Y]]) "Y" = Some "A" ∧
  resolve (run world_AB [connect "A" [tool_Y]]) "X" = Some "B".
Proof. by split_and!. Qed.

(** A server whose [list_tools()] fails is reported and enters nothing. *)
Example failed_listing_registers_nothing :
  tools_table
    (step world_A
       (McpConnect (connection_of "B")
          {| list_tools := Raise {| exn_cls := McpError; exn_str := "unavailable" |};
             session_call_tool := λ _ _, Ret ok_result |}
          (Ret tt)))
  = tools_table world_A.
Proof. reflexivity. Qed.

(** * Further properties of the application *)

(** ** Service configuration *)

Lemma truthy_Some_nonempty (o : option string) :
  truthy o = true ↔ ∃ v, o = Some v ∧ v ≠ "".
Proof.
  destruct o as [v|]; simpl.
  - destruct (String.eqb_spec v ""); simpl.
    + split; [done|]. intros (v' & [= <-] & Hne). done.
    + split; [|done]. intros _. by exists v.
  - split; [done|]. by intros (v & [=] & _).
Qed.

(** X1: [create_azure_chat_service] calls the [AzureChatCompletion]
    constructor exactly when each of the four required variables is set to
    a non-empty value, hands it those values under the service id
    ["azure-openai-svc"], and returns or raises as the constructor does;
    otherwise it raises, whatever the constructor would do, a [ValueError]
    whose message lists, in the order of [required_env_vars], exactly the
    variables that are unset or empty. *)
Theorem create_azure_chat_service_checks_environment {Svc : Type}
    (environ : gmap string string)
    (AzureChatCompletion : AzureChatCompletionArgs → outcome Svc) :
  (Forall (λ var, ∃ v, environ !! var = Some v ∧ v ≠ "") required_env_vars →
   create_azure_chat_service environ AzureChatCompletion
   = AzureChatCompletion
       {| deployment_name := environ !! "AZURE_OPENAI_CHAT_DEPLOYMENT_NAME";
          api_key := environ !! "AZURE_OPENAI_API_KEY";
          base_url := environ !! "AZURE_OPENAI_BASE_URL";
          api_version := environ !! "AZURE_OPENAI_API_VERSION";
          service_id := "azure-openai-svc" |}) ∧
  (¬ Forall (λ var, ∃ v, environ !! var = Some v ∧ v ≠ "") required_env_vars →
   ∃ missing_vars,
     create_azure_chat_service environ AzureChatCompletion
     = Raise {| exn_cls := ValueError;
                exn_str := "Missing required environment variables: "
                           +:+ repr_list missing_vars |} ∧
     missing_vars ≠ [] ∧
     sublist missing_vars required_env_vars ∧
     ∀ var, var ∈ missing_vars ↔
            var ∈ required_env_vars ∧ (environ !! var = None ∨ environ !! var = Some "")) ∧
  (∀ svc,
     create_azure_chat_service environ AzureChatCompletion = Ret svc →
     Forall (λ var, ∃ v, environ !! var = Some v ∧ v ≠ "") required_env_vars ∧
     AzureChatCompletion
       {| deployment_name := environ !! "AZURE_OPENAI_CHAT_DEPLOYMENT_NAME";
          api_key := environ !! "AZURE_OPENAI_API_KEY";
          base_url := environ !! "AZURE_OPENAI_BASE_URL";
          api_version := environ !! "AZURE_OPENAI_API_VERSION";
          service_id := "azure-openai-svc" |} = Ret svc).
Proof.
  unfold create_azure_chat_service.
  set (missing := List.filter (λ var, negb (truthy (getenv environ var))) required_env_vars).
  assert (missing = [] ↔
          Forall (λ var, ∃ v, environ !! var = Some v ∧ v ≠ "") required_env_vars) as Hnone.
  { unfold missing. rewrite filter_nil_forall. apply Forall_iff. intros var.
    rewrite negb_false_iff. apply truthy_Some_nonempty. }
  split_and!.
  - intros Hall. apply Hnone in Hall. by rewrite Hall.
  - intros Hnot. destruct missing as [|var0 rest] eqn:Hmissing; [by destruct Hnot; apply Hnone|].
    exists (var0 :: rest). split_and!; try done.
    + rewrite <- Hmissing. unfold missing.
      clear. induction required_env_vars as [|x l IH]; simpl; [done|].
      destruct (negb _); [by apply sublist_skip|by apply sublist_cons].
    + intros var. rewrite <- Hmissing. unfold missing.
      rewrite elem_of_list_filter_bool, negb_true_iff.
      apply and_iff_compat_l. unfold getenv.
      destruct (environ !! var) as [v|]; simpl.
      * destruct (String.eqb_spec v "") as [->|Hne]; simpl.
        -- split; [by right|done].
        -- split; [done|]. intros [[=]|[=]]. done.
      * split; [by left|done].
  - intros svc. destruct missing; [|done]. intros Hsvc. split; [by apply Hnone|done].
Qed.

(** X1, instance: with every variable set the constructor is handed the
    four values; with the key empty and the version unset, those two are
    reported, in order. *)
Lemma create_azure_chat_service_checks_environment_witness :
  create_azure_chat_service environ_complete Ret
  = Ret {| deployment_name := Some "gpt-4.1";
           api_key := Some "secret";
           base_url := Some "https://example.openai.azure.com";
           api_version := Some "2024-06-01";
           service_id := "azure-openai-svc" |} ∧
  create_azure_chat_service environ_incomplete (@Ret AzureChatCompletionArgs)
  = Raise {| exn_cls := ValueError;
             exn_str := "Missing required environment variables: "
                        +:+ "['AZURE_OPENAI_API_KEY', 'AZURE_OPENAI_API_VERSION']" |}.
Proof.
  split; [|by vm_compute].
  refine (proj1 (create_azure_chat_service_checks_environment environ_complete Ret) _).
  repeat constructor; eexists; (split; [reflexivity|discriminate]).
Defined.

(** ** The thought elements and the captured logs *)

Lemma string_prefix_spec (p s : string) :
  String.prefix p s = true ↔ ∃ post, s = p +:+ post.
Proof.
  revert s. induction p as [|c p IH]; intros s; simpl.
  - destruct s; split; try done; by eexists.
  - destruct s as [|c' s]; simpl.
    + split; [done|]. by intros (post & [=]).
    + destruct (Ascii.ascii_dec c c') as [->|Hne].
      * rewrite IH. split.
        -- intros (post & ->). by exists post.
        -- intros (post & [= ->]). by exists post.
      * split; [done|]. intros (post & [= -> _]). done.
Qed.

(** [contains] is Python's substring test: some occurrence, anywhere. *)
Lemma contains_spec (sub s : string) :
  contains sub s = true ↔ ∃ pre post, s = pre +:+ sub +:+ post.
Proof.
  induction s as [|c s IH]; cbn [contains].
  - rewrite orb_false_r, string_prefix_spec. split.
    + intros (post & ->). by exists "", post.
    + intros ([|c pre] & post & Heq); [|done]. by exists post.
  - rewrite orb_true_iff, IH, string_prefix_spec. split.
    + intros [(post & ->)|(pre & post & ->)].
      * by exists "", post.
      * by exists (String c pre), post.
    + intros ([|c' pre] & post & Heq); simpl in Heq.
      * left. by exists post.
      * right. injection Heq as -> ->. by exists pre, post.
Qed.

Lemma mentions_plugin_activity_test (log : string) :
  contains "plugin" (lower log) || contains "function" (lower log) = true ↔
  mentions_plugin_activity log.
Proof.
  rewrite orb_true_iff, !contains_spec. unfold mentions_plugin_activity. split.
  - intros [(pre & post & Heq)|(pre & post & Heq)]; exists pre, post; [by left|by right].
  - intros (pre & post & [Heq|Heq]); [left|right]; by exists pre, post.
Qed.

(** X2: [create_thought_elements] raises exactly for the list made of one
    empty line, whose joined content [cl.Text] refuses, and the exception is
    a [ValueError].  For every other list it returns: no element exactly for
    an empty list and never more than two; for a non-empty list the last
    element is the full log, the lines joined by newlines, and the first is
    a "Plugin Activity" element exactly when some line contains "plugin" or
    "function" in any letter case. *)
Theorem create_thought_elements_shape (thought_process : list string) :
  ((∃ e, create_thought_elements thought_process = Raise e) ↔ thought_process = [""]) ∧
  (∀ e, create_thought_elements thought_process = Raise e → exn_cls e = ValueError) ∧
  (thought_process ≠ [""] →
   ∃ elements,
     create_thought_elements thought_process = Ret elements ∧
     (elements = [] ↔ thought_process = []) ∧
     length elements ≤ 2 ∧
     (thought_process ≠ [] →
      last elements
      = Some {| text_name := "Semantic Kernel Logs";
                text_content := String.concat newline thought_process |}) ∧
     ((∃ content rest,
         elements = {| text_name := "Plugin Activity"; text_content := content |} :: rest) ↔
      (∃ log, log ∈ thought_process ∧ mentions_plugin_activity log))).
Proof.
  split_and!.
  - split; [|by intros ->; eexists].
    intros [e He]. destruct (decide (thought_process = [""])) as [|Hne]; [done|].
    by rewrite create_thought_elements_eval in He.
  - intros e. destruct (decide (thought_process = [""])) as [->|Hne]; [by intros [= <-]|].
    by rewrite create_thought_elements_eval.
  - intros Hne. rewrite create_thought_elements_eval by done. eexists. split; [done|].
    set (test := λ log : string, contains "plugin" (lower log) || contains "function" (lower log)).
    assert ((∃ log, log ∈ thought_process ∧ mentions_plugin_activity log) ↔
            List.filter test thought_process ≠ []) as Hsome.
    { split.
      - intros (log & Hin & Hlog) Hnil.
        apply filter_nil_forall in Hnil. rewrite Forall_forall in Hnil.
        apply mentions_plugin_activity_test in Hlog. specialize (Hnil _ Hin).
        unfold test in Hnil. congruence.
      - intros Hfilter. destruct (List.filter test thought_process) as [|log rest] eqn:Hf; [done|].
        assert (log ∈ List.filter test thought_process) as Hin by (rewrite Hf; by left).
        apply elem_of_list_filter_bool in Hin as [Hin Htest].
        exists log. split; [done|]. by apply mentions_plugin_activity_test. }
    rewrite Hsome. clear Hsome Hne.
    destruct thought_process as [|log0 logs]; [simpl; split_and!; try done; [lia|] |].
    + split; [by intros (content & rest & [=])|done].
    + destruct (List.filter test (log0 :: logs)) as [|p ps]; split_and!; simpl; try done; try lia.
      * split; [by intros (content & rest & [=])|done].
      * split; [done|]. intros _. by eexists _, _.
Qed.

(** X2, instance: one line about a function call gives both elements. *)
Lemma create_thought_elements_shape_witness :
  ∃ elements,
    create_thought_elements ["[INFO] semantic_kernel: Calling Function X"] = Ret elements ∧
    length elements = 2 ∧
    last elements
    = Some {| text_name := "Semantic Kernel Logs";
              text_content := "[INFO] semantic_kernel: Calling Function X" |}.
Proof.
  destruct (proj2 (proj2
              (create_thought_elements_shape ["[INFO] semantic_kernel: Calling Function X"]))
              ltac:(discriminate))
    as (elements & Hels & _ & _ & Hlast & _).
  exists elements. split; [exact Hels|].
  split; [|apply Hlast; discriminate].
  vm_compute in Hels. by injection Hels as <-.
Defined.

(** X3: the handler keeps what it is given, formatted, in the order of
    arrival after what it already held; [clear] empties it, so what is read
    after a [clear] and some records is exactly those records.  A plain
    record is formatted as its level in brackets, its logger and its
    message; the traceback of a record logged with an exception follows on
    a line of its own. *)
Theorem capturing_handler_accumulates (h : CapturingHandler.t) (records : list LogRecord) :
  CapturingHandler.get_logs (emit_all records h)
  = CapturingHandler.get_logs h ++ map CapturingHandler.format records ∧
  CapturingHandler.get_logs (emit_all records (CapturingHandler.clear h))
  = map CapturingHandler.format records ∧
  CapturingHandler.get_logs (CapturingHandler.clear (emit_all records h)) = [] ∧
  (∀ record : LogRecord,
     CapturingHandler.get_logs (CapturingHandler.emit record h)
     = CapturingHandler.get_logs h ++ [CapturingHandler.format record]) ∧
  (∀ record : LogRecord,
     truthy (exc_text record) = false →
     truthy (stack_info record) = false →
     CapturingHandler.format record
     = "[" +:+ levelname record +:+ "] " +:+ logger_name record +:+ ": " +:+ message record) ∧
  (∀ (record : LogRecord) (traceback : string),
     exc_text record = Some traceback →
     traceback ≠ "" →
     truthy (stack_info record) = false →
     let line :=
       "[" +:+ levelname record +:+ "] " +:+ logger_name record +:+ ": " +:+ message record in
     CapturingHandler.format record
     = (if ends_with_newline line then line else line +:+ newline) +:+ traceback) ∧
  (∀ (record : LogRecord) (stack : string),
     truthy (exc_text record) = false →
     stack_info record = Some stack →
     stack ≠ "" →
     let line :=
       "[" +:+ levelname record +:+ "] " +:+ logger_name record +:+ ": " +:+ message record in
     CapturingHandler.format record
     = (if ends_with_newline line then line else line +:+ newline) +:+ stack).
Proof.
  rewrite !emit_all_logs. split_and!; try done.
  - intros record Hexc Hstack. unfold CapturingHandler.format, append_block.
    by rewrite Hexc, Hstack.
  - intros record traceback Hexc Hne Hstack line.
    unfold CapturingHandler.format, append_block. rewrite Hstack, Hexc. simpl.
    by destruct (String.eqb_spec traceback "").
  - intros record stack Hexc Hstack Hne line.
    unfold CapturingHandler.format, append_block. rewrite Hexc, Hstack. simpl.
    by destruct (String.eqb_spec stack "").
Qed.

(** X3, instance: a record logged with an exception. *)
Lemma capturing_handler_accumulates_witness :
  CapturingHandler.format
    {| levelname := "ERROR"; logger_name := "semantic_kernel.kernel";
       message := "function call failed";
       exc_text := Some "Traceback (most recent call last): ...";
       stack_info := None |}
  = ("[ERROR] semantic_kernel.kernel: function call failed" +:+ newline)
    +:+ "Traceback (most recent call last): ...".
Proof.
  exact (proj1 (proj2 (proj2 (proj2 (proj2 (proj2
           (capturing_handler_accumulates CapturingHandler.init []))))))
           {| levelname := "ERROR"; logger_name := "semantic_kernel.kernel";
              message := "function call failed";
              exc_text := Some "Traceback (most recent call last): ...";
              stack_info := None |}
           "Traceback (most recent call last): ..."
           eq_refl ltac:(discriminate) eq_refl).
Defined.

(** X4: in a turn whose service call returned a response, the step is
    updated with thought elements exactly when the call logged at least one
    record; the elements are those of the formatted records. *)
Theorem on_message_shows_logs_iff_any (w : World) (content : string) (service : Service)
    (response : ChatMessageContent) :
  reply_result (service (add_user_message content (chat_history_of w)) (kernel w))
    = Ret response →
  (∀ elements,
     StepUpdate elements ∈ drop (length (effects w)) (effects (fst (on_message content service w))) →
     create_thought_elements
       (map CapturingHandler.format
          (reply_logs (service (add_user_message content (chat_history_of w)) (kernel w))))
     = Ret elements) ∧
  ((∃ elements,
      StepUpdate elements
        ∈ drop (length (effects w)) (effects (fst (on_message content service w)))) ↔
   reply_logs (service (add_user_message content (chat_history_of w)) (kernel w)) ≠ []).
Proof.
  unfold chat_history_of. intros Hres.
  rewrite on_message_unfold. unfold on_message_cases. rewrite Hres.
  formatted_thought_elements els Hnil. simpl.
  rewrite drop_app_length.
  destruct els as [|el els]; simpl.
  - split.
    + intros elements Hin. rewrite !elem_of_cons, elem_of_nil in Hin.
      destruct Hin as [?|[?|[?|[?|[]]]]] || destruct Hin as [?|[?|[?|[]]]]; congruence.
    + split.
      * intros (elements & Hin). rewrite !elem_of_cons, elem_of_nil in Hin.
        destruct Hin as [?|[?|[?|[]]]]; congruence.
      * intros Hne. destruct Hne. by apply Hnil.
  - split.
    + intros elements Hin. rewrite !elem_of_cons, elem_of_nil in Hin.
      destruct Hin as [?|[?|[?|[?|[]]]]] || destruct Hin as [?|[?|[?|[]]]]; congruence.
    + split.
      * intros _ Hno. by apply Hnil in Hno.
      * intros _. exists (el :: els). rewrite !elem_of_cons. auto.
Qed.

(** X4, instance: the answering service logs one record. *)
Lemma on_message_shows_logs_iff_any_witness :
  ∃ elements,
    StepUpdate elements
      ∈ drop (length (effects world_A))
             (effects (fst (on_message "hello" (service_answering "hi") world_A))).
Proof.
  refine (proj2 (proj2 (on_message_shows_logs_iff_any world_A "hello" (service_answering "hi")
                          _ eq_refl)) _).
  discriminate.
Defined.

(** ** The connection handlers *)

Lemma dict_set_elem {V} k (v : V) (d : Dict.t V) : (k, v) ∈ Dict.set k v d.
Proof.
  induction d as [|[k' v'] d IH]; simpl; [by left|].
  destruct (String.eqb_spec k' k) as [->|_]; [by left|by right].
Qed.

Lemma extract_mcp_tools_matches (name : string) (tools : list Tool) :
  any_name_matches name (extract_mcp_tools tools) = true ↔
  ∃ tool, tool ∈ tools ∧ tool_name tool = name.
Proof.
  unfold any_name_matches. induction tools as [|t tools IH]; simpl.
  - split; [done|]. by intros (tool & ?%not_elem_of_nil & _).
  - rewrite orb_true_iff, IH. unfold name_matches at 1. simpl. rewrite String.eqb_eq.
    split.
    + intros [Heq|(tool & Hin & Heq)]; [exists t|exists tool]; split; try done; [by left|by right].
    + intros (tool & [->|Hin]%elem_of_cons & Heq); [by left|right; by exists tool].
Qed.

Lemma find_in_items_set_new tool_name k tools items :
  find_in_items tool_name items = None →
  any_name_matches tool_name tools = true →
  find_in_items tool_name (Dict.set k tools items) = Some k.
Proof.
  intros Hnone Htools. induction items as [|[k' tools'] items IH]; simpl in *.
  - by rewrite Htools.
  - destruct (any_name_matches tool_name tools') eqn:Hk'; [done|].
    destruct (String.eqb_spec k' k) as [->|_]; simpl.
    + by rewrite Htools.
    + rewrite Hk'. by apply IH.
Qed.

(** X5: when [list_tools()] raises an [Exception], [on_mcp_connect] stores
    nothing: the session store and the kernel stay as they were, the failure
    is sent and printed, and the handler returns normally. *)
Theorem on_mcp_connect_listing_failure (w : World) (connection : McpConnection)
    (session : ClientSession) (plugin_connect : outcome unit) (e : exn) :
  list_tools session = Raise e →
  isinstance_Exception (exn_cls e) = true →
  snd (on_mcp_connect connection session plugin_connect w) = Ret tt ∧
  user_session (fst (on_mcp_connect connection session plugin_connect w)) = user_session w ∧
  kernel (fst (on_mcp_connect connection session plugin_connect w)) = kernel w ∧
  effects (fst (on_mcp_connect connection session plugin_connect w))
  = effects w ++
    [ Send ("Failed to handle MCP connection for " +:+ conn_name connection +:+ ": "
            +:+ exn_str e);
      Print ("Failed to handle MCP connection for " +:+ conn_name connection +:+ ": "
             +:+ exn_str e) ].
Proof.
  intros Htools Hexn. rewrite on_mcp_connect_unfold. unfold on_mcp_connect_cases.
  by rewrite Htools, Hexn.
Qed.

(** X5, instance: a server whose listing fails with an MCP error. *)
Lemma on_mcp_connect_listing_failure_witness :
  user_session
    (fst (on_mcp_connect (connection_of "B")
            {| list_tools := Raise {| exn_cls := McpError; exn_str := "unavailable" |};
               session_call_tool := λ _ _, Ret ok_result |}
            (Ret tt) world_A))
  = user_session world_A.
Proof.
  exact (proj1 (proj2 (on_mcp_connect_listing_failure world_A (connection_of "B")
                         {| list_tools := Raise {| exn_cls := McpError; exn_str := "unavailable" |};
                            session_call_tool := λ _ _, Ret ok_result |}
                         (Ret tt) _ eq_refl eq_refl))).
Defined.

(** X6: a connection without a URL (absent or empty) still has its tools
    stored in [mcp_tools], but no plugin is created: the kernel and
    [mcp_plugins] stay as they were, and the handler reports that no URL was
    found and returns normally. *)
Theorem on_mcp_connect_without_url (w : World) (connection : McpConnection)
    (session : ClientSession) (plugin_connect : outcome unit) (tools : list Tool) :
  list_tools session = Ret tools →
  truthy (conn_url connection) = false →
  snd (on_mcp_connect connection session plugin_connect w) = Ret tt ∧
  tools_table (fst (on_mcp_connect connection session plugin_connect w))
  = Dict.set (conn_name connection) (extract_mcp_tools tools) (tools_table w) ∧
  kernel (fst (on_mcp_connect connection session plugin_connect w)) = kernel w ∧
  mcp_plugins (user_session (fst (on_mcp_connect connection session plugin_connect w)))
  = mcp_plugins (user_session w) ∧
  printed (effects (fst (on_mcp_connect connection session plugin_connect w)))
  = printed (effects w) ++
    [ "Connected to MCP: " +:+ conn_name connection;
      "Failed to integrate " +:+ conn_name connection +:+ " with Semantic Kernel: "
      +:+ "No URL found for MCP connection " +:+ conn_name connection ].
Proof.
  intros Htools Hurl. rewrite on_mcp_connect_unfold. unfold on_mcp_connect_cases.
  rewrite Htools, Hurl. simpl. split_and!; try done.
  unfold report_error. simpl. by rewrite !printed_app, <- app_assoc.
Qed.

(** X6, instance: a connection whose URL is the empty string. *)
Lemma on_mcp_connect_without_url_witness :
  kernel (fst (on_mcp_connect {| conn_name := "B"; conn_url := Some "" |}
                 (session_of [tool_X]) (Ret tt) world_A))
  = kernel world_A.
Proof.
  exact (proj1 (proj2 (proj2
           (on_mcp_connect_without_url world_A {| conn_name := "B"; conn_url := Some "" |}
              (session_of [tool_X]) (Ret tt) [tool_X] eq_refl eq_refl)))).
Defined.

(** X7: when [mcp_plugin.connect()] raises an [Exception], the tools are
    already stored in [mcp_tools] and stay there, while the kernel and
    [mcp_plugins] get no plugin; the failure is reported with the
    exception's text and the handler returns normally. *)
Theorem on_mcp_connect_plugin_failure (w : World) (connection : McpConnection)
    (session : ClientSession) (tools : list Tool) (e : exn) :
  list_tools session = Ret tools →
  truthy (conn_url connection) = true →
  isinstance_Exception (exn_cls e) = true →
  snd (on_mcp_connect connection session (Raise e) w) = Ret tt ∧
  tools_table (fst (on_mcp_connect connection session (Raise e) w))
  = Dict.set (conn_name connection) (extract_mcp_tools tools) (tools_table w) ∧
  kernel (fst (on_mcp_connect connection session (Raise e) w)) = kernel w ∧
  mcp_plugins (user_session (fst (on_mcp_connect connection session (Raise e) w)))
  = mcp_plugins (user_session w) ∧
  last (effects (fst (on_mcp_connect connection session (Raise e) w)))
  = Some (Print ("Failed to integrate " +:+ conn_name connection
                 +:+ " with Semantic Kernel: " +:+ exn_str e)).
Proof.
  intros Htools Hurl Hexn. rewrite on_mcp_connect_unfold. unfold on_mcp_connect_cases.
  rewrite Htools, Hurl, Hexn. simpl. split_and!; try done.
  unfold report_error. simpl. rewrite last_app. done.
Qed.

(** X7, instance: the plugin cannot reach the server. *)
Lemma on_mcp_connect_plugin_failure_witness :
  kernel (fst (on_mcp_connect (connection_of "B") (session_of [tool_X])
                 (Raise {| exn_cls := ConnectionError; exn_str := "refused" |}) world_A))
  = kernel world_A.
Proof.
  exact (proj1 (proj2 (proj2
           (on_mcp_connect_plugin_failure world_A (connection_of "B") (session_of [tool_X])
              [tool_X] {| exn_cls := ConnectionError; exn_str := "refused" |}
              eq_refl eq_refl eq_refl)))).
Defined.

(** X8: a connection that lists its tools, has a URL and whose plugin
    connects has its tools entered in [mcp_tools], and the handler returns
    normally.  When the kernel takes the connection's name (digits, letters
    and underscores), one and the same plugin, named after the connection,
    is entered in the kernel and in [mcp_plugins], in the place of whatever
    either held under that name.  When it does not, neither gets the
    plugin, and the failure is reported with the kernel's error text. *)
Theorem on_mcp_connect_success (w : World) (connection : McpConnection)
    (session : ClientSession) (tools : list Tool) :
  list_tools session = Ret tools →
  truthy (conn_url connection) = true →
  snd (on_mcp_connect connection session (Ret tt) w) = Ret tt ∧
  tools_table (fst (on_mcp_connect connection session (Ret tt) w))
  = Dict.set (conn_name connection) (extract_mcp_tools tools) (tools_table w) ∧
  (valid_plugin_name (conn_name connection) = true →
   kernel (fst (on_mcp_connect connection session (Ret tt) w))
   = <[conn_name connection := plugin_of connection]> (kernel w) ∧
   plugins_table (fst (on_mcp_connect connection session (Ret tt) w))
   = <[conn_name connection := plugin_of connection]> (plugins_table w) ∧
   kernel (fst (on_mcp_connect connection session (Ret tt) w)) !! conn_name connection
   = plugins_table (fst (on_mcp_connect connection session (Ret tt) w)) !! conn_name connection ∧
   last (effects (fst (on_mcp_connect connection session (Ret tt) w)))
   = Some (Print ("Added MCP plugin " +:+ conn_name connection +:+ " to Semantic Kernel"))) ∧
  (valid_plugin_name (conn_name connection) = false →
   kernel (fst (on_mcp_connect connection session (Ret tt) w)) = kernel w ∧
   mcp_plugins (user_session (fst (on_mcp_connect connection session (Ret tt) w)))
   = mcp_plugins (user_session w) ∧
   last (effects (fst (on_mcp_connect connection session (Ret tt) w)))
   = Some (Print ("Failed to integrate " +:+ conn_name connection
                  +:+ " with Semantic Kernel: "
                  +:+ add_plugin_error w (conn_name connection)))).
Proof.
  intros Htools Hurl. rewrite on_mcp_connect_unfold. unfold on_mcp_connect_cases.
  rewrite Htools, Hurl. simpl.
  destruct (valid_plugin_name (conn_name connection)); simpl; split_and!; try done.
  - intros _. split_and!; try done.
    + unfold plugins_table. simpl. by rewrite !lookup_insert_eq.
    + by rewrite last_app.
  - intros _. split_and!; try done.
    unfold report_error. simpl. by rewrite last_app.
Qed.

(** X8, instance: [B] connects in [world_A] and is registered; a server
    named [rag-mcp] is not. *)
Lemma on_mcp_connect_success_witness :
  kernel (fst (on_mcp_connect (connection_of "B") (session_of [tool_Y]) (Ret tt) world_A)) !! "B"
  = Some {| plugin_name := "B"; plugin_description := "MCP Plugin for B";
            plugin_url := "http://B/sse" |} ∧
  kernel (fst (on_mcp_connect (connection_of "rag-mcp") (session_of [tool_Y]) (Ret tt) world_A))
  = kernel world_A.
Proof.
  split.
  - rewrite (proj1 (proj1 (proj2 (proj2
               (on_mcp_connect_success world_A (connection_of "B") (session_of [tool_Y])
                  [tool_Y] eq_refl eq_refl))) eq_refl)).
    apply lookup_insert_eq.
  - exact (proj1 (proj2 (proj2 (proj2
             (on_mcp_connect_success world_A (connection_of "rag-mcp") (session_of [tool_Y])
                [tool_Y] eq_refl eq_refl))) eq_refl)).
Defined.

(** X9: the connection handlers return normally whenever the calls they
    make into the server and the plugin raise nothing but [Exception]s. *)
Theorem connection_handlers_never_raise (w : World) :
  (∀ connection session plugin_connect,
     (∀ e, list_tools session = Raise e → isinstance_Exception (exn_cls e) = true) →
     (∀ e, plugin_connect = Raise e → isinstance_Exception (exn_cls e) = true) →
     snd (on_mcp_connect connection session plugin_connect w) = Ret tt) ∧
  (∀ connection_name plugin_disconnect,
     (∀ e, plugin_disconnect = Some (Raise e) → isinstance_Exception (exn_cls e) = true) →
     snd (on_mcp_disconnect connection_name plugin_disconnect w) = Ret tt).
Proof.
  split.
  - intros connection session plugin_connect Hlist Hconnect.
    rewrite on_mcp_connect_unfold. unfold on_mcp_connect_cases.
    destruct (list_tools session) as [tools|e]; [|by rewrite (Hlist e eq_refl)].
    destruct (truthy (conn_url connection)); simpl; [|done].
    destruct plugin_connect as [[]|e]; [|by rewrite (Hconnect e eq_refl)].
    by destruct (valid_plugin_name (conn_name connection)).
  - intros connection_name plugin_disconnect Hdisconnect.
    rewrite on_mcp_disconnect_unfold. unfold on_mcp_disconnect_cases.
    destruct (plugins_table w !! connection_name); [|done].
    destruct plugin_disconnect as [[[]|e]|]; try done.
    by rewrite (Hdisconnect e eq_refl).
Qed.

(** X9, instance: a plugin whose [disconnect()] fails with a closed
    connection. *)
Lemma connection_handlers_never_raise_witness :
  snd (on_mcp_disconnect "A"
         (Some (Raise {| exn_cls := ConnectionError; exn_str := "closed" |})) world_A)
  = Ret tt.
Proof.
  refine (proj2 (connection_handlers_never_raise world_A) "A" _ _).
  intros e [= <-]. reflexivity.
Defined.

(** X10: once [list_tools()] has returned, every tool name it listed
    resolves through the router, whatever happens to the plugin afterwards;
    a name that did not resolve before resolves to the connecting server. *)
Theorem connected_tools_resolve (w : World) (connection : McpConnection)
    (session : ClientSession) (plugin_connect : outcome unit) (tools : list Tool)
    (tool : Tool) :
  list_tools session = Ret tools →
  tool ∈ tools →
  is_Some (resolve (step w (McpConnect connection session plugin_connect)) (tool_name tool)) ∧
  (resolve w (tool_name tool) = None →
   resolve (step w (McpConnect connection session plugin_connect)) (tool_name tool)
   = Some (conn_name connection)).
Proof.
  intros Htools Hin. unfold step, handle.
  rewrite !resolve_table, on_mcp_connect_tools_table, Htools.
  assert (any_name_matches (tool_name tool) (extract_mcp_tools tools) = true) as Hmatch.
  { apply extract_mcp_tools_matches. by exists tool. }
  split.
  - apply (advertises_resolves _ (conn_name connection)).
    exists (extract_mcp_tools tools). split; [apply dict_set_elem|done].
  - intros Hnone. by apply find_in_items_set_new.
Qed.

(** X10, instance: [B] brings [Y] into [world_A]. *)
Lemma connected_tools_resolve_witness :
  resolve (step world_A (connect "B" [tool_Y])) "Y" = Some "B".
Proof.
  exact (proj2 (connected_tools_resolve world_A (connection_of "B") (session_of [tool_Y])
                  (Ret tt) [tool_Y] tool_Y eq_refl ltac:(by left)) eq_refl).
Defined.

Lemma dict_del_notin {V} k (d : Dict.t V) : k ∉ Dict.keys d → Dict.del k d = d.
Proof.
  intros Hnin. apply dict_del_not_mem.
  destruct (Dict.mem k d) eqn:Hmem; [|done]. by apply dict_mem_keys in Hmem.
Qed.

Lemma dict_del_snoc_new {V} k (v : V) (d : Dict.t V) :
  k ∉ Dict.keys d → Dict.del k (d ++ [(k, v)]) = d.
Proof.
  induction d as [|[k' v'] d IH]; simpl.
  - intros _. by rewrite String.eqb_refl.
  - rewrite not_elem_of_cons. intros [Hne Hnin].
    destruct (String.eqb_spec k' k) as [->|_]; [done|]. by rewrite IH.
Qed.

Lemma dict_get_del_ne {V} k s (d : Dict.t V) :
  s ≠ k → Dict.get s (Dict.del k d) = Dict.get s d.
Proof.
  intros Hne. induction d as [|[k' v'] d IH]; simpl; [done|].
  destruct (String.eqb_spec k' k) as [->|Hk]; simpl.
  - destruct (String.eqb_spec k s); [congruence|done].
  - by rewrite IH.
Qed.

Lemma dict_keys_del_filter {V} k (d : Dict.t V) :
  Dict.keys (Dict.del k d) = List.filter (λ k', negb (String.eqb k' k)) (Dict.keys d).
Proof.
  induction d as [|[k' v'] d IH]; simpl; [done|].
  destruct (String.eqb k' k); simpl; by rewrite IH.
Qed.

Lemma on_mcp_disconnect_plugins_table connection_name plugin_disconnect w :
  (∀ e, plugin_disconnect ≠ Some (Raise e)) →
  plugins_table (fst (on_mcp_disconnect connection_name plugin_disconnect w))
  = delete connection_name (plugins_table w).
Proof.
  intros Hok. rewrite on_mcp_disconnect_unfold. unfold on_mcp_disconnect_cases.
  destruct (plugins_table w !! connection_name) as [plugin|] eqn:Hp.
  - destruct plugin_disconnect as [[[]|e]|]; [|by destruct (Hok e)|];
      unfold plugins_table; by destruct (Dict.mem _ _).
  - rewrite delete_id by done. unfold plugins_table. by destruct (Dict.mem _ _).
Qed.

Lemma on_mcp_connect_plugins_table connection session plugin_connect w :
  plugins_table (fst (on_mcp_connect connection session plugin_connect w)) = plugins_table w ∨
  plugins_table (fst (on_mcp_connect connection session plugin_connect w))
  = <[conn_name connection := plugin_of connection]> (plugins_table w).
Proof.
  rewrite on_mcp_connect_unfold. unfold on_mcp_connect_cases.
  destruct (list_tools session) as [tools|e].
  - destruct (truthy (conn_url connection)); simpl; [|by left].
    destruct plugin_connect as [[]|e].
    + destruct (valid_plugin_name (conn_name connection)); [by right|by left].
    + destruct (isinstance_Exception (exn_cls e)); by left.
  - destruct (isinstance_Exception (exn_cls e)); by left.
Qed.

(** X11: connecting a server under a name that is in neither session table
    and then disconnecting it leaves both tables, and with them every
    resolution of the router, as they were before, whatever the connection
    attempt achieved. *)
Theorem connect_then_disconnect_restores_tables (w : World) (connection : McpConnection)
    (session : ClientSession) (plugin_connect : outcome unit)
    (plugin_disconnect : option (outcome unit)) :
  conn_name connection ∉ Dict.keys (tools_table w) →
  plugins_table w !! conn_name connection = None →
  (∀ e, plugin_disconnect ≠ Some (Raise e)) →
  tools_table (run w [McpConnect connection session plugin_connect;
                      McpDisconnect (conn_name connection) plugin_disconnect])
  = tools_table w ∧
  plugins_table (run w [McpConnect connection session plugin_connect;
                        McpDisconnect (conn_name connection) plugin_disconnect])
  = plugins_table w ∧
  (∀ tool_name,
     resolve (run w [McpConnect connection session plugin_connect;
                     McpDisconnect (conn_name connection) plugin_disconnect]) tool_name
     = resolve w tool_name).
Proof.
  intros Hnew Hnone Hok. simpl. unfold step, handle.
  assert (tools_table
            (fst (on_mcp_disconnect (conn_name connection) plugin_disconnect
                    (fst (on_mcp_connect connection session plugin_connect w))))
          = tools_table w) as Htable.
  { rewrite on_mcp_disconnect_tools_table, on_mcp_connect_tools_table.
    destruct (list_tools session) as [tools|e].
    - rewrite dict_keys_set_new by done. by apply dict_del_snoc_new.
    - by apply dict_del_notin. }
  split_and!; [done| |].
  - rewrite on_mcp_disconnect_plugins_table by done.
    destruct (on_mcp_connect_plugins_table connection session plugin_connect w) as [->| ->].
    + by apply delete_id.
    + by apply delete_insert_id.
  - intros tool_name. by rewrite !resolve_table, Htable.
Qed.

(** X11, instance: [B] comes and goes in [world_A]. *)
Lemma connect_then_disconnect_restores_tables_witness :
  tools_table (run world_A [connect "B" [tool_X; tool_Y]; McpDisconnect "B" None])
  = tools_table world_A.
Proof.
  refine (proj1 (connect_then_disconnect_restores_tables world_A (connection_of "B")
                   (session_of [tool_X; tool_Y]) (Ret tt) None _ _ _)).
  - intros Hin. change ("B" ∈ ["A"]) in Hin.
    apply elem_of_cons in Hin as [[=]|Hin]. by apply not_elem_of_nil in Hin.
  - reflexivity.
  - intros e. discriminate.
Defined.

(** X12: [on_mcp_disconnect] touches nothing but the entries of the named
    connection: every other connection keeps its tools and its plugin entry,
    the remaining connections keep their order, and the kernel, the chat
    history, the captured logs and the live sessions stay as they were. *)
Theorem on_mcp_disconnect_frame (w : World) (connection_name : string)
    (plugin_disconnect : option (outcome unit)) :
  (∀ s, s ≠ connection_name →
     Dict.get s (tools_table (step w (McpDisconnect connection_name plugin_disconnect)))
     = Dict.get s (tools_table w) ∧
     plugins_table (step w (McpDisconnect connection_name plugin_disconnect)) !! s
     = plugins_table w !! s) ∧
  Dict.keys (tools_table (step w (McpDisconnect connection_name plugin_disconnect)))
  = List.filter (λ k, negb (String.eqb k connection_name)) (Dict.keys (tools_table w)) ∧
  kernel (step w (McpDisconnect connection_name plugin_disconnect)) = kernel w ∧
  history (user_session (step w (McpDisconnect connection_name plugin_disconnect)))
  = history (user_session w) ∧
  capturing_handler (step w (McpDisconnect connection_name plugin_disconnect))
  = capturing_handler w ∧
  mcp_sessions (step w (McpDisconnect connection_name plugin_disconnect)) = mcp_sessions w.
Proof.
  unfold step, handle.
  rewrite on_mcp_disconnect_tools_table, on_mcp_disconnect_kernel.
  split_and!; try done.
  - intros s Hne. split; [by apply dict_get_del_ne|].
    rewrite on_mcp_disconnect_unfold. unfold on_mcp_disconnect_cases, plugins_table.
    repeat case_match; simpl; by rewrite ?lookup_delete_ne.
  - apply dict_keys_del_filter.
  - rewrite on_mcp_disconnect_unfold. unfold on_mcp_disconnect_cases.
    repeat case_match; by simpl.
  - rewrite on_mcp_disconnect_unfold. unfold on_mcp_disconnect_cases.
    repeat case_match; by simpl.
  - rewrite on_mcp_disconnect_unfold. unfold on_mcp_disconnect_cases.
    repeat case_match; by simpl.
Qed.

(** X12, instance: [A] leaves [world_AB]; [B] keeps its tools. *)
Lemma on_mcp_disconnect_frame_witness :
  Dict.get "B" (tools_table (step world_AB (McpDisconnect "A" None)))
  = Dict.get "B" (tools_table world_AB).
Proof.
  exact (proj1 (proj1 (on_mcp_disconnect_frame world_AB "A" None) "B" ltac:(discriminate))).
Defined.

(** X13: disconnecting a connection that has no entry in [mcp_plugins]
    never calls [disconnect()]: the handler removes the connection's tools
    if it has any, leaves [mcp_plugins] alone, tells the user that the
    connection was not found in the active plugins, and returns normally;
    when the connection has no tools either, the session store is
    unchanged. *)
Theorem on_mcp_disconnect_untracked (w : World) (connection_name : string)
    (plugin_disconnect : option (outcome unit)) :
  plugins_table w !! connection_name = None →
  snd (on_mcp_disconnect connection_name plugin_disconnect w) = Ret tt ∧
  effects (fst (on_mcp_disconnect connection_name plugin_disconnect w))
  = effects w ++
    [Send ("MCP connection " +:+ connection_name +:+ " was not found in active plugins")] ∧
  tools_table (fst (on_mcp_disconnect connection_name plugin_disconnect w))
  = Dict.del connection_name (tools_table w) ∧
  mcp_plugins (user_session (fst (on_mcp_disconnect connection_name plugin_disconnect w)))
  = mcp_plugins (user_session w) ∧
  (connection_name ∉ Dict.keys (tools_table w) →
   user_session (fst (on_mcp_disconnect connection_name plugin_disconnect w))
   = user_session w).
Proof.
  intros Hnone. rewrite on_mcp_disconnect_tools_table.
  rewrite on_mcp_disconnect_unfold. unfold on_mcp_disconnect_cases. rewrite Hnone. simpl.
  split_and!; try done.
  - by destruct (Dict.mem _ _).
  - intros Hnin. destruct (Dict.mem connection_name (tools_table w)) eqn:Hmem; [|done].
    by apply dict_mem_keys in Hmem.
Qed.

(** X13, instance: disconnecting [A] a second time. *)
Lemma on_mcp_disconnect_untracked_witness :
  user_session (fst (on_mcp_disconnect "A" None (step world_A (McpDisconnect "A" None))))
  = user_session (step world_A (McpDisconnect "A" None)).
Proof.
  refine (proj2 (proj2 (proj2 (proj2
            (on_mcp_disconnect_untracked (step world_A (McpDisconnect "A" None)) "A" None _)))) _).
  - reflexivity.
  - intros Hin. change ("A" ∈ @nil string) in Hin. by apply not_elem_of_nil in Hin.
Defined.

(** X14: [start_chat] empties the session: no tool resolves any more, no
    plugin is tracked and the history is empty.  It does not touch the
    kernel, the captured logs or the live sessions, so plugins registered
    in an earlier chat stay registered. *)
Theorem start_chat_resets_session_only (w : World) :
  snd (start_chat w) = Ret tt ∧
  tools_table (fst (start_chat w)) = [] ∧
  plugins_table (fst (start_chat w)) = ∅ ∧
  history (user_session (fst (start_chat w))) = Some [] ∧
  (∀ tool_name, resolve (fst (start_chat w)) tool_name = None) ∧
  (∀ tool_use,
     snd (call_tool tool_use (fst (start_chat w)))
     = Ret (error_payload ("Tool " +:+ tu_name tool_use +:+ " not found in any MCP connection"))) ∧
  kernel (fst (start_chat w)) = kernel w ∧
  capturing_handler (fst (start_chat w)) = capturing_handler w ∧
  mcp_sessions (fst (start_chat w)) = mcp_sessions w.
Proof.
  split_and!; try done.
Qed.

(** ** More on [call_tool] *)

(** X15: when the name resolves to a server with a non-empty name and a
    live session, and the session call returns, [call_tool] makes exactly
    that one call, with the tool's name and input, on the resolved server's
    session; the step, renamed after the tool, holds the string made of the
    session's result, and that string is what [call_tool] returns; nothing
    is printed. *)
Theorem call_tool_success (w : World) (tool_use : ToolUse) (mcp_name : string)
    (mcp_session : ClientSession) (result : CallToolResult) :
  resolve w (tu_name tool_use) = Some mcp_name →
  mcp_name ≠ "" →
  mcp_sessions w !! mcp_name = Some mcp_session →
  session_call_tool mcp_session (tu_name tool_use) (tu_input tool_use) = Ret result →
  snd (call_tool tool_use w) = Ret (str_of_result result) ∧
  session_calls (effects (fst (call_tool tool_use w)))
  = session_calls (effects w) ++ [SessionCallTool mcp_name (tu_name tool_use) (tu_input tool_use)] ∧
  current_step (fst (call_tool tool_use w))
  = {| step_name := tu_name tool_use; step_output := str_of_result result |} ∧
  printed (effects (fst (call_tool tool_use w))) = printed (effects w).
Proof.
  intros Hres Hne Hsess Hcall. rewrite call_tool_unfold. unfold call_tool_cases.
  rewrite Hres. destruct (String.eqb_spec mcp_name ""); [done|].
  rewrite Hsess, Hcall. simpl. split_and!; try done.
  - by rewrite <- app_assoc, session_calls_app.
  - rewrite <- app_assoc, printed_app. simpl. by rewrite app_nil_r.
Qed.

(** X15, instance: [X] called in [world_A_live]. *)
Lemma call_tool_success_witness :
  snd (call_tool use_X world_A_live) = Ret (str_of_result ok_result).
Proof.
  exact (proj1 (call_tool_success world_A_live use_X "A" (session_of [tool_X; tool_Y]) ok_result
                  eq_refl ltac:(discriminate) eq_refl eq_refl)).
Defined.

(** X16: an exception of the session call that is not an [Exception]
    (a cancellation, a keyboard interrupt) is not turned into data: it
    leaves [call_tool], which has printed nothing; the step it passes
    through, renamed after the tool, is left holding the exception's text. *)
Theorem call_tool_propagates_base_exception (w : World) (tool_use : ToolUse)
    (mcp_name : string) (mcp_session : ClientSession) (e : exn) :
  resolve w (tu_name tool_use) = Some mcp_name →
  mcp_name ≠ "" →
  mcp_sessions w !! mcp_name = Some mcp_session →
  session_call_tool mcp_session (tu_name tool_use) (tu_input tool_use) = Raise e →
  isinstance_Exception (exn_cls e) = false →
  snd (call_tool tool_use w) = Raise e ∧
  current_step (fst (call_tool tool_use w))
  = {| step_name := tu_name tool_use; step_output := OutputText (exn_str e) |} ∧
  printed (effects (fst (call_tool tool_use w))) = printed (effects w).
Proof.
  intros Hres Hne Hsess Hcall Hexn. rewrite call_tool_unfold. unfold call_tool_cases.
  rewrite Hres. destruct (String.eqb_spec mcp_name ""); [done|].
  rewrite Hsess, Hcall, Hexn. simpl. split_and!; try done.
  rewrite <- app_assoc, printed_app. simpl. by rewrite app_nil_r.
Qed.

(** X16, instance: the call on [A]'s session is interrupted. *)
Lemma call_tool_propagates_base_exception_witness :
  snd (call_tool use_X world_A_interrupted)
  = Raise {| exn_cls := KeyboardInterrupt; exn_str := "interrupted" |} ∧
  step_output (current_step (fst (call_tool use_X world_A_interrupted)))
  = OutputText "interrupted".
Proof.
  pose proof (call_tool_propagates_base_exception world_A_interrupted use_X "A"
                (session_interrupted [tool_X])
                {| exn_cls := KeyboardInterrupt; exn_str := "interrupted" |}
                eq_refl ltac:(discriminate) eq_refl eq_refl eq_refl) as (Hraise & Hstep & _).
  split; [exact Hraise|]. by rewrite Hstep.
Defined.

(** X17: [call_tool] changes nothing but the current step and the effects:
    the session store, the kernel, the captured logs and the table of live
    sessions stay as they were.  What it adds to the effects comes after
    what was there, and is one tool step with at most one session call. *)
Theorem call_tool_touches_step_and_effects_only (w : World) (tool_use : ToolUse) :
  user_session (fst (call_tool tool_use w)) = user_session w ∧
  kernel (fst (call_tool tool_use w)) = kernel w ∧
  capturing_handler (fst (call_tool tool_use w)) = capturing_handler w ∧
  mcp_sessions (fst (call_tool tool_use w)) = mcp_sessions w ∧
  effects w `prefix_of` effects (fst (call_tool tool_use w)) ∧
  router_invocations (effects (fst (call_tool tool_use w)))
  = router_invocations (effects w) + 1 ∧
  length (session_calls (effects (fst (call_tool tool_use w))))
  ≤ length (session_calls (effects w)) + 1.
Proof.
  rewrite call_tool_unfold. unfold call_tool_cases.
  destruct (resolve w (tu_name tool_use)) as [mcp_name|];
    [destruct (String.eqb mcp_name "");
     [|destruct (mcp_sessions w !! mcp_name) as [mcp_session|];
       [destruct (session_call_tool mcp_session _ _) as [result|e];
        [|destruct (isinstance_Exception (exn_cls e))]|]]|].
  all: simpl; rewrite <- ?app_assoc; simpl.
  all: rewrite router_invocations_app, session_calls_app, length_app.
  all: split_and!; try done; try (by eexists); unfold router_invocations; simpl; lia.
Qed.

(** ** More on [on_message] *)

(** X18: when the service call raises, the user message entered at the
    start of the turn stays in the history, after it whatever the service
    added itself, and no response is entered.  An [Exception] is reported
    to the user and the handler returns normally; any other exception
    leaves the handler without a report. *)
Theorem on_message_failed_turn_keeps_user_message (w : World) (content : string)
    (service : Service) (e : exn) :
  reply_result (service (add_user_message content (chat_history_of w)) (kernel w)) = Raise e →
  history (user_session (fst (on_message content service w)))
  = Some (chat_history_of w ++
          {| role := user; msg_content := content; function_calls := [] |}
          :: reply_appended (service (add_user_message content (chat_history_of w)) (kernel w))) ∧
  (isinstance_Exception (exn_cls e) = true →
   snd (on_message content service w) = Ret tt ∧
   drop (length (effects w) + 2) (effects (fst (on_message content service w)))
   = [ Send ("Error processing message: " +:+ exn_str e);
       Print ("Error processing message: " +:+ exn_str e) ]) ∧
  (isinstance_Exception (exn_cls e) = false →
   snd (on_message content service w) = Raise e ∧
   drop (length (effects w) + 2) (effects (fst (on_message content service w))) = []).
Proof.
  unfold chat_history_of. intros Hres. rewrite on_message_unfold. unfold on_message_cases.
  rewrite Hres.
  assert (∀ {A} (l : list A) a b rest, drop (length l + 2) (l ++ a :: b :: rest) = rest)
    as Hdrop.
  { intros A l a b rest. rewrite drop_app_add'; done. }
  destruct (isinstance_Exception (exn_cls e)); simpl; unfold add_user_message;
    rewrite <- app_assoc; simpl; rewrite Hdrop; by split_and!.
Qed.

(** X18, instance: the service fails in a fresh chat with [A]. *)
Lemma on_message_failed_turn_keeps_user_message_witness :
  history (user_session (fst (on_message "hello" service_failing world_A)))
  = Some [ {| role := user; msg_content := "hello"; function_calls := [] |} ].
Proof.
  exact (proj1 (on_message_failed_turn_keeps_user_message world_A "hello" service_failing
                  {| exn_cls := RuntimeError; exn_str := "quota exceeded" |} eq_refl)).
Defined.

(** X19: [on_message] touches only the history, the captured logs and the
    effects: the tool and plugin tables of the session, the kernel, the live
    sessions and the current step stay as they were. *)
Theorem on_message_touches_history_and_logs_only (w : World) (content : string)
    (service : Service) :
  mcp_tools (user_session (fst (on_message content service w))) = mcp_tools (user_session w) ∧
  mcp_plugins (user_session (fst (on_message content service w)))
  = mcp_plugins (user_session w) ∧
  kernel (fst (on_message content service w)) = kernel w ∧
  mcp_sessions (fst (on_message content service w)) = mcp_sessions w ∧
  current_step (fst (on_message content service w)) = current_step w ∧
  effects w `prefix_of` effects (fst (on_message content service w)).
Proof.
  rewrite on_message_unfold. unfold on_message_cases.
  formatted_thought_elements els Hnil.
  destruct (reply_result _) as [response|e];
    [|destruct (isinstance_Exception (exn_cls e))]; simpl; split_and!; try done; by eexists.
Qed.

(** ** Invariants over the lifetime of the process *)

Lemma on_mcp_connect_registers_both connection session plugin_connect w :
  (kernel (fst (on_mcp_connect connection session plugin_connect w)) = kernel w ∧
   plugins_table (fst (on_mcp_connect connection session plugin_connect w)) = plugins_table w) ∨
  (kernel (fst (on_mcp_connect connection session plugin_connect w))
   = <[conn_name connection := plugin_of connection]> (kernel w) ∧
   plugins_table (fst (on_mcp_connect connection session plugin_connect w))
   = <[conn_name connection := plugin_of connection]> (plugins_table w)).
Proof.
  rewrite on_mcp_connect_unfold. unfold on_mcp_connect_cases.
  destruct (list_tools session) as [tools|e].
  - destruct (truthy (conn_url connection)); simpl; [|by left].
    destruct plugin_connect as [[]|e].
    + destruct (valid_plugin_name (conn_name connection)); [by right|by left].
    + destruct (isinstance_Exception (exn_cls e)); by left.
  - destruct (isinstance_Exception (exn_cls e)); by left.
Qed.

Lemma on_mcp_disconnect_plugins_sub connection_name plugin_disconnect w name plugin :
  plugins_table (fst (on_mcp_disconnect connection_name plugin_disconnect w)) !! name
  = Some plugin →
  plugins_table w !! name = Some plugin.
Proof.
  rewrite on_mcp_disconnect_unfold. unfold on_mcp_disconnect_cases, plugins_table.
  repeat case_match; simpl; try done; by intros [_ ?]%lookup_delete_Some.
Qed.

Lemma on_mcp_disconnect_history connection_name plugin_disconnect w :
  history (user_session (fst (on_mcp_disconnect connection_name plugin_disconnect w)))
  = history (user_session w).
Proof.
  rewrite on_mcp_disconnect_unfold. unfold on_mcp_disconnect_cases.
  repeat case_match; by simpl.
Qed.

Lemma on_mcp_connect_history connection session plugin_connect w :
  history (user_session (fst (on_mcp_connect connection session plugin_connect w)))
  = history (user_session w).
Proof.
  rewrite on_mcp_connect_unfold. unfold on_mcp_connect_cases.
  repeat case_match; by simpl.
Qed.

Lemma step_tracked_plugins_registered w ev :
  tracked_plugins_registered w → tracked_plugins_registered (step w ev).
Proof.
  unfold tracked_plugins_registered. intros Hinv.
  destruct ev as [|connection session plugin_connect|connection_name plugin_disconnect
                  |content service|tool_use|record|sessions|plugin|records].
  - unfold plugins_table. simpl. set_solver.
  - unfold step, handle.
    destruct (on_mcp_connect_registers_both connection session plugin_connect w)
      as [[-> ->]|[-> ->]]; [done|].
    rewrite !dom_insert_L. by apply union_mono_l.
  - unfold step, handle. rewrite on_mcp_disconnect_kernel.
    intros name [plugin Hp]%elem_of_dom. apply Hinv, elem_of_dom. exists plugin.
    by apply (on_mcp_disconnect_plugins_sub connection_name plugin_disconnect).
  - unfold step, handle. destruct (on_message_frame content service w) as (-> & _ & Hp & _).
    unfold plugins_table. by rewrite Hp.
  - rewrite step_tool_call. unfold plugins_table.
    by destruct (call_tool_frame tool_use w) as (-> & -> & _).
  - done.
  - done.
  - unfold plugins_table. rewrite other_session_connect_frame.
    destruct (other_session_connect_kernel plugin w) as [-> | ->]; [done|].
    rewrite dom_insert_L. unfold plugins_table in Hinv. set_solver.
  - done.
Qed.

(** X20: whatever happens from the start of the process, in this chat
    session or in the others that share the kernel, every name under which
    the session tracks a plugin in [mcp_plugins] is the name of a plugin
    registered in the kernel; every sequence of events keeps this true. *)
Theorem tracked_plugins_stay_registered (evs : list event) :
  tracked_plugins_registered (run initial_world evs) ∧
  (∀ w, tracked_plugins_registered w → tracked_plugins_registered (run w evs)) ∧
  (∀ name,
     is_Some (plugins_table (run initial_world evs) !! name) →
     is_Some (kernel (run initial_world evs) !! name)).
Proof.
  assert (∀ w, tracked_plugins_registered w → tracked_plugins_registered (run w evs)) as Hrun.
  { induction evs as [|ev evs IH]; intros w Hinv; simpl; [done|].
    by apply IH, step_tracked_plugins_registered. }
  assert (tracked_plugins_registered (run initial_world evs)) as Hinv.
  { apply Hrun. unfold tracked_plugins_registered, plugins_table. simpl. set_solver. }
  split_and!; [done..|].
  intros name Hp%elem_of_dom. by apply elem_of_dom, Hinv.
Qed.

(** X20, instance: after [A] connected and another chat session registered
    a plugin of its own under the same name, the name is still registered. *)
Lemma tracked_plugins_stay_registered_witness :
  is_Some (kernel (run world_A [OtherSessionConnect
                                  {| plugin_name := "A"; plugin_description := "MCP Plugin for A";
                                     plugin_url := "http://elsewhere/sse" |}]) !! "A").
Proof.
  apply elem_of_dom.
  refine (proj1 (proj2 (tracked_plugins_stay_registered
                          [OtherSessionConnect
                             {| plugin_name := "A"; plugin_description := "MCP Plugin for A";
                                plugin_url := "http://elsewhere/sse" |}]))
            world_A _ "A" _).
  - intros name Hname. exact Hname.
  - apply elem_of_dom. by eexists.
Defined.

(** The kernel's entry need not be the plugin the session tracks: another
    chat session that registers a plugin under the same name takes its
    place in the kernel. *)
Example other_session_replaces_kernel_entry :
  kernel (step world_A (OtherSessionConnect
                          {| plugin_name := "A"; plugin_description := "MCP Plugin for A";
                             plugin_url := "http://elsewhere/sse" |})) !! "A"
  = Some {| plugin_name := "A"; plugin_description := "MCP Plugin for A";
            plugin_url := "http://elsewhere/sse" |} ∧
  plugins_table (step world_A (OtherSessionConnect
                                 {| plugin_name := "A"; plugin_description := "MCP Plugin for A";
                                    plugin_url := "http://elsewhere/sse" |})) !! "A"
  = Some (plugin_of (connection_of "A")).
Proof. by split. Qed.

(** X21: the chat history only grows while a chat lasts: every event other
    than the start of a new chat leaves the earlier messages in place, as a
    prefix; a turn adds at least the user's message, and the connection
    handlers and the router add nothing. *)
Theorem history_append_only (w : World) (ev : event) :
  (ev ≠ ChatStart → chat_history_of w `prefix_of` chat_history_of (step w ev)) ∧
  (∀ content service,
     add_user_message content (chat_history_of w)
       `prefix_of` chat_history_of (step w (Message content service))) ∧
  (∀ connection session plugin_connect,
     chat_history_of (step w (McpConnect connection session plugin_connect))
     = chat_history_of w) ∧
  (∀ connection_name plugin_disconnect,
     chat_history_of (step w (McpDisconnect connection_name plugin_disconnect))
     = chat_history_of w) ∧
  (∀ tool_use, chat_history_of (step w (ToolCall tool_use)) = chat_history_of w).
Proof.
  assert (∀ content service,
            add_user_message content (chat_history_of w)
              `prefix_of` chat_history_of (step w (Message content service))) as Hturn.
  { intros content service. unfold step, handle, chat_history_of.
    rewrite on_message_unfold. unfold on_message_cases, add_message.
    formatted_thought_elements els Hnil.
    destruct (reply_result _) as [response|e];
      [|destruct (isinstance_Exception (exn_cls e))]; simpl;
      rewrite <- ?app_assoc; by eexists. }
  assert (∀ connection session plugin_connect,
            chat_history_of (step w (McpConnect connection session plugin_connect))
            = chat_history_of w) as Hconnect.
  { intros. unfold step, handle, chat_history_of. by rewrite on_mcp_connect_history. }
  assert (∀ connection_name plugin_disconnect,
            chat_history_of (step w (McpDisconnect connection_name plugin_disconnect))
            = chat_history_of w) as Hdisconnect.
  { intros. unfold step, handle, chat_history_of. by rewrite on_mcp_disconnect_history. }
  assert (∀ tool_use, chat_history_of (step w (ToolCall tool_use)) = chat_history_of w)
    as Hcall.
  { intros. rewrite step_tool_call. unfold chat_history_of.
    by destruct (call_tool_frame tool_use w) as (-> & _). }
  split_and!; try done.
  intros Hne.
  destruct ev as [|connection session plugin_connect|connection_name plugin_disconnect
                  |content service|tool_use|record|sessions|plugin|records].
  - done.
  - by rewrite Hconnect.
  - by rewrite Hdisconnect.
  - etrans; [|apply Hturn]. by apply prefix_app_r.
  - by rewrite Hcall.
  - done.
  - done.
  - unfold chat_history_of. by rewrite other_session_connect_frame.
  - done.
Qed.

(** X21, instance: a second turn keeps the first turn's messages. *)
Lemma history_append_only_witness :
  chat_history_of (step world_A (Message "hello" (service_answering "hi")))
    `prefix_of`
  chat_history_of (step (step world_A (Message "hello" (service_answering "hi")))
                        (Message "again" service_failing)).
Proof.
  refine (proj1 (history_append_only
                   (step world_A (Message "hello" (service_answering "hi")))
                   (Message "again" service_failing)) _).
  discriminate.
Defined.

(** X22: what [on_mcp_connect] stores for a connection is one dictionary
    per listed tool, in the listed order, and the router's test on it
    succeeds for a name exactly when the server listed a tool of exactly
    that name. *)
Theorem connect_stores_listed_tools (w : World) (connection : McpConnection)
    (session : ClientSession) (plugin_connect : outcome unit) (tools : list Tool) :
  list_tools session = Ret tools →
  Dict.get (conn_name connection)
    (tools_table (step w (McpConnect connection session plugin_connect)))
  = Some (extract_mcp_tools tools) ∧
  length (extract_mcp_tools tools) = length tools ∧
  (∀ name,
     any_name_matches name (extract_mcp_tools tools) = true ↔
     ∃ tool, tool ∈ tools ∧ tool_name tool = name).
Proof.
  intros Htools. unfold step, handle. rewrite on_mcp_connect_tools_table, Htools.
  split_and!.
  - apply dict_get_set_eq.
  - clear. induction tools as [|tool rest IH]; simpl; [done|]. by rewrite IH.
  - intros name. apply extract_mcp_tools_matches.
Qed.

(** X22, instance: [A] lists [X]; the test is exact about letter case. *)
Lemma connect_stores_listed_tools_witness :
  any_name_matches "X" (extract_mcp_tools [tool_X]) = true ∧
  any_name_matches "x" (extract_mcp_tools [tool_X]) = false.
Proof.
  split; [|reflexivity].
  apply (proj2 (proj2 (connect_stores_listed_tools initial_world (connection_of "A")
                         (session_of [tool_X]) (Ret tt) [tool_X] eq_refl))).
  exists tool_X. split; [by left|reflexivity].
Defined.

(** X23: the order of [mcp_tools] is the order of first registration: a
    server connecting under a name already in the table keeps its place and
    only has its tools replaced, one connecting under a new name is entered
    last; in both cases every other connection keeps its tools. *)
Theorem on_mcp_connect_registration_order (w : World) (connection : McpConnection)
    (session : ClientSession) (plugin_connect : outcome unit) (tools : list Tool) :
  list_tools session = Ret tools →
  (conn_name connection ∈ Dict.keys (tools_table w) →
   Dict.keys (tools_table (step w (McpConnect connection session plugin_connect)))
   = Dict.keys (tools_table w)) ∧
  (conn_name connection ∉ Dict.keys (tools_table w) →
   tools_table (step w (McpConnect connection session plugin_connect))
   = tools_table w ++ [(conn_name connection, extract_mcp_tools tools)]) ∧
  (∀ s, s ≠ conn_name connection →
     Dict.get s (tools_table (step w (McpConnect connection session plugin_connect)))
     = Dict.get s (tools_table w)).
Proof.
  intros Htools. unfold step, handle. rewrite on_mcp_connect_tools_table, Htools.
  split_and!.
  - intros Hin. rewrite dict_keys_set. by apply dict_mem_keys in Hin as ->.
  - apply dict_keys_set_new.
  - intros s Hne. induction (tools_table w) as [|[k' v'] d IH]; simpl.
    + destruct (String.eqb_spec (conn_name connection) s); [congruence|done].
    + destruct (String.eqb_spec k' (conn_name connection)) as [->|Hk]; simpl.
      * destruct (String.eqb_spec (conn_name connection) s); [congruence|done].
      * by rewrite IH.
Qed.

(** X23, instance: [A] connects again in [world_AB] and stays first. *)
Lemma on_mcp_connect_registration_order_witness :
  Dict.keys (tools_table (step world_AB (connect "A" [tool_Y]))) = ["A"; "B"].
Proof.
  refine (proj1 (on_mcp_connect_registration_order world_AB (connection_of "A")
                   (session_of [tool_Y]) (Ret tt) [tool_Y] eq_refl) _).
  change ("A" ∈ ["A"; "B"]). by left.
Defined.

(** * The knowledge-base tools *)

Lemma rag_read_lines_app json_loads describe pre rest full_sentence reference :
  Rag.read_lines json_loads describe (pre ++ rest) full_sentence reference
  = match Rag.read_lines json_loads describe pre full_sentence reference with
    | Rag.Ok (full_sentence', reference') =>
        Rag.read_lines json_loads describe rest full_sentence' reference'
    | Rag.Err e => Rag.Err e
    end.
Proof.
  revert full_sentence reference.
  induction pre as [|line pre IH]; intros full_sentence reference; simpl; [done|].
  destruct (String.eqb line ""); [apply IH|].
  destruct (json_loads line) as [json_line|e].
  - destruct (Rag.take_line describe json_line full_sentence reference) as [[f r]|e]; [apply IH|done].
  - destruct (Rag.is_JSONDecodeError (Rag.cls e)); [apply IH|done].
Qed.

Lemma rag_shape_errors_are_exceptions describe json_line full_sentence reference e :
  Rag.take_line describe json_line full_sentence reference = Rag.Err e →
  Rag.is_Exception (Rag.cls e) = true ∧ Rag.is_RequestException (Rag.cls e) = false.
Proof.
  assert (∀ v key e0, Rag.subscript describe v key = Rag.Err e0 →
            Rag.is_Exception (Rag.cls e0) = true ∧ Rag.is_RequestException (Rag.cls e0) = false)
    as Hsub.
  { intros v key e0. unfold Rag.subscript. repeat case_match; by intros [= <-]. }
  assert (∀ key value e0, Rag.citation_entry describe key value = Rag.Err e0 →
            Rag.is_Exception (Rag.cls e0) = true ∧ Rag.is_RequestException (Rag.cls e0) = false)
    as Hentry.
  { intros key value e0. unfold Rag.citation_entry, mbind, Rag.res_bind, mret, Rag.res_ret.
    destruct (Rag.subscript describe value "citation") as [c|e1] eqn:Hc;
      [|intros [= <-]; by eapply Hsub].
    unfold Rag.content_in, Rag.split_content.
    destruct (Rag.subscript describe value "page_number") as [p|e2] eqn:Hp.
    - repeat case_match; simplify_eq; try done; by intros [= <-].
    - repeat case_match; simplify_eq; try done; intros [= <-]; try done; by eapply Hsub. }
  assert (∀ members e0, Rag.build_reference describe members = Rag.Err e0 →
            Rag.is_Exception (Rag.cls e0) = true ∧ Rag.is_RequestException (Rag.cls e0) = false)
    as Hbuild.
  { induction members as [|[key value] members IH]; intros e0; simpl; [done|].
    destruct (Rag.citation_entry describe key value) as [entry|e1] eqn:He;
      [|intros [= <-]; by eapply Hentry].
    destruct (Rag.build_reference describe members); [done|]. intros [= <-]. by apply IH. }
  unfold Rag.take_line, Rag.get, Rag.append_content, Rag.items,
    mbind, Rag.res_bind, mret, Rag.res_ret.
  repeat case_match; simplify_eq; try done; intros [= <-]; try done; by eapply Hbuild.
Qed.

Lemma rag_read_lines_errors json_loads describe lines full_sentence reference e :
  Rag.read_lines json_loads describe lines full_sentence reference = Rag.Err e →
  (∃ line, line ∈ lines ∧ json_loads line = Rag.Err e) ∨
  (Rag.is_Exception (Rag.cls e) = true ∧ Rag.is_RequestException (Rag.cls e) = false).
Proof.
  revert full_sentence reference.
  induction lines as [|line lines IH]; intros full_sentence reference; simpl; [done|].
  assert (∀ f r, Rag.read_lines json_loads describe lines f r = Rag.Err e →
            (∃ line0, line0 ∈ line :: lines ∧ json_loads line0 = Rag.Err e) ∨
            (Rag.is_Exception (Rag.cls e) = true ∧
             Rag.is_RequestException (Rag.cls e) = false)) as Hrest.
  { intros f r [(line0 & Hin & Hl)|Hshape]%IH; [left|by right].
    exists line0. split; [by right|done]. }
  destruct (String.eqb line ""); [apply Hrest|].
  destruct (json_loads line) as [json_line|e0] eqn:Hloads.
  - destruct (Rag.take_line describe json_line full_sentence reference) as [[f r]|e1] eqn:Htake;
      [apply Hrest|].
    intros [= <-]. right. by eapply rag_shape_errors_are_exceptions.
  - destruct (Rag.is_JSONDecodeError (Rag.cls e0)); [apply Hrest|].
    intros [= <-]. left. exists line. split; [by left|done].
Qed.

Lemma rag_except_chain_exception service e :
  Rag.is_Exception (Rag.cls e) = true →
  ∃ error_msg, Rag.except_chain service (Rag.Err e) = Rag.Ok (Rag.error_payload error_msg).
Proof.
  intros Hexn. unfold Rag.except_chain. rewrite Hexn.
  repeat case_match; by eexists.
Qed.

(** X24: the two tools of the knowledge-base server hand every failure
    back as data.  As long as the HTTP calls, the status check, the line
    iteration and the JSON decoding raise nothing but [Exception]s, each
    tool returns a value: an object with the single key [error], or the
    answer object ([response] and [reference], respectively [file_uri],
    [page_number] and [content]).  An empty query or source is answered
    with an error object whatever the service would do. *)
Theorem rag_tools_return_data (json_loads : string → Rag.res json)
    (describe : Rag.misuse → string) (endpoint : string) :
  (∀ query folder model_name top_k post,
     (∀ url data timeout e,
        post url data timeout = Rag.Err e → Rag.is_Exception (Rag.cls e) = true) →
     (∀ url data timeout response e,
        post url data timeout = Rag.Ok response →
        Rag.raise_for_status response = Rag.Err e ∨
        Rag.iter_lines_end response = Some e ∨
        (∃ line, line ∈ Rag.iter_lines response ∧ json_loads line = Rag.Err e) →
        Rag.is_Exception (Rag.cls e) = true) →
     ∃ v, Rag.post_question_to_ia json_loads describe endpoint
            query folder model_name top_k post = Rag.Ok v ∧
          ((∃ error_msg, v = Rag.error_payload error_msg) ∨
           (∃ text references,
              v = JObj [("response", JStr text); ("reference", JArr references)]))) ∧
  (∀ source post,
     (∀ url data timeout e,
        post url data timeout = Rag.Err e → Rag.is_Exception (Rag.cls e) = true) →
     (∀ url data timeout response e,
        post url data timeout = Rag.Ok response →
        Rag.raise_for_status response = Rag.Err e ∨ Rag.response_json response = Rag.Err e →
        Rag.is_Exception (Rag.cls e) = true) →
     ∃ v, Rag.get_reference describe endpoint source post = Rag.Ok v ∧
          ((∃ error_msg, v = Rag.error_payload error_msg) ∨
           (∃ file_uri pages content,
              v = JObj [("file_uri", file_uri); ("page_number", pages);
                        ("content", content)]))) ∧
  (∀ folder model_name top_k post,
     Rag.post_question_to_ia json_loads describe endpoint "" folder model_name top_k post
     = Rag.Ok (Rag.error_payload "Query parameter is required")) ∧
  (∀ post,
     Rag.get_reference describe endpoint "" post
     = Rag.Ok (Rag.error_payload "Source parameter is required")).
Proof.
  split_and!; [| |done..].
  - intros query folder model_name top_k post Hpost Hresponse.
    unfold Rag.post_question_to_ia.
    destruct (String.eqb query ""); [eexists; split; [done|left; by eexists]|].
    unfold mbind, Rag.res_bind, mret, Rag.res_ret.
    destruct (post _ _ _) as [response|e] eqn:Hp.
    2:{ destruct (rag_except_chain_exception "IA service" e) as [msg ->]; [by eapply Hpost|].
        eexists; split; [done|left; by eexists]. }
    destruct (Rag.raise_for_status response) as [[]|e] eqn:Hstatus.
    2:{ destruct (rag_except_chain_exception "IA service" e) as [msg ->].
        { eapply Hresponse; [done|by left]. }
        eexists; split; [done|left; by eexists]. }
    destruct (Rag.read_lines json_loads describe (Rag.iter_lines response) "" [])
      as [[text references]|e] eqn:Hread.
    2:{ destruct (rag_except_chain_exception "IA service" e) as [msg ->].
        { apply rag_read_lines_errors in Hread as [Hline|[Hexn _]]; [|done].
          eapply Hresponse; [done|]. right. by right. }
        eexists; split; [done|left; by eexists]. }
    destruct (Rag.iter_lines_end response) as [e|] eqn:Hend.
    + destruct (rag_except_chain_exception "IA service" e) as [msg ->].
      { eapply Hresponse; [done|]. right. by left. }
      eexists; split; [done|left; by eexists].
    + simpl. eexists; split; [done|right; by eexists _, _].
  - intros source post Hpost Hresponse. unfold Rag.get_reference.
    destruct (String.eqb source ""); [eexists; split; [done|left; by eexists]|].
    unfold mbind, Rag.res_bind, mret, Rag.res_ret.
    destruct (post _ _ _) as [response|e] eqn:Hp.
    2:{ destruct (rag_except_chain_exception "citation service" e) as [msg ->];
          [by eapply Hpost|].
        eexists; split; [done|left; by eexists]. }
    destruct (Rag.raise_for_status response) as [[]|e] eqn:Hstatus.
    2:{ destruct (rag_except_chain_exception "citation service" e) as [msg ->].
        { eapply Hresponse; [done|by left]. }
        eexists; split; [done|left; by eexists]. }
    destruct (Rag.response_json response) as [result|e] eqn:Hjson.
    + unfold Rag.get. destruct result; simpl;
        try (eexists; split; [done|left; by eexists]).
      eexists; split; [done|right; by eexists _, _, _].
    + destruct (Rag.is_JSONDecodeError (Rag.cls e));
        [eexists; split; [done|left; by eexists]|].
      destruct (rag_except_chain_exception "citation service" e) as [msg ->].
      { eapply Hresponse; [done|by right]. }
      eexists; split; [done|left; by eexists].
Qed.

(** X24, instance: the chat endpoint cannot be reached in time. *)
Lemma rag_tools_return_data_witness :
  ∃ v, Rag.post_question_to_ia Rag.sample_loads Rag.sample_describe "http://ia"
         "What is policy X?" "All" "gpt-4.1" 5 Rag.post_connect_timeout = Rag.Ok v ∧
       ((∃ error_msg, v = Rag.error_payload error_msg) ∨
        (∃ text references,
           v = JObj [("response", JStr text); ("reference", JArr references)])).
Proof.
  apply (proj1 (rag_tools_return_data Rag.sample_loads Rag.sample_describe "http://ia")).
  - intros url data timeout e [= <-]. reflexivity.
  - intros url data timeout response e [=].
Defined.

(** X25: a request that fails is reported by the kind of failure, and the
    answer is not read: a timeout, a connect timeout included, as a request
    that timed out; any other connection error as a failure to connect; any
    other error of the HTTP library, an error status included, with its
    text; anything else that is an [Exception] as an unexpected error. *)
Theorem rag_request_failure_reports (json_loads : string → Rag.res json)
    (describe : Rag.misuse → string) (endpoint query folder model_name : string) (top_k : Z)
    (post : string → Rag.ChatBody → Z → Rag.res Rag.Response) (e : Rag.raised) :
  query ≠ "" →
  (∀ url data timeout,
     post url data timeout = Rag.Err e ∨
     (∃ response, post url data timeout = Rag.Ok response ∧
                  Rag.raise_for_status response = Rag.Err e)) →
  (Rag.is_Timeout (Rag.cls e) = true →
   Rag.post_question_to_ia json_loads describe endpoint query folder model_name top_k post
   = Rag.Ok (Rag.error_payload "Request to IA service timed out")) ∧
  (Rag.is_Timeout (Rag.cls e) = false → Rag.is_ConnectionError (Rag.cls e) = true →
   Rag.post_question_to_ia json_loads describe endpoint query folder model_name top_k post
   = Rag.Ok (Rag.error_payload "Could not connect to IA service")) ∧
  (Rag.is_Timeout (Rag.cls e) = false → Rag.is_ConnectionError (Rag.cls e) = false →
   Rag.is_RequestException (Rag.cls e) = true →
   Rag.post_question_to_ia json_loads describe endpoint query folder model_name top_k post
   = Rag.Ok (Rag.error_payload ("Error communicating with IA service: " +:+ Rag.text e))) ∧
  (Rag.is_RequestException (Rag.cls e) = false → Rag.is_Exception (Rag.cls e) = true →
   Rag.post_question_to_ia json_loads describe endpoint query folder model_name top_k post
   = Rag.Ok (Rag.error_payload ("Unexpected error: " +:+ Rag.text e))) ∧
  (Rag.is_Exception (Rag.cls e) = false →
   Rag.post_question_to_ia json_loads describe endpoint query folder model_name top_k post
   = Rag.Err e).
Proof.
  intros Hquery Hfails.
  assert (Rag.post_question_to_ia json_loads describe endpoint query folder model_name top_k post
          = Rag.except_chain "IA service" (Rag.Err e)) as ->.
  { unfold Rag.post_question_to_ia. destruct (String.eqb_spec query ""); [done|].
    unfold mbind, Rag.res_bind.
    match goal with |- context [post ?u ?d ?t] =>
      destruct (Hfails u d t) as [->|(response & -> & ->)] end; done. }
  unfold Rag.except_chain.
  destruct e as [[] text]; simpl; split_and!; intros; simplify_eq; done.
Qed.

(** X25, instance: a connect timeout counts as a timeout. *)
Lemma rag_request_failure_reports_witness :
  Rag.post_question_to_ia Rag.sample_loads Rag.sample_describe "http://ia"
    "What is policy X?" "All" "gpt-4.1" 5 Rag.post_connect_timeout
  = Rag.Ok (Rag.error_payload "Request to IA service timed out").
Proof.
  refine (proj1 (rag_request_failure_reports Rag.sample_loads Rag.sample_describe "http://ia"
                   "What is policy X?" "All" "gpt-4.1" 5 Rag.post_connect_timeout
                   {| Rag.cls := Rag.ConnectTimeout; Rag.text := "connect timed out" |} _ _) _).
  - discriminate.
  - intros url data timeout. by left.
  - reflexivity.
Defined.

(** X26: a line of the answer that is empty, or that [json.loads] rejects
    with a [JSONDecodeError], changes nothing: the tool returns what it
    returns without that line, wherever the line stands. *)
Theorem rag_unreadable_lines_are_skipped (json_loads : string → Rag.res json)
    (describe : Rag.misuse → string) (endpoint query folder model_name : string) (top_k : Z)
    (status : Rag.res unit) (ending : option Rag.raised) (body : Rag.res json)
    (before after : list string) (line : string) :
  (line = "" ∨
   ∃ e, json_loads line = Rag.Err e ∧ Rag.is_JSONDecodeError (Rag.cls e) = true) →
  Rag.post_question_to_ia json_loads describe endpoint query folder model_name top_k
    (λ _ _ _, Rag.Ok {| Rag.raise_for_status := status;
                        Rag.iter_lines := before ++ line :: after;
                        Rag.iter_lines_end := ending;
                        Rag.response_json := body |})
  = Rag.post_question_to_ia json_loads describe endpoint query folder model_name top_k
      (λ _ _ _, Rag.Ok {| Rag.raise_for_status := status;
                          Rag.iter_lines := before ++ after;
                          Rag.iter_lines_end := ending;
                          Rag.response_json := body |}).
Proof.
  intros Hline. unfold Rag.post_question_to_ia. simpl.
  rewrite !rag_read_lines_app.
  assert (∀ f r, Rag.read_lines json_loads describe (line :: after) f r
                 = Rag.read_lines json_loads describe after f r) as Hskip.
  { intros f r. simpl. destruct (String.eqb_spec line "") as [->|Hne]; [done|].
    destruct Hline as [?|(e & -> & ->)]; done. }
  destruct (Rag.read_lines json_loads describe before "" []) as [[f r]|e]; [|done].
  by rewrite Hskip.
Qed.

(** X26, instance: a line that is not JSON between two that are. *)
Lemma rag_unreadable_lines_are_skipped_witness :
  Rag.post_question_to_ia Rag.sample_loads Rag.sample_describe "http://ia"
    "What is policy X?" "All" "gpt-4.1" 5
    (Rag.post_answering ["line-hello"; "data: ping"; "line-world"])
  = Rag.Ok (JObj [("response", JStr "Hello world"); ("reference", JArr [])]).
Proof.
  etrans.
  - refine (rag_unreadable_lines_are_skipped Rag.sample_loads Rag.sample_describe "http://ia"
              "What is policy X?" "All" "gpt-4.1" 5 (Rag.Ok tt) None _
              ["line-hello"] ["line-world"] "data: ping" _).
    right. eexists. split; reflexivity.
  - reflexivity.
Defined.

Lemma string_concat_empty_cons (x : string) (l : list string) :
  String.concat "" (x :: l) = x +:+ String.concat "" l.
Proof. destruct l; simpl; [by rewrite string_app_nil_r|done]. Qed.

Lemma rag_read_contents json_loads describe (parts : list (string * string)) full_sentence
    reference :
  Forall (λ part, part.1 ≠ "" ∧
                  ∃ members, json_loads part.1 = Rag.Ok (JObj members) ∧
                             Dict.get "content" members = Some (JStr part.2) ∧
                             Dict.get "work_citation_lookup" members = None) parts →
  Rag.read_lines json_loads describe parts.*1 full_sentence reference
  = Rag.Ok (full_sentence +:+ String.concat "" parts.*2, reference).
Proof.
  intros Hparts. revert full_sentence.
  induction Hparts as [|[line s] parts (Hne & members & Hloads & Hcontent & Hlookup) _ IH];
    intros full_sentence.
  - simpl. by rewrite string_app_nil_r.
  - rewrite !fmap_cons. cbn [fst snd] in *.
    rewrite string_concat_empty_cons, string_app_assoc.
    remember (String.concat "" parts.*2) as joined eqn:Hjoined.
    cbn [Rag.read_lines].
    destruct (String.eqb_spec line ""); [done|]. rewrite Hloads.
    unfold Rag.take_line, Rag.get, mbind, Rag.res_bind, mret, Rag.res_ret.
    rewrite Hcontent, Hlookup. simpl.
    destruct (String.eqb_spec s "") as [->|_]; simpl; rewrite IH; [|done].
    by rewrite string_app_nil_r.
Qed.

(** X27: when every line of the answer is an object whose [content] is a
    string and that carries no citation lookup, the tool returns those
    strings joined in the order of the lines as [response], with an empty
    [reference]. *)
Theorem rag_response_concatenates_contents (json_loads : string → Rag.res json)
    (describe : Rag.misuse → string) (endpoint query folder model_name : string) (top_k : Z)
    (body : Rag.res json) (parts : list (string * string)) :
  query ≠ "" →
  Forall (λ part, part.1 ≠ "" ∧
                  ∃ members, json_loads part.1 = Rag.Ok (JObj members) ∧
                             Dict.get "content" members = Some (JStr part.2) ∧
                             Dict.get "work_citation_lookup" members = None) parts →
  Rag.post_question_to_ia json_loads describe endpoint query folder model_name top_k
    (λ _ _ _, Rag.Ok {| Rag.raise_for_status := Rag.Ok tt;
                        Rag.iter_lines := parts.*1;
                        Rag.iter_lines_end := None;
                        Rag.response_json := body |})
  = Rag.Ok (JObj [("response", JStr (String.concat "" parts.*2)); ("reference", JArr [])]).
Proof.
  intros Hquery Hparts. unfold Rag.post_question_to_ia.
  destruct (String.eqb_spec query ""); [done|]. simpl.
  by rewrite (rag_read_contents _ _ _ _ _ Hparts).
Qed.

(** X27, instance: two lines of text. *)
Lemma rag_response_concatenates_contents_witness :
  Rag.post_question_to_ia Rag.sample_loads Rag.sample_describe "http://ia"
    "What is policy X?" "All" "gpt-4.1" 5 (Rag.post_answering ["line-hello"; "line-world"])
  = Rag.Ok (JObj [("response", JStr "Hello world"); ("reference", JArr [])]).
Proof.
  refine (rag_response_concatenates_contents Rag.sample_loads Rag.sample_describe "http://ia"
            "What is policy X?" "All" "gpt-4.1" 5 _
            [("line-hello", "Hello "); ("line-world", "world")] _ _).
  - discriminate.
  - repeat constructor; try discriminate; simpl; eexists; by split_and!.
Defined.

(** X28: a line whose citation lookup is not empty replaces the reference
    list: from that line on, the loop goes the same way whatever references
    the earlier lines had produced, so that only the last such line's
    references are returned. *)
Theorem rag_citation_lookup_replaces_reference (json_loads : string → Rag.res json)
    (describe : Rag.misuse → string) (line : string) (members : list (string * json))
    (rest : list string) (full_sentence : string) (earlier other : list json) :
  line ≠ "" →
  json_loads line = Rag.Ok (JObj members) →
  Rag.json_truthy (default (JObj []) (Dict.get "work_citation_lookup" members)) = true →
  Rag.read_lines json_loads describe (line :: rest) full_sentence earlier
  = Rag.read_lines json_loads describe (line :: rest) full_sentence other.
Proof.
  intros Hne Hloads Htruthy. simpl.
  destruct (String.eqb_spec line ""); [done|]. rewrite Hloads.
  assert (Rag.take_line describe (JObj members) full_sentence earlier
          = Rag.take_line describe (JObj members) full_sentence other) as ->; [|done].
  unfold Rag.take_line, Rag.get, mbind, Rag.res_bind, mret, Rag.res_ret.
  rewrite Htruthy. by repeat case_match.
Qed.

(** X28, instance: the cited line after some earlier reference. *)
Lemma rag_citation_lookup_replaces_reference_witness :
  Rag.read_lines Rag.sample_loads Rag.sample_describe ["line-cited"] "" [JStr "earlier"]
  = Rag.read_lines Rag.sample_loads Rag.sample_describe ["line-cited"] "" [].
Proof.
  refine (rag_citation_lookup_replaces_reference Rag.sample_loads Rag.sample_describe
            "line-cited" _ [] "" [JStr "earlier"] [] _ eq_refl eq_refl).
  discriminate.
Defined.

Lemma strip_prefix_app (p s : string) : Rag.strip_prefix p (p +:+ s) = Some s.
Proof.
  induction p as [|c p IH]; [by destruct s|].
  rewrite string_app_cons. simpl. by rewrite Ascii.eqb_refl.
Qed.

Lemma strip_prefix_prefix (p s r : string) :
  Rag.strip_prefix p s = Some r → String.prefix p s = true.
Proof.
  revert s. induction p as [|c p IH]; intros s; [by destruct s|].
  destruct s as [|c' s]; simpl; [done|].
  destruct (Ascii.eqb_spec c c') as [->|Hne]; [|done].
  destruct (Ascii.ascii_dec c' c'); [apply IH|done].
Qed.

Lemma prefix_strip_prefix (p s : string) :
  String.prefix p s = true → is_Some (Rag.strip_prefix p s).
Proof.
  revert s. induction p as [|c p IH]; intros s; [by destruct s; eexists|].
  destruct s as [|c' s]; simpl; [done|].
  destruct (Ascii.ascii_dec c c') as [->|Hne]; [|done].
  rewrite Ascii.eqb_refl. apply IH.
Qed.

Lemma prefix_of_longer (p a b : string) :
  String.prefix p (a +:+ b) = true →
  String.length p ≤ String.length a →
  String.prefix p a = true.
Proof.
  revert a. induction p as [|c p IH]; intros a; [by destruct a|].
  destruct a as [|c' a]; simpl; [lia|].
  destruct (Ascii.ascii_dec c c'); [|done]. intros Hp Hlen. apply IH; [done|lia].
Qed.

Lemma after_first_unfold (sep s : string) :
  Rag.after_first sep s
  = match Rag.strip_prefix sep s with
    | Some rest => Some rest
    | None => match s with
              | EmptyString => None
              | String _ rest => Rag.after_first sep rest
              end
    end.
Proof. by destruct s. Qed.

(** [split(sep, 1)[1]] exists whenever [sep in s]. *)
Lemma contains_after_first (sep s : string) :
  contains sep s = true → is_Some (Rag.after_first sep s).
Proof.
  induction s as [|c s IH]; cbn [contains]; rewrite after_first_unfold.
  - rewrite orb_false_r. intros [r ->]%prefix_strip_prefix. by eexists.
  - intros [[r ->]%prefix_strip_prefix|Hlater]%orb_true_iff; [by eexists|].
    destruct (Rag.strip_prefix sep (String c s)); [by eexists|by apply IH].
Qed.

(** What follows the first occurrence: when the separator does not occur
    before position [length pre], the text after it is returned. *)
Lemma after_first_first_occurrence (init : string) (last : Ascii.ascii) (pre post : string) :
  contains (init +:+ String last "") (pre +:+ init) = false →
  Rag.after_first (init +:+ String last "") (pre +:+ (init +:+ String last "") +:+ post)
  = Some post.
Proof.
  induction pre as [|c pre IH]; intros Hfirst.
  - change ("" +:+ (init +:+ String last "") +:+ post)
      with ((init +:+ String last "") +:+ post).
    by rewrite after_first_unfold, strip_prefix_app.
  - rewrite string_app_cons in Hfirst. cbn [contains] in Hfirst.
    apply orb_false_iff in Hfirst as [Hhere Hlater].
    rewrite string_app_cons, after_first_unfold.
    destruct (Rag.strip_prefix _ _) as [r|] eqn:Hstrip; [|by apply IH].
    apply strip_prefix_prefix in Hstrip.
    assert (String c (pre +:+ (init +:+ String last "") +:+ post)
            = String c (pre +:+ init) +:+ String last post) as Heq.
    { rewrite string_app_cons. f_equal.
      rewrite <- (string_app_assoc init), string_app_assoc. done. }
    rewrite Heq in Hstrip. apply prefix_of_longer in Hstrip; [congruence|].
    rewrite string_length_app. simpl. rewrite string_length_app. lia.
Qed.

(** X29: the entry built for a citation record with a string [citation]
    and a [page_number] carries the key, the page number unchanged, and as
    citation the string itself when it does not contain ["/content/"],
    otherwise what follows the first ["/content/"] in it. *)
Theorem rag_citation_entry_strips_path (describe : Rag.misuse → string) (key : string)
    (record : list (string * json)) (s : string) (page_number : json) :
  Dict.get "citation" record = Some (JStr s) →
  Dict.get "page_number" record = Some page_number →
  (contains "/content/" s = false →
   Rag.citation_entry describe key (JObj record)
   = Rag.Ok (JObj [("citation_key", JStr key); ("citation", JStr s);
                   ("page_number", page_number)])) ∧
  (∀ pre post,
     s = pre +:+ "/content/" +:+ post →
     contains "/content/" (pre +:+ "/content") = false →
     Rag.citation_entry describe key (JObj record)
     = Rag.Ok (JObj [("citation_key", JStr key); ("citation", JStr post);
                     ("page_number", page_number)])).
Proof.
  intros Hcitation Hpage.
  unfold Rag.citation_entry, Rag.subscript, Rag.content_in, Rag.split_content,
    mbind, Rag.res_bind, mret, Rag.res_ret.
  rewrite Hcitation, Hpage. split.
  - by intros ->.
  - intros pre post -> Hfirst.
    assert (contains "/content/" (pre +:+ "/content/" +:+ post) = true) as ->.
    { apply contains_spec. by exists pre, post. }
    pose proof (after_first_first_occurrence "/content" (Ascii.ascii_of_nat 47) pre post Hfirst)
      as Hafter.
    change ("/content" +:+ String (Ascii.ascii_of_nat 47) "") with "/content/" in Hafter.
    by rewrite Hafter.
Qed.

(** X29, instance: a blob URL is cut after its first ["/content/"]. *)
Lemma rag_citation_entry_strips_path_witness :
  Rag.citation_entry Rag.sample_describe "File0"
    (JObj [("citation", JStr "https://host/content/docs/content/a.pdf");
           ("page_number", JNum 3)])
  = Rag.Ok (JObj [("citation_key", JStr "File0"); ("citation", JStr "docs/content/a.pdf");
                  ("page_number", JNum 3)]).
Proof.
  exact (proj2 (rag_citation_entry_strips_path Rag.sample_describe "File0"
                  [("citation", JStr "https://host/content/docs/content/a.pdf");
                   ("page_number", JNum 3)]
                  "https://host/content/docs/content/a.pdf" (JNum 3) eq_refl eq_refl)
           "https://host" "docs/content/a.pdf" eq_refl eq_refl).
Defined.

Lemma rag_build_reference_stops describe (good : list (string * json)) key value others
    entries e :
  Rag.build_reference describe good = Rag.Ok entries →
  Rag.citation_entry describe key value = Rag.Err e →
  Rag.build_reference describe (good ++ (key, value) :: others) = Rag.Err e.
Proof.
  revert entries. induction good as [|[k v] good IH]; intros entries; simpl.
  - by intros _ ->.
  - destruct (Rag.citation_entry describe k v) as [entry|e1]; [|done].
    destruct (Rag.build_reference describe good) as [built|e2] eqn:Hgood; [|done].
    intros _ He. by rewrite (IH built).
Qed.

(** X30: one citation record that cannot be built costs the whole answer.
    When the records before it in its lookup are well formed, a record
    without a [citation] entry makes the tool return the unexpected-error
    object naming that key, and a record with a string citation but without
    a [page_number] the one naming [page_number], whatever text the earlier
    lines had delivered and whatever follows. *)
Theorem rag_malformed_citation_discards_answer (json_loads : string → Rag.res json)
    (describe : Rag.misuse → string) (endpoint query folder model_name : string) (top_k : Z)
    (ending : option Rag.raised) (body : Rag.res json)
    (before after : list string) (line : string) (members record : list (string * json))
    (key : string) (good others : list (string * json)) (entries : list json)
    (text content : string) (references : list json) :
  query ≠ "" →
  Rag.read_lines json_loads describe before "" [] = Rag.Ok (text, references) →
  line ≠ "" →
  json_loads line = Rag.Ok (JObj members) →
  default (JStr "") (Dict.get "content" members) = JStr content →
  Dict.get "work_citation_lookup" members
    = Some (JObj (good ++ (key, JObj record) :: others)) →
  Rag.build_reference describe good = Rag.Ok entries →
  (Dict.get "citation" record = None →
   Rag.post_question_to_ia json_loads describe endpoint query folder model_name top_k
     (λ _ _ _, Rag.Ok {| Rag.raise_for_status := Rag.Ok tt;
                         Rag.iter_lines := before ++ line :: after;
                         Rag.iter_lines_end := ending;
                         Rag.response_json := body |})
   = Rag.Ok (Rag.error_payload "Unexpected error: 'citation'")) ∧
  (∀ s, Dict.get "citation" record = Some (JStr s) →
        Dict.get "page_number" record = None →
   Rag.post_question_to_ia json_loads describe endpoint query folder model_name top_k
     (λ _ _ _, Rag.Ok {| Rag.raise_for_status := Rag.Ok tt;
                         Rag.iter_lines := before ++ line :: after;
                         Rag.iter_lines_end := ending;
                         Rag.response_json := body |})
   = Rag.Ok (Rag.error_payload "Unexpected error: 'page_number'")).
Proof.
  intros Hquery Hbefore Hline Hloads Hcontent Hlookup Hgood.
  assert (∀ e, Rag.citation_entry describe key (JObj record) = Rag.Err e →
               Rag.post_question_to_ia json_loads describe endpoint query folder model_name top_k
                 (λ _ _ _, Rag.Ok {| Rag.raise_for_status := Rag.Ok tt;
                                     Rag.iter_lines := before ++ line :: after;
                                     Rag.iter_lines_end := ending;
                                     Rag.response_json := body |})
               = Rag.except_chain "IA service" (Rag.Err e)) as Hstops.
  { intros e He.
    unfold Rag.post_question_to_ia. destruct (String.eqb_spec query ""); [done|]. simpl.
    rewrite rag_read_lines_app, Hbefore. simpl.
    destruct (String.eqb_spec line ""); [done|]. rewrite Hloads.
    unfold Rag.take_line, Rag.get, mbind, Rag.res_bind, mret, Rag.res_ret.
    rewrite Hcontent, Hlookup. cbn [from_option id Rag.items].
    assert (Rag.json_truthy (JObj (good ++ (key, JObj record) :: others)) = true) as ->
      by (by destruct good).
    rewrite (rag_build_reference_stops _ _ _ _ _ _ _ Hgood He). simpl.
    by destruct (negb (content =? "")%string). }
  split.
  - intros Hcitation. rewrite (Hstops {| Rag.cls := Rag.KeyError; Rag.text := "'citation'" |}).
    + done.
    + unfold Rag.citation_entry, Rag.subscript, mbind, Rag.res_bind.
      by rewrite Hcitation.
  - intros s Hcitation Hpage.
    rewrite (Hstops {| Rag.cls := Rag.KeyError; Rag.text := "'page_number'" |}).
    + done.
    + unfold Rag.citation_entry, Rag.subscript, Rag.content_in, Rag.split_content,
        mbind, Rag.res_bind.
      rewrite Hcitation, Hpage. by destruct (contains "/content/" s).
Qed.

(** X30, instance: text, then a lookup whose second record has no page
    number. *)
Lemma rag_malformed_citation_discards_answer_witness :
  Rag.post_question_to_ia Rag.sample_loads Rag.sample_describe "http://ia"
    "What is policy X?" "All" "gpt-4.1" 5
    (Rag.post_answering ["line-hello"; "line-missing-page"; "line-world"])
  = Rag.Ok (Rag.error_payload "Unexpected error: 'page_number'").
Proof.
  refine (proj2 (rag_malformed_citation_discards_answer Rag.sample_loads Rag.sample_describe
            "http://ia" "What is policy X?" "All" "gpt-4.1" 5 None _
            ["line-hello"] ["line-world"] "line-missing-page" _
            [("citation", JStr "https://host/docs/b.pdf")] "File1"
            [("File0", JObj [("citation", JStr "https://host/content/docs/a.pdf");
                             ("page_number", JNum 3)])] [] _ _ ""
            _ _ eq_refl _ eq_refl eq_refl eq_refl eq_refl) _ eq_refl eq_refl); discriminate.
Defined.
